(** * SRE-SENTINAL: a shallow embedding of the agent's decision code

    The development follows the TypeScript sources:

    - [src/policy/safety-check.step.ts]      (module [Policy])
    - [src/services/sandbox-monitor.ts]      (module [SandboxMonitor])
    - [src/services/docker-stats.ts]         (module [DockerStats])
    - [services/slack-interactive.ts]        (module [SlackInteractive])
    - [services/infrastructure-simulator.ts] (module [Simulator])
    - [services/prometheus-client.ts]        (module [Prometheus])
    - [src/services/rollback-manager.ts]     (module [RollbackManager])
    - [src/api/manual-approval.step.ts]      (module [ManualApproval])
    - [api/manual-rollback.step.ts]          (module [ManualRollback])
    - [src/errors/sentinal-errors.ts] and
      [middlewares/error-handler.middleware.ts] (module [Errors])
    - [middlewares/auth.middleware.ts]       (module [Auth])
    - [services/fix-executor.ts]             (module [FixExecutor])

    with [getRollbackStats] of the rollback manager in [RollbackStats] and
    the handler of [/approvals/pending] in [ListPendingApprovals].

    JavaScript numbers are rationals ([Q]) where the code computes with
    fractions and integers ([Z]) for byte counts and epoch milliseconds;
    NaN and the infinities are outside the model.  Strings are byte strings;
    [toLowerCase] lowers the letters A to Z and nothing else, which is what
    JavaScript does on ASCII text, so statements that compare texts whatever
    their case are made for ASCII texts ([isAsciiText]).  A command line
    given to [execSync] is run by a shell: the container runtime of the
    model answers for container names the shell reads as one word
    ([plainName]), and what a shell does with other names is outside the
    model.
    Effects (the key/value state, emitted events, the sandbox directory, the
    clock, [Math.random], the container runtime and the chat webhook) are
    threaded through one [World] by a state-and-exception monad.  Calls to
    the logger and to [console] have no effect on that world and are left
    out. *)

From Stdlib Require Import ZArith QArith Qround Qabs String Ascii List Lia.
From stdpp Require Import gmap strings list pretty.
Import ListNotations.

Set Warnings "-register-all".
Close Scope Q_scope.
Local Open Scope string_scope.
Local Open Scope list_scope.
Local Open Scope Z_scope.

(** ** JavaScript built-ins used by the sources *)

Module Js.

(** [String.prototype.toLowerCase], on the ASCII letters: on a text with
    other letters JavaScript lowers those too (and U+212A to [k]), which
    these definitions do not. *)
Definition lowerChar (c : ascii) : ascii :=
  let n := N_of_ascii c in
  if ((65 <=? n) && (n <=? 90))%N then ascii_of_N (n + 32) else c.

Fixpoint toLowerCase (s : string) : string :=
  match s with
  | EmptyString => EmptyString
  | String c s' => String (lowerChar c) (toLowerCase s')
  end.

(** [String.prototype.includes]: [needle] occurs in [s] at some offset. *)
Fixpoint includes (needle s : string) : bool :=
  String.prefix needle s
  || match s with
     | EmptyString => false
     | String _ s' => includes needle s'
     end.

(** [Array.prototype.includes] on an array of strings. *)
Definition arrayIncludes (x : string) (l : list string) : bool :=
  existsb (String.eqb x) l.

(** [Array.prototype.join]. *)
Fixpoint join (sep : string) (l : list string) : string :=
  match l with
  | [] => ""
  | [x] => x
  | x :: l' => x +:+ sep +:+ join sep l'
  end.

(** A string is truthy when it is not empty. *)
Definition truthy (s : string) : bool := negb (String.eqb s "").

(** [a || b] on strings. *)
Definition orElse (a b : string) : string := if truthy a then a else b.

(** [x || d] where [x] may be [undefined]. *)
Definition optOrElse (a : option string) (d : string) : string :=
  match a with
  | Some s => orElse s d
  | None => d
  end.

(** [Math.round]: the nearest integer, halves going up. *)
Definition round (x : Q) : Z := Qfloor (x + (1 # 2))%Q.

Definition Qlt_bool (x y : Q) : bool := negb (Qle_bool y x).

(** Decimal digits of a non-negative integer, left-padded with zeros. *)
Fixpoint zeros (n : nat) : string :=
  match n with
  | O => ""
  | S n' => String "0" (zeros n')
  end.

Definition pad (width : nat) (n : Z) : string :=
  let s := pretty n in
  zeros (width - String.length s) +:+ s.

(** [Number.prototype.toFixed(f)], on the exact value: JavaScript rounds
    the binary double, whose last digit can differ at a tie (70.05 is
    printed 70.0 there and 70.1 here). *)
Definition toFixed (f : nat) (x : Q) : string :=
  let sign := if Qlt_bool x 0 then "-" else "" in
  let n := Qfloor (Qabs x * inject_Z (10 ^ Z.of_nat f) + (1 # 2))%Q in
  match f with
  | O => sign +:+ pretty n
  | _ =>
      let m := pad (S f) n in
      let k := (String.length m - f)%nat in
      sign +:+ substring 0 k m +:+ "." +:+ substring k f m
  end.

(** Template literals print an integer in decimal. *)
Definition showZ (n : Z) : string := pretty n.

(** [Date.prototype.toISOString] of a time value in epoch milliseconds:
    the proleptic Gregorian date of the day, then the time of day. *)
Definition civil (days : Z) : Z * Z * Z :=
  let z := days + 719468 in
  let era := z / 146097 in
  let doe := z - era * 146097 in
  let yoe := (doe - doe / 1460 + doe / 36524 - doe / 146096) / 365 in
  let doy := doe - (365 * yoe + yoe / 4 - yoe / 100) in
  let mp := (5 * doy + 2) / 153 in
  let d := doy - (153 * mp + 2) / 5 + 1 in
  let m := if mp <? 10 then mp + 3 else mp - 9 in
  let y := yoe + era * 400 + (if m <=? 2 then 1 else 0) in
  (y, m, d).

Definition showYear (y : Z) : string :=
  if (0 <=? y) && (y <=? 9999) then pad 4 y
  else if y <? 0 then "-" +:+ pad 6 (- y)
  else "+" +:+ pad 6 y.

Definition toISOString (ms : Z) : string :=
  let '(y, m, d) := civil (ms / 86400000) in
  let t := ms mod 86400000 in
  showYear y +:+ "-" +:+ pad 2 m +:+ "-" +:+ pad 2 d +:+ "T"
  +:+ pad 2 (t / 3600000) +:+ ":" +:+ pad 2 (t / 60000 mod 60) +:+ ":"
  +:+ pad 2 (t / 1000 mod 60) +:+ "." +:+ pad 3 (t mod 1000) +:+ "Z".

(** [x.toString(36).substr(2, 9)] of a fraction [0 <= x < 1]: its first
    base-36 digits, at most nine, ending where the expansion ends. *)
Definition digit36 (d : Z) : ascii :=
  match String.get (Z.to_nat d) "0123456789abcdefghijklmnopqrstuvwxyz" with
  | Some c => c
  | None => "0"%char
  end.

Fixpoint base36Fraction (n : nat) (x : Q) : string :=
  match n with
  | O => ""
  | S n' =>
      if Qeq_bool x 0 then ""
      else
        let y := (x * 36)%Q in
        let d := Qfloor y in
        String (digit36 d) (base36Fraction n' (y - inject_Z d)%Q)
  end.

(** [Array.prototype.sort] with a comparator [key a - key b]: a stable
    sort, ascending in [key]. *)
Section Sort.
Context {A : Type} (key : A -> Q).

Fixpoint insertSorted (x : A) (l : list A) : list A :=
  match l with
  | [] => [x]
  | y :: l' =>
      if Qle_bool (key x) (key y) then x :: l
      else y :: insertSorted x l'
  end.

Definition sortBy (l : list A) : list A :=
  fold_right insertSorted [] l.
End Sort.

(** The line feed, and [String.prototype.trim]. *)
Definition nl : string := String (ascii_of_nat 10) "".

Definition isSpace (c : ascii) : bool :=
  let n := N_of_ascii c in
  ((n =? 32) || ((9 <=? n) && (n <=? 13)))%N.

Fixpoint trimStart (s : string) : string :=
  match s with
  | String c s' => if isSpace c then trimStart s' else s
  | EmptyString => EmptyString
  end.

Fixpoint trimEnd (s : string) : string :=
  match s with
  | String c s' =>
      match trimEnd s' with
      | EmptyString => if isSpace c then EmptyString else String c EmptyString
      | t => String c t
      end
  | EmptyString => EmptyString
  end.

Definition trim (s : string) : string := trimEnd (trimStart s).

(** [l.slice(0, -n)]: everything but the last [n] elements. *)
Definition dropLast {A : Type} (n : nat) (l : list A) : list A :=
  firstn (length l - n) l.

End Js.

(** ** Data model ([src/types/incidents.types.ts] and the interfaces
    declared by the services) *)

Inductive AlertType :=
| high_memory
| container_down
| disk_full
| network_latency
| cpu_spike
| sandbox_disk_full.

Definition alertTypeName (t : AlertType) : string :=
  match t with
  | high_memory => "high_memory"
  | container_down => "container_down"
  | disk_full => "disk_full"
  | network_latency => "network_latency"
  | cpu_spike => "cpu_spike"
  | sandbox_disk_full => "sandbox_disk_full"
  end.

Inductive Severity := SevLow | SevMedium | SevHigh | SevCritical.

Inductive RiskLevel := RiskLow | RiskMedium | RiskHigh.

Definition riskLevelName (r : RiskLevel) : string :=
  match r with
  | RiskLow => "low"
  | RiskMedium => "medium"
  | RiskHigh => "high"
  end.

Inductive ContainerStatus := running | stopped | crashed.

Definition isRunning (s : ContainerStatus) : bool :=
  match s with
  | running => true
  | _ => false
  end.

Record MemoryMetrics := {
  mem_used : Q;
  mem_total : Q;
  mem_percentage : Q;
}.

Record CpuMetrics := { cpu_usage : Q }.

Record DiskMetrics := {
  disk_used : Q;
  disk_total : Q;
  disk_percentage : Q;
}.

Record ContainerInfo := {
  c_name : string;
  c_status : ContainerStatus;
  c_restartCount : Z;
}.

Record NetworkMetrics := {
  net_latency : Q;
  net_errorRate : Q;
}.

Record InfrastructureMetrics := {
  memory : MemoryMetrics;
  cpu : CpuMetrics;
  disk : DiskMetrics;
  containers : list ContainerInfo;
  network : NetworkMetrics;
}.

Inductive HealthStatus := healthy | unhealthy.

Record HealthCheckResult := {
  hc_resource : string;
  hc_status : HealthStatus;
  hc_metric : string;
  hc_value : Q;
  hc_threshold : Q;
  hc_timestamp : string;
}.

(** The [metadata] object built by [createAlert]. *)
Record AlertMetadata := {
  md_healthCheck : HealthCheckResult;
  md_source : option string;
  md_alertType : AlertType;
  md_diskUsagePercent : option Q;
}.

Record AlertData := {
  alert_id : string;
  alert_alertType : AlertType;
  alert_severity : Severity;
  alert_timestamp : string;
  alert_metric : string;
  alert_currentValue : Q;
  alert_threshold : Q;
  alert_affectedResource : string;
  alert_logs : list string;
  alert_metadata : AlertMetadata;
}.

(** A value of type [unknown], as far as the code inspects it. *)
Inductive JsValue :=
| JsString (s : string)
| JsNumber (q : Q)
| JsBoolean (b : bool)
| JsNull
| JsObject.

(** [RCAResultSchema] of the policy step; [metadata] is an optional
    [z.record(z.string(), z.unknown())]. *)
Record RCAResult := {
  rca_incidentId : string;
  rca_summary : string;
  rca_rootCause : string;
  rca_proposedFix : string;
  rca_riskLevel : RiskLevel;
  rca_estimatedImpact : string;
  rca_timestamp : string;
  rca_metadata : option (gmap string JsValue);
}.

Record PolicyRules := {
  autoApproveThreshold : string;
  requireApprovalFor : list string;
  rejectFor : list string;
  allowedActions : list string;
  blockedActions : list string;
}.

Inductive PolicyAction := auto_approve | require_approval | reject.

Record PolicyDecisionRecord := {
  pd_incidentId : string;
  pd_decision : PolicyAction;
  pd_reason : string;
  pd_riskLevel : RiskLevel;
  pd_evaluatedAt : string;
  pd_rcaSummary : string;
  pd_proposedFix : string;
}.

Record PolicyRejection := {
  rej_incidentId : string;
  rej_reason : string;
  rej_rejectedAt : string;
}.

(** What [SlackInteractiveService.executeAction] returns. *)
Record ActionResult := {
  ar_success : bool;
  ar_message : string;
  ar_logs : list string;
}.

Record PendingApproval := {
  pa_incidentId : string;
  pa_status : string;
  pa_requestedAt : string;
  pa_riskLevel : RiskLevel;
  pa_rcaSummary : string;
  pa_proposedFix : string;
  pa_approver : option string;
  pa_approvedAt : option string;
  pa_executionResult : option ActionResult;
  pa_actionType : option string;
}.

Record RollbackSnapshot := {
  snap_incidentId : string;
  snap_alertType : string;
  snap_timestamp : string;
  snap_affectedResource : string;
  snap_beforeState : list (string * string);
  snap_fixApplied : option string;
  snap_fixDetails : list (string * string);
}.

Record RollbackResult := {
  rb_success : bool;
  rb_incidentId : string;
  rb_rollbackTimestamp : string;
  rb_duration : Z;
  rb_errors : option (list string);
  rb_verificationPassed : bool;
}.

(** [{...result, reason, snapshot}] as stored under [rollback-history]. *)
Record RollbackHistoryEntry := {
  rh_result : RollbackResult;
  rh_reason : string;
  rh_snapshot : RollbackSnapshot;
}.

(** The state groups the embedded code reads and writes; [state.get]
    answers [null] for a key that is not in the group. *)
Record State := {
  policy_rules : gmap string PolicyRules;
  policy_decisions : gmap string PolicyDecisionRecord;
  policy_rejections : gmap string PolicyRejection;
  approval_pending : gmap string PendingApproval;
  rca_results : gmap string RCAResult;
  rollback_snapshots : gmap string RollbackSnapshot;
  rollback_history : gmap string RollbackHistoryEntry;
}.

(** Payloads of the emitted events. *)
Record FixApprovedData := {
  fa_incidentId : string;
  fa_approvalType : string;
  fa_approvedBy : string;
  fa_approvedAt : string;
  fa_rcaResult : RCAResult;
  fa_executionResult : option ActionResult;
  fa_actionType : option string;
}.

Record ApprovalRequiredData := {
  rq_incidentId : string;
  rq_riskLevel : RiskLevel;
  rq_reason : string;
  rq_rcaResult : RCAResult;
  rq_requestedAt : string;
}.

Record FixRejectedData := {
  fr_incidentId : string;
  fr_rejectedBy : string;
  fr_rejectedAt : string;
  fr_reason : string;
}.

Inductive EventData :=
| FixApproved (d : FixApprovedData)
| ApprovalRequired (d : ApprovalRequiredData)
| FixRejected (d : FixRejectedData).

Record Event := {
  topic : string;
  data : EventData;
}.

(** The sandbox directory tree: a regular file with its size and
    modification time, or a directory with its entries in the order
    [readdir] lists them.  The tree holds regular files and directories
    the process may read and write; links and permissions are outside the
    model. *)
Inductive FsNode :=
| File (size : Z) (mtime : Z)
| Dir (mtime : Z) (entries : list (string * FsNode)).

(** One row of [docker stats], as [getContainerStats] parses it. *)
Record ContainerStats := {
  cs_name : string;
  cs_id : string;
  cs_cpuPercentage : Q;
  cs_memoryUsage : string;
  cs_memoryPercentage : Q;
  cs_memoryLimit : string;
  cs_netIO : string;
  cs_blockIO : string;
  cs_pids : Z;
  cs_status : ContainerStatus;
}.

(** A webhook POST body. *)
Record SlackPayload := {
  sp_text : string;
  sp_blocks : list string;
  sp_color : string;
}.

Inductive JsError :=
| Error (message : string)
| RollbackError (incidentId : string) (message : string) (originalError : JsError).

(** ** The world the code runs in *)

Record World := {
  w_state : State;
  w_events : list Event;
  (** the directory at SANDBOX_PATH, if it exists *)
  w_sandbox : option FsNode;
  (** [InfrastructureSimulator.scenarioActive] and [scenarioStartTime] *)
  w_scenarioActive : option AlertType;
  w_scenarioStartTime : Z;
  (** successive readings of the clock, and how many were taken *)
  w_clock : nat -> Z;
  w_ticks : nat;
  (** successive results of [Math.random()], and how many were drawn *)
  w_random : nat -> Q;
  w_draws : nat;
  (** the container runtime: the rows of the n-th [docker stats] report
      ([None] when the command fails or prints nothing) and the outcome of
      the n-th [docker restart] (its output, or the error message) *)
  w_dockerStats : nat -> option (list ContainerStats);
  w_dockerRestart : nat -> string -> string + string;
  w_execs : nat;
  (** SLACK_WEBHOOK_URL and the bodies posted to it *)
  w_webhookUrl : string;
  w_posted : list SlackPayload;
}.

Inductive Result (A : Type) :=
| Ok (a : A)
| Throw (e : JsError).
Arguments Ok {A} a.
Arguments Throw {A} e.

(** Computations: they change the world and return or throw. *)
Definition M (A : Type) : Type := World -> World * Result A.

Definition ret {A} (a : A) : M A := fun w => (w, Ok a).

Definition bind {A B} (m : M A) (k : A -> M B) : M B :=
  fun w =>
    match m w with
    | (w', Ok a) => k a w'
    | (w', Throw e) => (w', Throw e)
    end.

Definition throw {A} (e : JsError) : M A := fun w => (w, Throw e).

(** [try { m } catch (e) { h e }] *)
Definition tryCatch {A} (m : M A) (h : JsError -> M A) : M A :=
  fun w =>
    match m w with
    | (w', Ok a) => (w', Ok a)
    | (w', Throw e) => h e w'
    end.

Declare Scope m_scope.
Delimit Scope m_scope with M.
Notation "x <- m ;; k" := (bind m (fun x => k))
  (at level 100, m at next level, right associativity) : m_scope.
Notation "m ;; k" := (bind m (fun _ => k))
  (at level 100, right associativity) : m_scope.
Local Open Scope m_scope.

(** [for (const x of l) { f x }] *)
Fixpoint forEach {A} (l : list A) (f : A -> M unit) : M unit :=
  match l with
  | [] => ret tt
  | x :: l' => f x ;; forEach l' f
  end.

(** [Promise.all(l.map(f))], and loops that build a result *)
Fixpoint mapM {A B} (f : A -> M B) (l : list A) : M (list B) :=
  match l with
  | [] => ret []
  | x :: l' => y <- f x ;; ys <- mapM f l' ;; ret (y :: ys)
  end.

Fixpoint foldM {A B} (f : B -> A -> M B) (b : B) (l : list A) : M B :=
  match l with
  | [] => ret b
  | x :: l' => b' <- f b x ;; foldM f b' l'
  end.

Definition get {A} (f : World -> A) : M A := fun w => (w, Ok (f w)).

Definition modify (f : World -> World) : M unit := fun w => (f w, Ok tt).

Definition errorMessage (e : JsError) : string :=
  match e with
  | Error m => m
  | RollbackError _ m _ => m
  end.

(** *** Updating one component of the world *)

Definition withState (s : State) (w : World) : World :=
  {| w_state := s; w_events := w_events w; w_sandbox := w_sandbox w;
     w_scenarioActive := w_scenarioActive w;
     w_scenarioStartTime := w_scenarioStartTime w;
     w_clock := w_clock w; w_ticks := w_ticks w;
     w_random := w_random w; w_draws := w_draws w;
     w_dockerStats := w_dockerStats w; w_dockerRestart := w_dockerRestart w;
     w_execs := w_execs w;
     w_webhookUrl := w_webhookUrl w; w_posted := w_posted w |}.

Definition withEvents (l : list Event) (w : World) : World :=
  {| w_state := w_state w; w_events := l; w_sandbox := w_sandbox w;
     w_scenarioActive := w_scenarioActive w;
     w_scenarioStartTime := w_scenarioStartTime w;
     w_clock := w_clock w; w_ticks := w_ticks w;
     w_random := w_random w; w_draws := w_draws w;
     w_dockerStats := w_dockerStats w; w_dockerRestart := w_dockerRestart w;
     w_execs := w_execs w;
     w_webhookUrl := w_webhookUrl w; w_posted := w_posted w |}.

Definition withSandbox (fs : option FsNode) (w : World) : World :=
  {| w_state := w_state w; w_events := w_events w; w_sandbox := fs;
     w_scenarioActive := w_scenarioActive w;
     w_scenarioStartTime := w_scenarioStartTime w;
     w_clock := w_clock w; w_ticks := w_ticks w;
     w_random := w_random w; w_draws := w_draws w;
     w_dockerStats := w_dockerStats w; w_dockerRestart := w_dockerRestart w;
     w_execs := w_execs w;
     w_webhookUrl := w_webhookUrl w; w_posted := w_posted w |}.

Definition withScenario (a : option AlertType) (t : Z) (w : World) : World :=
  {| w_state := w_state w; w_events := w_events w; w_sandbox := w_sandbox w;
     w_scenarioActive := a;
     w_scenarioStartTime := t;
     w_clock := w_clock w; w_ticks := w_ticks w;
     w_random := w_random w; w_draws := w_draws w;
     w_dockerStats := w_dockerStats w; w_dockerRestart := w_dockerRestart w;
     w_execs := w_execs w;
     w_webhookUrl := w_webhookUrl w; w_posted := w_posted w |}.

Definition tick (w : World) : World :=
  {| w_state := w_state w; w_events := w_events w; w_sandbox := w_sandbox w;
     w_scenarioActive := w_scenarioActive w;
     w_scenarioStartTime := w_scenarioStartTime w;
     w_clock := w_clock w; w_ticks := S (w_ticks w);
     w_random := w_random w; w_draws := w_draws w;
     w_dockerStats := w_dockerStats w; w_dockerRestart := w_dockerRestart w;
     w_execs := w_execs w;
     w_webhookUrl := w_webhookUrl w; w_posted := w_posted w |}.

Definition draw (w : World) : World :=
  {| w_state := w_state w; w_events := w_events w; w_sandbox := w_sandbox w;
     w_scenarioActive := w_scenarioActive w;
     w_scenarioStartTime := w_scenarioStartTime w;
     w_clock := w_clock w; w_ticks := w_ticks w;
     w_random := w_random w; w_draws := S (w_draws w);
     w_dockerStats := w_dockerStats w; w_dockerRestart := w_dockerRestart w;
     w_execs := w_execs w;
     w_webhookUrl := w_webhookUrl w; w_posted := w_posted w |}.

Definition exec (w : World) : World :=
  {| w_state := w_state w; w_events := w_events w; w_sandbox := w_sandbox w;
     w_scenarioActive := w_scenarioActive w;
     w_scenarioStartTime := w_scenarioStartTime w;
     w_clock := w_clock w; w_ticks := w_ticks w;
     w_random := w_random w; w_draws := w_draws w;
     w_dockerStats := w_dockerStats w; w_dockerRestart := w_dockerRestart w;
     w_execs := S (w_execs w);
     w_webhookUrl := w_webhookUrl w; w_posted := w_posted w |}.

Definition withPosted (l : list SlackPayload) (w : World) : World :=
  {| w_state := w_state w; w_events := w_events w; w_sandbox := w_sandbox w;
     w_scenarioActive := w_scenarioActive w;
     w_scenarioStartTime := w_scenarioStartTime w;
     w_clock := w_clock w; w_ticks := w_ticks w;
     w_random := w_random w; w_draws := w_draws w;
     w_dockerStats := w_dockerStats w; w_dockerRestart := w_dockerRestart w;
     w_execs := w_execs w;
     w_webhookUrl := w_webhookUrl w; w_posted := l |}.

(** *** Primitive effects *)

(** [Date.now()] *)
Definition dateNow : M Z :=
  fun w => (tick w, Ok (w_clock w (w_ticks w))).

(** [new Date().toISOString()] *)
Definition newDateISO : M string :=
  t <- dateNow ;; ret (Js.toISOString t).

(** [Math.random()] *)
Definition mathRandom : M Q :=
  fun w => (draw w, Ok (w_random w (w_draws w))).

(** [emit({ topic, data })] *)
Definition emit (e : Event) : M unit :=
  modify (fun w => withEvents (w_events w ++ [e]) w).

(** A state group: its name and where it lives in [State]. *)
Record Group (A : Type) := {
  g_name : string;
  g_read : State -> gmap string A;
  g_write : gmap string A -> State -> State;
}.
Arguments g_name {A} g.
Arguments g_read {A} g s.
Arguments g_write {A} g m s.

(** [state.get(group, key)] and [state.set(group, key, value)] *)
Definition stateGet {A} (g : Group A) (key : string) : M (option A) :=
  get (fun w => g_read g (w_state w) !! key).

Definition stateSet {A} (g : Group A) (key : string) (v : A) : M unit :=
  modify (fun w =>
    withState (g_write g (<[key := v]> (g_read g (w_state w))) (w_state w)) w).

Definition G_policy_rules : Group PolicyRules :=
  {| g_name := "policy-rules"; g_read := policy_rules;
     g_write m s :=
       {| policy_rules := m; policy_decisions := policy_decisions s;
          policy_rejections := policy_rejections s;
          approval_pending := approval_pending s;
          rca_results := rca_results s;
          rollback_snapshots := rollback_snapshots s;
          rollback_history := rollback_history s |} |}.

Definition G_policy_decisions : Group PolicyDecisionRecord :=
  {| g_name := "policy-decisions"; g_read := policy_decisions;
     g_write m s :=
       {| policy_rules := policy_rules s; policy_decisions := m;
          policy_rejections := policy_rejections s;
          approval_pending := approval_pending s;
          rca_results := rca_results s;
          rollback_snapshots := rollback_snapshots s;
          rollback_history := rollback_history s |} |}.

Definition G_policy_rejections : Group PolicyRejection :=
  {| g_name := "policy-rejections"; g_read := policy_rejections;
     g_write m s :=
       {| policy_rules := policy_rules s;
          policy_decisions := policy_decisions s;
          policy_rejections := m;
          approval_pending := approval_pending s;
          rca_results := rca_results s;
          rollback_snapshots := rollback_snapshots s;
          rollback_history := rollback_history s |} |}.

Definition G_approval_pending : Group PendingApproval :=
  {| g_name := "approval-pending"; g_read := approval_pending;
     g_write m s :=
       {| policy_rules := policy_rules s;
          policy_decisions := policy_decisions s;
          policy_rejections := policy_rejections s;
          approval_pending := m;
          rca_results := rca_results s;
          rollback_snapshots := rollback_snapshots s;
          rollback_history := rollback_history s |} |}.

Definition G_rca_results : Group RCAResult :=
  {| g_name := "rca-results"; g_read := rca_results;
     g_write m s :=
       {| policy_rules := policy_rules s;
          policy_decisions := policy_decisions s;
          policy_rejections := policy_rejections s;
          approval_pending := approval_pending s;
          rca_results := m;
          rollback_snapshots := rollback_snapshots s;
          rollback_history := rollback_history s |} |}.

Definition G_rollback_snapshots : Group RollbackSnapshot :=
  {| g_name := "rollback-snapshots"; g_read := rollback_snapshots;
     g_write m s :=
       {| policy_rules := policy_rules s;
          policy_decisions := policy_decisions s;
          policy_rejections := policy_rejections s;
          approval_pending := approval_pending s;
          rca_results := rca_results s;
          rollback_snapshots := m;
          rollback_history := rollback_history s |} |}.

Definition G_rollback_history : Group RollbackHistoryEntry :=
  {| g_name := "rollback-history"; g_read := rollback_history;
     g_write m s :=
       {| policy_rules := policy_rules s;
          policy_decisions := policy_decisions s;
          policy_rejections := policy_rejections s;
          approval_pending := approval_pending s;
          rca_results := rca_results s;
          rollback_snapshots := rollback_snapshots s;
          rollback_history := m |} |}.

(** ** The sandbox file system ([fs/promises]) *)

Module Fs.

Record Stats := {
  isDirectory : bool;
  st_size : Z;
  st_mtime : Z;
}.

Fixpoint lookupEntry (name : string) (es : list (string * FsNode))
  : option FsNode :=
  match es with
  | [] => None
  | (n, c) :: es' => if String.eqb n name then Some c else lookupEntry name es'
  end.

(** The node a path (relative to SANDBOX_PATH) leads to. *)
Fixpoint resolve (path : list string) (n : FsNode) : option FsNode :=
  match path with
  | [] => Some n
  | name :: rest =>
      match n with
      | File _ _ => None
      | Dir _ es =>
          match lookupEntry name es with
          | Some c => resolve rest c
          | None => None
          end
      end
  end.

Definition lookupPath (path : list string) (root : option FsNode)
  : option FsNode :=
  match root with
  | Some n => resolve path n
  | None => None
  end.

Definition ENOENT (syscall : string) : JsError :=
  Error ("ENOENT: no such file or directory, " +:+ syscall).
Definition ENOTDIR (syscall : string) : JsError :=
  Error ("ENOTDIR: not a directory, " +:+ syscall).
Definition EISDIR (syscall : string) : JsError :=
  Error ("EISDIR: illegal operation on a directory, " +:+ syscall).

(** [fs.stat]; the size of a directory is never read by the callers. *)
Definition stat (path : list string) : M Stats :=
  root <- get w_sandbox ;;
  match lookupPath path root with
  | Some (File size mtime) =>
      ret {| isDirectory := false; st_size := size; st_mtime := mtime |}
  | Some (Dir mtime _) =>
      ret {| isDirectory := true; st_size := 0; st_mtime := mtime |}
  | None => throw (ENOENT "stat")
  end.

(** [fs.readdir]: the names of the entries. *)
Definition readdir (path : list string) : M (list string) :=
  root <- get w_sandbox ;;
  match lookupPath path root with
  | Some (Dir _ es) => ret (map fst es)
  | Some (File _ _) => throw (ENOTDIR "scandir")
  | None => throw (ENOENT "scandir")
  end.

(** Replace the entry [name] by what [f] makes of it ([None]: remove it). *)
Fixpoint updateEntry (name : string) (f : FsNode -> Result (option FsNode))
    (es : list (string * FsNode)) : Result (list (string * FsNode)) :=
  match es with
  | [] => Throw (ENOENT "unlink")
  | (n, c) :: es' =>
      if String.eqb n name then
        match f c with
        | Ok (Some c') => Ok ((n, c') :: es')
        | Ok None => Ok es'
        | Throw e => Throw e
        end
      else
        match updateEntry name f es' with
        | Ok r => Ok ((n, c) :: r)
        | Throw e => Throw e
        end
  end.

(** Removing the regular file at [path] below the node [n].  The
    modification time of the directory it is removed from is left as it
    was: the callers read the times of entries of temp/ and logs/ only, and
    remove nothing below such an entry. *)
Fixpoint unlinkAt (path : list string) (n : FsNode)
  : Result (option FsNode) :=
  match path with
  | [] =>
      match n with
      | File _ _ => Ok None
      | Dir _ _ => Throw (EISDIR "unlink")
      end
  | name :: rest =>
      match n with
      | File _ _ => Throw (ENOTDIR "unlink")
      | Dir mtime es =>
          match updateEntry name (unlinkAt rest) es with
          | Ok es' => Ok (Some (Dir mtime es'))
          | Throw e => Throw e
          end
      end
  end.

(** [fs.unlink] *)
Definition unlink (path : list string) : M unit :=
  root <- get w_sandbox ;;
  match root with
  | None => throw (ENOENT "unlink")
  | Some n =>
      match unlinkAt path n with
      | Ok n' => modify (withSandbox n')
      | Throw e => throw e
      end
  end.

End Fs.

(** ** [src/services/sandbox-monitor.ts] *)

Module SandboxMonitor.

Definition THRESHOLD_MB : Z := 100.
Definition SAFE_CLEANUP_DIRS : list string := ["logs"; "temp"; "cache"].

Record SandboxFiles := {
  f_logs : Z;
  f_temp : Z;
  f_cache : Z;
  f_data : Z;
}.

Record SandboxMetrics := {
  totalSizeMB : Z;
  totalSizeBytes : Z;
  percentage : Z;
  files : SandboxFiles;
}.

Record CleanupResult := {
  success : bool;
  message : string;
  freedMB : Z;
  details : list string;
}.

(** The recursion of [getDirectorySize] below a path whose [stat]
    succeeded: a file counts its size, a directory the sum over the entries
    [readdir] lists. *)
Fixpoint sizeOfNode (n : FsNode) : Z :=
  match n with
  | File size _ => size
  | Dir _ es =>
      fold_left (fun total size => total + size)
        (map (fun e => match e with (_, c) => sizeOfNode c end) es) 0
  end.

(** [getDirectorySize]: a path that cannot be read counts as 0. *)
Definition getDirectorySize (dirPath : list string) : M Z :=
  tryCatch
    (root <- get w_sandbox ;;
     match Fs.lookupPath dirPath root with
     | Some n => ret (sizeOfNode n)
     | None => throw (Fs.ENOENT "stat")
     end)
    (fun _ => ret 0).

Definition countFiles (dirPath : list string) : M Z :=
  tryCatch
    (files <- Fs.readdir dirPath ;; ret (Z.of_nat (length files)))
    (fun _ => ret 0).

Definition collectMetrics : M SandboxMetrics :=
  totalSizeBytes <- getDirectorySize [] ;;
  let totalSizeMB := Js.round (inject_Z totalSizeBytes / inject_Z (1024 * 1024)) in
  let percentage :=
    Js.round (inject_Z totalSizeMB / inject_Z THRESHOLD_MB * 100) in
  logs <- countFiles ["logs"] ;;
  temp <- countFiles ["temp"] ;;
  cache <- countFiles ["cache"] ;;
  data <- countFiles ["data"] ;;
  ret {| totalSizeMB := totalSizeMB;
         totalSizeBytes := totalSizeBytes;
         percentage := percentage;
         files := {| f_logs := logs; f_temp := temp;
                     f_cache := cache; f_data := data |} |}.

Definition isOverThreshold : M bool :=
  metrics <- collectMetrics ;;
  ret (THRESHOLD_MB <=? totalSizeMB metrics).

Record LogStat := {
  ls_name : string;
  ls_path : list string;
  ls_mtime : Z;
}.

(** The three phases of [executeCleanup], each in its own [try]/[catch].
    The array [details] is pushed to only at the end of a phase or in its
    [catch], so each phase hands on the extended array. *)

(** Temp files older than 0.01 hours. *)
Definition cleanTemp (details : list string) : M (list string) :=
  let tempDir := ["temp"] in
  tryCatch
    (tempFiles <- Fs.readdir tempDir ;;
     tempDeleted <-
       foldM (fun tempDeleted file =>
                let filePath := tempDir ++ [file] in
                stat <- Fs.stat filePath ;;
                now <- dateNow ;;
                let ageHours :=
                  (inject_Z (now - Fs.st_mtime stat)
                   / inject_Z (1000 * 60 * 60))%Q in
                if Js.Qlt_bool 0.01 ageHours then
                  Fs.unlink filePath ;; ret (tempDeleted + 1)
                else ret tempDeleted)
             0 tempFiles ;;
     ret (if 0 <? tempDeleted
          then details ++ ["Deleted " +:+ Js.showZ tempDeleted +:+ " temp files"]
          else details))
    (fun _ => ret (details ++ ["Temp directory cleanup skipped (not found)"])).

(** Old logs, keeping the 5 newest. *)
Definition cleanLogs (details : list string) : M (list string) :=
  let logsDir := ["logs"] in
  tryCatch
    (logFiles <- Fs.readdir logsDir ;;
     logStats <-
       mapM (fun file =>
               stat <- Fs.stat (logsDir ++ [file]) ;;
               ret {| ls_name := file; ls_path := logsDir ++ [file];
                      ls_mtime := Fs.st_mtime stat |})
            logFiles ;;
     let logStats := Js.sortBy (fun a => inject_Z (ls_mtime a)) logStats in
     let toDelete := Js.dropLast 5 logStats in
     forEach toDelete (fun file => Fs.unlink (ls_path file)) ;;
     ret (if (0 <? length toDelete)%nat
          then details ++ ["Deleted " +:+ Js.showZ (Z.of_nat (length toDelete))
                           +:+ " old log files"]
          else details))
    (fun _ => ret (details ++ ["Logs cleanup skipped (not found)"])).

(** The cache, all files. *)
Definition cleanCache (details : list string) : M (list string) :=
  let cacheDir := ["cache"] in
  tryCatch
    (cacheFiles <- Fs.readdir cacheDir ;;
     forEach cacheFiles (fun file => Fs.unlink (cacheDir ++ [file])) ;;
     ret (if (0 <? length cacheFiles)%nat
          then details ++ ["Cleared " +:+ Js.showZ (Z.of_nat (length cacheFiles))
                           +:+ " cache files"]
          else details))
    (fun _ => ret (details ++ ["Cache cleanup skipped (not found)"])).

Definition executeCleanup : M CleanupResult :=
  beforeMetrics <- collectMetrics ;;
  let details : list string := [] in
  tryCatch
    (details <- cleanTemp details ;;
     details <- cleanLogs details ;;
     details <- cleanCache details ;;
     afterMetrics <- collectMetrics ;;
     let freedMB := totalSizeMB beforeMetrics - totalSizeMB afterMetrics in
     ret {| success := true;
            message := "Successfully freed " +:+ Js.showZ freedMB
                       +:+ "MB of disk space in sandbox";
            freedMB := freedMB;
            details := details |})
    (fun error =>
       ret {| success := false;
              message := "Cleanup failed: " +:+ errorMessage error;
              freedMB := 0;
              details := ["Cleanup encountered an error"] |}).

Record VerifyResult := {
  v_success : bool;
  v_message : string;
  currentSizeMB : Z;
  belowThreshold : bool;
}.

Definition verifyCleanup : M VerifyResult :=
  metrics <- collectMetrics ;;
  let belowThreshold := totalSizeMB metrics <? THRESHOLD_MB in
  ret {| v_success := belowThreshold;
         v_message :=
           if belowThreshold
           then "Sandbox size (" +:+ Js.showZ (totalSizeMB metrics)
                +:+ "MB) is now below threshold (" +:+ Js.showZ THRESHOLD_MB +:+ "MB)"
           else "Sandbox size (" +:+ Js.showZ (totalSizeMB metrics)
                +:+ "MB) is still above threshold (" +:+ Js.showZ THRESHOLD_MB +:+ "MB)";
         currentSizeMB := totalSizeMB metrics;
         belowThreshold := belowThreshold |}.

End SandboxMonitor.

(** ** [src/services/docker-stats.ts] *)

Module DockerStats.

Record DockerStatsResult := {
  ds_containers : list ContainerStats;
  totalContainers : Z;
  runningContainers : Z;
  highMemoryContainers : list ContainerStats;
  recommendations : list string;
}.

Definition getEmptyResult : DockerStatsResult :=
  {| ds_containers := []; totalContainers := 0; runningContainers := 0;
     highMemoryContainers := [];
     recommendations := ["⚠️ Unable to fetch container stats"] |}.

(** [generateRecommendations] sorts the array [highMemoryContainers] it is
    given in place, highest memory first; the array after the call is
    returned with the recommendations. *)
Definition generateRecommendations
    (containers highMemoryContainers : list ContainerStats)
  : list string * list ContainerStats :=
  let sorted :=
    Js.sortBy (fun c => (- cs_memoryPercentage c)%Q) highMemoryContainers in
  let recommendations :=
    match sorted with
    | [] => []
    | topMemoryContainer :: _ =>
        ["⚠️ " +:+ Js.showZ (Z.of_nat (length highMemoryContainers))
         +:+ " container(s) using >70% memory";
         "🎯 Consider restarting: " +:+ cs_name topMemoryContainer +:+ " ("
         +:+ Js.toFixed 1 (cs_memoryPercentage topMemoryContainer)
         +:+ "% memory)"]
    end in
  let recommendations :=
    if (5 <? length containers)%nat
    then recommendations ++ ["💡 Multiple containers running - consider scaling down"]
    else recommendations in
  let highCPU := filter (fun c => Js.Qlt_bool 80 (cs_cpuPercentage c)) containers in
  let recommendations :=
    if existsb (fun c => Js.Qlt_bool 80 (cs_cpuPercentage c)) containers
    then recommendations ++ ["🔥 " +:+ Js.showZ (Z.of_nat (length highCPU))
                             +:+ " container(s) using >80% CPU"]
    else recommendations in
  let recommendations :=
    if (length recommendations =? 0)%nat
    then ["✅ All containers operating normally"]
    else recommendations in
  (recommendations, sorted).

(** [execSync('docker stats ...')], parsed. *)
Definition execDockerStats : M (option (list ContainerStats)) :=
  fun w => (exec w, Ok (w_dockerStats w (w_execs w))).

(** [execSync(`docker restart ${containerName}`)].  The command line is
    run by a shell, and the name is put in it as it comes.  The oracle
    answers for the command [docker restart] on that name alone, which is
    what runs when the shell reads the name as one word; a name with blanks
    or shell metacharacters makes the shell run something else, which this
    world does not describe. *)
Definition execDockerRestart (containerName : string) : M string :=
  fun w =>
    (exec w,
     match w_dockerRestart w (w_execs w) containerName with
     | inr output => Ok output
     | inl msg => Throw (Error msg)
     end).

Definition getContainerStats : M DockerStatsResult :=
  rows <- execDockerStats ;;
  match rows with
  | None => ret getEmptyResult
  | Some containers =>
      let highMemoryContainers :=
        filter (fun c => Js.Qlt_bool 70 (cs_memoryPercentage c)) containers in
      let '(recommendations, highMemoryContainers) :=
        generateRecommendations containers highMemoryContainers in
      ret {| ds_containers := containers;
             totalContainers := Z.of_nat (length containers);
             runningContainers := Z.of_nat (length containers);
             highMemoryContainers := highMemoryContainers;
             recommendations := recommendations |}
  end.

Definition getContainerStatsById (containerId : string)
  : M (option ContainerStats) :=
  result <- getContainerStats ;;
  ret (find (fun c => String.eqb (cs_id c) containerId
                      || String.eqb (cs_name c) containerId)
            (ds_containers result)).

(** [restartContainer]: only the restart command can throw, so the lines
    logged before it are those the [catch] block extends. *)
Definition restartContainer (containerName : string) : M ActionResult :=
  let logs := ["🔄 Restarting container: " +:+ containerName] in
  statsBefore <- getContainerStatsById containerName ;;
  let logs :=
    match statsBefore with
    | Some st =>
        logs ++ ["   Memory before: " +:+ cs_memoryUsage st +:+ " ("
                 +:+ Js.toFixed 1 (cs_memoryPercentage st) +:+ "%)";
                 "   CPU before: " +:+ Js.toFixed 1 (cs_cpuPercentage st) +:+ "%"]
    | None => logs
    end in
  tryCatch
    (output <- execDockerRestart containerName ;;
     let output := Js.trim output in
     let logs :=
       logs ++ ["✅ Container restarted successfully: "
                +:+ Js.orElse output containerName] in
     statsAfter <- getContainerStatsById containerName ;;
     let logs :=
       match statsAfter with
       | Some st =>
           logs ++ ["   Memory after: " +:+ cs_memoryUsage st +:+ " ("
                    +:+ Js.toFixed 1 (cs_memoryPercentage st) +:+ "%)";
                    "   CPU after: " +:+ Js.toFixed 1 (cs_cpuPercentage st) +:+ "%"]
       | None => logs
       end in
     ret {| ar_success := true;
            ar_message := "Successfully restarted container " +:+ containerName;
            ar_logs := logs |})
    (fun error =>
       ret {| ar_success := false;
              ar_message := "Failed to restart container " +:+ containerName;
              ar_logs := logs ++ ["❌ Failed to restart container: "
                                  +:+ errorMessage error] |}).

End DockerStats.

(** ** [services/slack-interactive.ts] *)

Module SlackInteractive.

(** [sendWebhook]: a POST that fails is caught there and only logged. *)
Definition sendWebhook (payload : SlackPayload) : M unit :=
  modify (fun w => withPosted (w_posted w ++ [payload]) w).

Definition sendActionResult (incidentId action : string) (success : bool)
    (message : string) (logs : list string) : M unit :=
  webhookUrl <- get w_webhookUrl ;;
  if negb (Js.truthy webhookUrl) then ret tt
  else
    let emoji := if success then "✅" else "❌" in
    let color := if success then "#36a64f" else "#ff0000" in
    let blocks :=
      [emoji +:+ " Action " +:+ (if success then "Completed" else "Failed");
       "*Incident:*" +:+ Js.nl +:+ "`" +:+ incidentId +:+ "`";
       "*Action:*" +:+ Js.nl +:+ action;
       "*Result:*" +:+ Js.nl +:+ message] in
    let blocks :=
      if (0 <? length logs)%nat
      then blocks ++ ["*Execution Logs:*" +:+ Js.nl +:+ "```"
                      +:+ Js.join Js.nl (firstn 10 logs) +:+ "```"]
      else blocks in
    sendWebhook
      {| sp_text := emoji +:+ " " +:+ action +:+ " "
                    +:+ (if success then "completed" else "failed");
         sp_blocks := blocks;
         sp_color := color |}.

Record SlackAction := {
  sa_incidentId : string;
  sa_action : string;
  sa_containerName : option string;
  sa_userId : string;
  sa_timestamp : string;
}.

(** [executeAction].  Both [throw] statements are reached before anything
    is pushed to [allLogs], so the [catch] block extends the empty array. *)
Definition executeAction (action : SlackAction) : M ActionResult :=
  let actionType := sa_action action in
  let containerName := sa_containerName action in
  let allLogs : list string := [] in
  tryCatch
    (if String.eqb actionType "clear_sandbox" then
       let allLogs := allLogs ++ ["🧹 Executing sandbox cleanup..."] in
       result <- SandboxMonitor.executeCleanup ;;
       let allLogs := allLogs ++ SandboxMonitor.details result in
       ret {| ar_success := SandboxMonitor.success result;
              ar_message := SandboxMonitor.message result;
              ar_logs := allLogs |}
     else if String.eqb actionType "restart_container" then
       match containerName with
       | Some containerName =>
           if Js.truthy containerName then
             let allLogs := allLogs ++ ["🔄 Restarting container: " +:+ containerName] in
             result <- DockerStats.restartContainer containerName ;;
             let allLogs := allLogs ++ ar_logs result in
             ret {| ar_success := ar_success result;
                    ar_message := ar_message result;
                    ar_logs := allLogs |}
           else throw (Error "Container name is required for restart action")
       | None => throw (Error "Container name is required for restart action")
       end
     else if String.eqb actionType "both" then
       let allLogs := allLogs ++ ["🔧 Executing combined actions..."] in
       let allLogs := allLogs ++ [Js.nl +:+ "--- Clearing Sandbox ---"] in
       sandboxResult <- SandboxMonitor.executeCleanup ;;
       let allLogs := allLogs ++ SandboxMonitor.details sandboxResult in
       if negb (SandboxMonitor.success sandboxResult) then
         ret {| ar_success := false;
                ar_message := "Sandbox cleanup failed";
                ar_logs := allLogs |}
       else
         stats <- DockerStats.getContainerStats ;;
         match DockerStats.highMemoryContainers stats with
         | top :: _ =>
             let targetContainer := cs_name top in
             let allLogs :=
               allLogs ++ [Js.nl +:+ "--- Restarting High Memory Container: "
                           +:+ targetContainer +:+ " ---"] in
             restartResult <- DockerStats.restartContainer targetContainer ;;
             let allLogs := allLogs ++ ar_logs restartResult in
             ret {| ar_success := SandboxMonitor.success sandboxResult
                                  && ar_success restartResult;
                    ar_message := "Cleared "
                      +:+ Js.showZ (SandboxMonitor.freedMB sandboxResult)
                      +:+ "MB from sandbox and restarted " +:+ targetContainer;
                    ar_logs := allLogs |}
         | [] =>
             ret {| ar_success := true;
                    ar_message := "Cleared "
                      +:+ Js.showZ (SandboxMonitor.freedMB sandboxResult)
                      +:+ "MB from sandbox (no containers to restart)";
                    ar_logs := allLogs |}
         end
     else throw (Error ("Unknown action type: " +:+ actionType)))
    (fun error =>
       let errorMsg := errorMessage error in
       ret {| ar_success := false;
              ar_message := "Action failed: " +:+ errorMsg;
              ar_logs := allLogs ++ ["❌ Error: " +:+ errorMsg] |}).

End SlackInteractive.

(** ** [services/infrastructure-simulator.ts] *)

Module Simulator.

(** [collectMetrics] *)
Definition baseMetrics : InfrastructureMetrics :=
  {| memory := {| mem_used := 4096; mem_total := 16384; mem_percentage := 25 |};
     cpu := {| cpu_usage := 15 |};
     disk := {| disk_used := 50; disk_total := 500; disk_percentage := 10 |};
     containers :=
       [ {| c_name := "web-server"; c_status := running; c_restartCount := 0 |};
         {| c_name := "api-server"; c_status := running; c_restartCount := 0 |};
         {| c_name := "worker-1"; c_status := running; c_restartCount := 0 |};
         {| c_name := "redis-cache"; c_status := running; c_restartCount := 0 |} ];
     network := {| net_latency := 45; net_errorRate := 0.1 |} |}%Q.

Definition applyScenario (metrics : InfrastructureMetrics)
    (scenario : AlertType) : InfrastructureMetrics :=
  match scenario with
  | high_memory =>
      {| memory := {| mem_used := 13107; mem_total := 16384;
                      mem_percentage := 80 |}%Q;
         cpu := cpu metrics; disk := disk metrics;
         containers := containers metrics; network := network metrics |}
  | container_down =>
      {| memory := memory metrics; cpu := cpu metrics; disk := disk metrics;
         containers :=
           map (fun c =>
                  if String.eqb (c_name c) "api-server"
                  then {| c_name := c_name c; c_status := crashed;
                          c_restartCount := 3 |}
                  else c)
               (containers metrics);
         network := network metrics |}
  | disk_full =>
      {| memory := memory metrics; cpu := cpu metrics;
         disk := {| disk_used := 480; disk_total := 500;
                    disk_percentage := 96 |}%Q;
         containers := containers metrics; network := network metrics |}
  | network_latency =>
      {| memory := memory metrics; cpu := cpu metrics; disk := disk metrics;
         containers := containers metrics;
         network := {| net_latency := 350; net_errorRate := 5.2 |}%Q |}
  | cpu_spike =>
      {| memory := memory metrics; cpu := {| cpu_usage := 95 |}%Q;
         disk := disk metrics;
         containers := containers metrics; network := network metrics |}
  | sandbox_disk_full =>
      {| memory := memory metrics; cpu := cpu metrics;
         disk := {| disk_used := 110; disk_total := 100;
                    disk_percentage := 110 |}%Q;
         containers := containers metrics; network := network metrics |}
  end.

Definition collectMetrics : M InfrastructureMetrics :=
  now <- dateNow ;;
  let metrics := baseMetrics in
  scenarioActive <- get w_scenarioActive ;;
  match scenarioActive with
  | Some scenario => ret (applyScenario metrics scenario)
  | None => ret metrics
  end.

Definition performHealthChecks (metrics : InfrastructureMetrics)
  : M (list HealthCheckResult) :=
  timestamp <- newDateISO ;;
  let results : list HealthCheckResult := [] in
  (* memory: triggers at 60% or higher *)
  let results := results ++ [
    {| hc_resource := "system-memory";
       hc_status := if Qle_bool 60 (mem_percentage (memory metrics))
                    then unhealthy else healthy;
       hc_metric := "memory_usage_percent";
       hc_value := mem_percentage (memory metrics);
       hc_threshold := 80%Q;
       hc_timestamp := timestamp |} ] in
  (* CPU: triggers at 80% or higher *)
  let results := results ++ [
    {| hc_resource := "system-cpu";
       hc_status := if Qle_bool 80 (cpu_usage (cpu metrics))
                    then unhealthy else healthy;
       hc_metric := "cpu_usage_percent";
       hc_value := cpu_usage (cpu metrics);
       hc_threshold := 80%Q;
       hc_timestamp := timestamp |} ] in
  (* disk: triggers at 95% or higher *)
  let results := results ++ [
    {| hc_resource := "system-disk";
       hc_status := if Qle_bool 95 (disk_percentage (disk metrics))
                    then unhealthy else healthy;
       hc_metric := "disk_usage_percent";
       hc_value := disk_percentage (disk metrics);
       hc_threshold := 95%Q;
       hc_timestamp := timestamp |} ] in
  (* containers *)
  let results := results ++
    map (fun container =>
           {| hc_resource := "container-" +:+ c_name container;
              hc_status := if isRunning (c_status container)
                           then healthy else unhealthy;
              hc_metric := "container_status";
              hc_value := if isRunning (c_status container) then 1%Q else 0%Q;
              hc_threshold := 1%Q;
              hc_timestamp := timestamp |})
        (containers metrics) in
  (* network latency *)
  let results := results ++ [
    {| hc_resource := "network";
       hc_status := if Js.Qlt_bool 200 (net_latency (network metrics))
                    then unhealthy else healthy;
       hc_metric := "network_latency_ms";
       hc_value := net_latency (network metrics);
       hc_threshold := 200%Q;
       hc_timestamp := timestamp |} ] in
  ret results.

(** The first part of [createAlert]: alert type, severity and log lines
    for the metric of the check, or nothing for an unknown metric. *)
Definition classify (check : HealthCheckResult)
  : M (option (AlertType * Severity * list string)) :=
  if String.eqb (hc_metric check) "memory_usage_percent" then
    ret (Some (high_memory,
               if Js.Qlt_bool 92 (hc_value check) then SevCritical else SevHigh,
               ["Memory usage at " +:+ Js.toFixed 1 (hc_value check) +:+ "%";
                "Top process: node (3.2GB)";
                "Available memory: "
                +:+ Js.toFixed 0 ((100 - hc_value check) * 163.84)%Q +:+ "MB"]))
  else if String.eqb (hc_metric check) "cpu_usage_percent" then
    ret (Some (cpu_spike, SevHigh,
               ["CPU usage at " +:+ Js.toFixed 1 (hc_value check) +:+ "%";
                "High load on core 0: 98%";
                "Process causing spike: worker-process"]))
  else if String.eqb (hc_metric check) "disk_usage_percent" then
    if String.eqb (hc_resource check) "sandbox-disk" then
      ret (Some (sandbox_disk_full, SevHigh,
                 ["Sandbox disk usage at " +:+ Js.toFixed 1 (hc_value check) +:+ "MB";
                  "Threshold: 100MB";
                  "Files can be safely cleaned: logs/, temp/, cache/"]))
    else
      ret (Some (disk_full, SevCritical,
                 ["Disk usage at " +:+ Js.toFixed 1 (hc_value check) +:+ "%";
                  "/var/log directory: 25GB";
                  "Docker images: 15GB"]))
  else if String.eqb (hc_metric check) "container_status" then
    now <- dateNow ;;
    ret (Some (container_down, SevCritical,
               ["Container " +:+ hc_resource check +:+ " is not running";
                "Exit code: 137 (OOMKilled)";
                "Last restart: " +:+ Js.toISOString (now - 60000)]))
  else if String.eqb (hc_metric check) "network_latency_ms" then
    ret (Some (network_latency, SevMedium,
               ["Network latency at " +:+ Js.toFixed 0 (hc_value check) +:+ "ms";
                "Packet loss: 2.3%";
                "Route: internal-lb â†’ api-server"]))
  else ret None.

Definition createAlert (check : HealthCheckResult) (timestamp : string)
  : M (option AlertData) :=
  c <- classify check ;;
  match c with
  | None => ret None
  | Some (alertType, severity, logs) =>
      let metadata :=
        {| md_healthCheck := check;
           md_source := None;
           md_alertType := alertType;
           md_diskUsagePercent :=
             if String.eqb (hc_metric check) "disk_usage_percent"
             then Some (hc_value check) else None |} in
      now <- dateNow ;;
      r <- mathRandom ;;
      ret (Some
        {| alert_id := "alert-" +:+ Js.showZ now +:+ "-" +:+ Js.base36Fraction 9 r;
           alert_alertType := alertType;
           alert_severity := severity;
           alert_timestamp := timestamp;
           alert_metric := hc_metric check;
           alert_currentValue := hc_value check;
           alert_threshold := hc_threshold check;
           alert_affectedResource := hc_resource check;
           alert_logs := logs;
           alert_metadata := metadata |})
  end.

Definition isUnhealthy (s : HealthStatus) : bool :=
  match s with
  | unhealthy => true
  | healthy => false
  end.

Definition detectAlerts (healthChecks : list HealthCheckResult)
  : M (list AlertData) :=
  timestamp <- newDateISO ;;
  foldM (fun alerts check =>
           if isUnhealthy (hc_status check) then
             alert <- createAlert check timestamp ;;
             match alert with
             | Some alert => ret (alerts ++ [alert])
             | None => ret alerts
             end
           else ret alerts)
        [] healthChecks.

Definition triggerScenario (scenario : AlertType) : M unit :=
  now <- dateNow ;;
  modify (withScenario (Some scenario) now).

Definition clearScenario : M unit :=
  modify (withScenario None 0).

Definition getActiveScenario : M (option AlertType) :=
  get w_scenarioActive.

End Simulator.

(** ** [services/prometheus-client.ts] *)

Module Prometheus.

Definition performHealthChecks (metrics : InfrastructureMetrics)
  : M (list HealthCheckResult) :=
  timestamp <- newDateISO ;;
  let results : list HealthCheckResult := [] in
  (* memory: triggers at 60% or higher *)
  let results := results ++ [
    {| hc_resource := "system-memory";
       hc_status := if Qle_bool 60 (mem_percentage (memory metrics))
                    then unhealthy else healthy;
       hc_metric := "memory_usage_percent";
       hc_value := mem_percentage (memory metrics);
       hc_threshold := 80%Q;
       hc_timestamp := timestamp |} ] in
  (* CPU: triggers at 80% or higher *)
  let results := results ++ [
    {| hc_resource := "system-cpu";
       hc_status := if Qle_bool 80 (cpu_usage (cpu metrics))
                    then unhealthy else healthy;
       hc_metric := "cpu_usage_percent";
       hc_value := cpu_usage (cpu metrics);
       hc_threshold := 80%Q;
       hc_timestamp := timestamp |} ] in
  (* disk: triggers at 95% or higher *)
  let results := results ++ [
    {| hc_resource := "system-disk";
       hc_status := if Qle_bool 95 (disk_percentage (disk metrics))
                    then unhealthy else healthy;
       hc_metric := "disk_usage_percent";
       hc_value := disk_percentage (disk metrics);
       hc_threshold := 95%Q;
       hc_timestamp := timestamp |} ] in
  (* containers *)
  let results := results ++
    map (fun container =>
           {| hc_resource := "container-" +:+ c_name container;
              hc_status := if isRunning (c_status container)
                           then healthy else unhealthy;
              hc_metric := "container_status";
              hc_value := if isRunning (c_status container) then 1%Q else 0%Q;
              hc_threshold := 1%Q;
              hc_timestamp := timestamp |})
        (containers metrics) in
  (* network latency *)
  let results := results ++ [
    {| hc_resource := "network";
       hc_status := if Js.Qlt_bool 200 (net_latency (network metrics))
                    then unhealthy else healthy;
       hc_metric := "network_latency_ms";
       hc_value := net_latency (network metrics);
       hc_threshold := 200%Q;
       hc_timestamp := timestamp |} ] in
  ret results.

End Prometheus.

(** ** [src/policy/safety-check.step.ts] *)

Module Policy.

Definition defaultRules : PolicyRules :=
  {| autoApproveThreshold := "low";
     requireApprovalFor := ["medium"; "high"];
     rejectFor := [];
     allowedActions := ["restart"; "scale"; "clear-cache"; "update-config"];
     blockedActions := ["delete-data"; "drop-database"] |}.

(** [loadPolicyRules]: [savedRules || defaultRules]. *)
Definition loadPolicyRules : M PolicyRules :=
  tryCatch
    (savedRules <- stateGet G_policy_rules "default" ;;
     ret (match savedRules with
          | Some rules => rules
          | None => defaultRules
          end))
    (fun _ =>
       stateSet G_policy_rules "default" defaultRules ;;
       ret defaultRules).

Record Decision := {
  action : PolicyAction;
  reason : string;
}.

(** [metadata?.alertType === 'sandbox_disk_full'] *)
Definition isSandboxAlert (metadata : option (gmap string JsValue)) : bool :=
  match metadata with
  | Some m =>
      match m !! "alertType" with
      | Some (JsString s) => String.eqb s "sandbox_disk_full"
      | _ => false
      end
  | None => false
  end.

Definition evaluatePolicy (rcaResult : RCAResult) (rules : PolicyRules)
  : Decision :=
  let riskLevel := rca_riskLevel rcaResult in
  let proposedFix := rca_proposedFix rcaResult in
  let metadata := rca_metadata rcaResult in
  (* special case: sandbox cleanup always needs a human *)
  if isSandboxAlert metadata then
    {| action := require_approval;
       reason := "Sandbox cleanup always requires human approval for safety" |}
  else
    (* blocked actions: the loop returns at the first keyword found *)
    match find (fun blockedAction =>
                  Js.includes (Js.toLowerCase blockedAction)
                              (Js.toLowerCase proposedFix))
               (blockedActions rules) with
    | Some blockedAction =>
        {| action := reject;
           reason := "Proposed fix contains blocked action: " +:+ blockedAction |}
    | None =>
        if String.eqb (riskLevelName riskLevel) "low"
           && String.eqb (autoApproveThreshold rules) "low" then
          {| action := auto_approve;
             reason := "Low-risk fix meets auto-approval criteria" |}
        else if Js.arrayIncludes (riskLevelName riskLevel)
                  (requireApprovalFor rules) then
          {| action := require_approval;
             reason := "Risk level '" +:+ riskLevelName riskLevel
                       +:+ "' requires human approval per policy" |}
        else
          {| action := require_approval;
             reason := "Default policy: require human approval" |}
    end.

Definition handler (rcaResult : RCAResult) : M unit :=
  tryCatch
    (let incidentId := rca_incidentId rcaResult in
     let riskLevel := rca_riskLevel rcaResult in
     let proposedFix := rca_proposedFix rcaResult in
     let summary := rca_summary rcaResult in
     policyRules <- loadPolicyRules ;;
     let decision := evaluatePolicy rcaResult policyRules in
     evaluatedAt <- newDateISO ;;
     stateSet G_policy_decisions incidentId
       {| pd_incidentId := incidentId;
          pd_decision := action decision;
          pd_reason := reason decision;
          pd_riskLevel := riskLevel;
          pd_evaluatedAt := evaluatedAt;
          pd_rcaSummary := summary;
          pd_proposedFix := proposedFix |} ;;
     match action decision with
     | auto_approve =>
         approvedAt <- newDateISO ;;
         emit {| topic := "fix.approved";
                 data := FixApproved
                   {| fa_incidentId := incidentId;
                      fa_approvalType := "automatic";
                      fa_approvedBy := "policy-engine";
                      fa_approvedAt := approvedAt;
                      fa_rcaResult := rcaResult;
                      fa_executionResult := None;
                      fa_actionType := None |} |}
     | require_approval =>
         requestedAt <- newDateISO ;;
         emit {| topic := "approval.required";
                 data := ApprovalRequired
                   {| rq_incidentId := incidentId;
                      rq_riskLevel := riskLevel;
                      rq_reason := reason decision;
                      rq_rcaResult := rcaResult;
                      rq_requestedAt := requestedAt |} |} ;;
         requestedAt <- newDateISO ;;
         stateSet G_approval_pending incidentId
           {| pa_incidentId := incidentId;
              pa_status := "pending";
              pa_requestedAt := requestedAt;
              pa_riskLevel := riskLevel;
              pa_rcaSummary := summary;
              pa_proposedFix := proposedFix;
              pa_approver := None;
              pa_approvedAt := None;
              pa_executionResult := None;
              pa_actionType := None |}
     | reject =>
         rejectedAt <- newDateISO ;;
         stateSet G_policy_rejections incidentId
           {| rej_incidentId := incidentId;
              rej_reason := reason decision;
              rej_rejectedAt := rejectedAt |}
     end)
    (fun error => throw error).

End Policy.

(** ** [src/errors/sentinal-errors.ts] and
    [middlewares/error-handler.middleware.ts] *)

Module Errors.

(** [new RollbackError(incidentId, reason, originalError)].  The
    constructor also stamps the error with the time, a clock reading the
    model does not count. *)
Definition newRollbackError (incidentId reason : string)
    (originalError : JsError) : JsError :=
  RollbackError incidentId
    ("Rollback failed for incident " +:+ incidentId +:+ ": " +:+ reason)
    originalError.

(** [error.name]: the name of the constructor. *)
Definition errorName (e : JsError) : string :=
  match e with
  | Error _ => "Error"
  | RollbackError _ _ _ => "RollbackError"
  end.

(** [isRecoverableError]: a [RollbackError] is built with
    [recoverable: false]; a plain [Error] is not a [SentinalError]. *)
Definition isRecoverableError (e : JsError) : bool :=
  match e with
  | Error _ => false
  | RollbackError _ _ _ => false
  end.

(** The status the global error handler answers with for a thrown
    [Error]. *)
Definition errorHandlerStatus (e : JsError) : Z :=
  if Js.includes "not found" (errorMessage e) then 404
  else if Js.includes "unauthorized" (errorMessage e)
          || Js.includes "forbidden" (errorMessage e) then 403
  else 500.

End Errors.

(** ** [src/services/rollback-manager.ts] *)

Module RollbackManager.

Record RollbackProcedure := {
  steps : list string;
  estimatedDuration : Z;
  requiresConfirmation : bool;
}.

(** [captureCurrentState] *)
Definition captureCurrentState (alertType affectedResource : string)
  : M (list (string * string)) :=
  capturedAt <- newDateISO ;;
  let state := [("resource", affectedResource); ("capturedAt", capturedAt)] in
  ret (
    if String.eqb alertType "high_memory" then
      state ++ [("memoryUsage", "captured"); ("runningProcesses", "captured")]
    else if String.eqb alertType "container_down" then
      state ++ [("containerStatus", "captured"); ("containerConfig", "captured")]
    else if String.eqb alertType "disk_full" then
      state ++ [("diskUsage", "captured"); ("largestFiles", "captured")]
    else if String.eqb alertType "cpu_spike" then
      state ++ [("cpuUsage", "captured"); ("processLoad", "captured")]
    else if String.eqb alertType "network_latency" then
      state ++ [("networkMetrics", "captured"); ("routingTable", "captured")]
    else state).

(** [getRollbackProcedure]: [procedures[alertType]], undefined for a key
    the table does not have.  (For a key every object inherits, such as
    ["constructor"], the code finds a value without [steps]; the rollback
    fails there as it does for a missing key, with another message.) *)
Definition getRollbackProcedure (alertType : string)
  : option RollbackProcedure :=
  if String.eqb alertType "high_memory" then
    Some {| steps := ["Restore previous memory limits";
                      "Restart affected processes with original config";
                      "Verify memory usage returned to baseline"];
            estimatedDuration := 30000;
            requiresConfirmation := false |}
  else if String.eqb alertType "container_down" then
    Some {| steps := ["Restore container to previous state";
                      "Apply original container configuration";
                      "Wait for health checks to pass"];
            estimatedDuration := 45000;
            requiresConfirmation := true |}
  else if String.eqb alertType "disk_full" then
    Some {| steps := ["Restore deleted files if backed up";
                      "Revert log rotation changes";
                      "Verify disk space allocation"];
            estimatedDuration := 60000;
            requiresConfirmation := false |}
  else if String.eqb alertType "cpu_spike" then
    Some {| steps := ["Restore CPU throttling settings";
                      "Revert process priority changes";
                      "Monitor CPU usage stabilization"];
            estimatedDuration := 20000;
            requiresConfirmation := false |}
  else if String.eqb alertType "network_latency" then
    Some {| steps := ["Restore network configuration";
                      "Revert routing table changes";
                      "Verify network latency metrics"];
            estimatedDuration := 40000;
            requiresConfirmation := true |}
  else None.

(** [getFixDescription]: [descriptions[alertType]] *)
Definition getFixDescription (alertType : string) : option string :=
  if String.eqb alertType "high_memory" then
    Some "Memory limit adjustment and process restart"
  else if String.eqb alertType "container_down" then
    Some "Container restart with health checks"
  else if String.eqb alertType "disk_full" then
    Some "Log rotation and disk cleanup"
  else if String.eqb alertType "cpu_spike" then
    Some "Process throttling and priority adjustment"
  else if String.eqb alertType "network_latency" then
    Some "Network configuration optimization"
  else None.

Definition createSnapshot (incidentId alertType affectedResource : string)
    (fixDetails : list (string * string)) : M RollbackSnapshot :=
  timestamp <- newDateISO ;;
  beforeState <- captureCurrentState alertType affectedResource ;;
  let snapshot :=
    {| snap_incidentId := incidentId;
       snap_alertType := alertType;
       snap_timestamp := timestamp;
       snap_affectedResource := affectedResource;
       snap_beforeState := beforeState;
       snap_fixApplied := getFixDescription alertType;
       snap_fixDetails := fixDetails |} in
  stateSet G_rollback_snapshots incidentId snapshot ;;
  ret snapshot.

(** [executeRollbackStep]: fails when the draw is below 0.05. *)
Definition executeRollbackStep (snapshot : RollbackSnapshot) (step : string)
  : M unit :=
  r <- mathRandom ;;
  if Js.Qlt_bool r 0.05 then throw (Error ("Failed to execute: " +:+ step))
  else ret tt.

(** [verifyRollback] *)
Definition verifyRollback (snapshot : RollbackSnapshot) : M bool :=
  r <- mathRandom ;;
  ret (Js.Qlt_bool r 0.9).

(** The loop over [procedure.steps]; [i] is the index of the first step of
    [l], and the failures are pushed to [errors]. *)
Fixpoint runSteps (snapshot : RollbackSnapshot) (i : Z) (l : list string)
    (errors : list string) : M (list string) :=
  match l with
  | [] => ret errors
  | step :: l' =>
      errors <-
        tryCatch
          (executeRollbackStep snapshot step ;; ret errors)
          (fun error =>
             ret (errors ++ ["Step " +:+ Js.showZ (i + 1) +:+ " failed: "
                             +:+ errorMessage error])) ;;
      runSteps snapshot (i + 1) l' errors
  end.

Definition executeRollback (incidentId reason : string) : M RollbackResult :=
  startTime <- dateNow ;;
  let errors : list string := [] in
  tryCatch
    (snapshot <- stateGet G_rollback_snapshots incidentId ;;
     match snapshot with
     | None =>
         throw (Errors.newRollbackError incidentId "No rollback snapshot found"
                  (Error "Snapshot not in state"))
     | Some snapshot =>
         match getRollbackProcedure (snap_alertType snapshot) with
         | None =>
             (* [procedure.steps] of undefined: a TypeError *)
             throw (Error "Cannot read properties of undefined (reading 'steps')")
         | Some procedure =>
             errors <- runSteps snapshot 0 (steps procedure) errors ;;
             verificationPassed <- verifyRollback snapshot ;;
             now <- dateNow ;;
             let duration := now - startTime in
             let success := (length errors =? 0)%nat && verificationPassed in
             rollbackTimestamp <- newDateISO ;;
             let result :=
               {| rb_success := success;
                  rb_incidentId := incidentId;
                  rb_rollbackTimestamp := rollbackTimestamp;
                  rb_duration := duration;
                  rb_errors := if (0 <? length errors)%nat
                               then Some errors else None;
                  rb_verificationPassed := verificationPassed |} in
             now <- dateNow ;;
             stateSet G_rollback_history (incidentId +:+ "-" +:+ Js.showZ now)
               {| rh_result := result;
                  rh_reason := reason;
                  rh_snapshot := snapshot |} ;;
             ret result
         end
     end)
    (fun error =>
       now <- dateNow ;;
       throw (Errors.newRollbackError incidentId (errorMessage error) error)).

Definition isRollbackAvailable (incidentId : string) : M bool :=
  snapshot <- stateGet G_rollback_snapshots incidentId ;;
  ret (match snapshot with
       | Some _ => true
       | None => false
       end).

End RollbackManager.

(** ** [src/api/manual-approval.step.ts], the GET handler *)

Module ManualApproval.

Inductive UserRole := ADMIN | OPERATOR | VIEWER.

Record User := {
  role : UserRole;
  name : string;
  apiKey : string;
}.

(** The query parameters and the user the auth middleware attached. *)
Record Request := {
  incident : string;
  q_action : string;
  execute : option string;
  container : option string;
  approver : option string;
  user : option User;
}.

Inductive Body :=
| ErrorBody (error : string)
| ApprovalBody (success : bool) (message incidentId action : string).

Record Response := {
  status : Z;
  body : Body;
}.

Definition isAdmin (u : option User) : bool :=
  match u with
  | Some u =>
      match role u with
      | ADMIN => true
      | _ => false
      end
  | None => false
  end.

Definition handler (req : Request) : M Response :=
  let incidentId := incident req in
  let action := q_action req in
  (* [execute] is used where it is truthy, and as ['none'] elsewhere *)
  let execute :=
    match execute req with
    | Some e => if Js.truthy e then Some e else None
    | None => None
    end in
  let containerName := container req in
  let approver := Js.optOrElse (approver req) "slack-interactive" in
  tryCatch
    (pendingApproval <- stateGet G_approval_pending incidentId ;;
     match pendingApproval with
     | None =>
         ret {| status := 404;
                body := ErrorBody ("No pending approval found for incident: "
                                   +:+ incidentId) |}
     | Some pendingApproval =>
         if negb (String.eqb (pa_status pendingApproval) "pending") then
           ret {| status := 400;
                  body := ErrorBody ("Approval already processed with status: "
                                     +:+ pa_status pendingApproval) |}
         else
           rcaResult <- stateGet G_rca_results incidentId ;;
           match rcaResult with
           | None =>
               ret {| status := 404;
                      body := ErrorBody ("RCA result not found for incident: "
                                         +:+ incidentId) |}
           | Some rcaResult =>
               (* what follows the optional execution of the action *)
               let finish (executionResult : option ActionResult) : M Response :=
                 approvedAt <- newDateISO ;;
                 stateSet G_approval_pending incidentId
                   {| pa_incidentId := pa_incidentId pendingApproval;
                      pa_status := if String.eqb action "approve"
                                   then "approved" else "rejected";
                      pa_requestedAt := pa_requestedAt pendingApproval;
                      pa_riskLevel := pa_riskLevel pendingApproval;
                      pa_rcaSummary := pa_rcaSummary pendingApproval;
                      pa_proposedFix := pa_proposedFix pendingApproval;
                      pa_approver := Some approver;
                      pa_approvedAt := Some approvedAt;
                      pa_executionResult := executionResult;
                      pa_actionType := Some (Js.optOrElse execute "none") |} ;;
                 (if String.eqb action "approve" then
                    approvedAt <- newDateISO ;;
                    emit {| topic := "fix.approved";
                            data := FixApproved
                              {| fa_incidentId := incidentId;
                                 fa_approvalType := "interactive";
                                 fa_approvedBy := approver;
                                 fa_approvedAt := approvedAt;
                                 fa_rcaResult := rcaResult;
                                 fa_executionResult := executionResult;
                                 fa_actionType :=
                                   Some (Js.optOrElse execute "none") |} |}
                  else
                    rejectedAt <- newDateISO ;;
                    emit {| topic := "fix.rejected";
                            data := FixRejected
                              {| fr_incidentId := incidentId;
                                 fr_rejectedBy := approver;
                                 fr_rejectedAt := rejectedAt;
                                 fr_reason :=
                                   "Rejected via Slack interactive button" |} |}) ;;
                 ret {| status := 200;
                        body := ApprovalBody true
                          (match executionResult with
                           | Some r => ar_message r
                           | None => "Incident " +:+ action +:+ "d successfully"
                           end)
                          incidentId action |} in
               match execute with
               | Some execute =>
                   if String.eqb action "approve" then
                     if (String.eqb execute "clear_sandbox"
                         || String.eqb execute "both")
                        && negb (isAdmin (user req)) then
                       ret {| status := 403;
                              body := ErrorBody
                                "Unauthorized: clear_sandbox action requires admin role" |}
                     else
                       timestamp <- newDateISO ;;
                       executionResult <-
                         SlackInteractive.executeAction
                           {| SlackInteractive.sa_incidentId := incidentId;
                              SlackInteractive.sa_action := execute;
                              SlackInteractive.sa_containerName := containerName;
                              SlackInteractive.sa_userId := approver;
                              SlackInteractive.sa_timestamp := timestamp |} ;;
                       SlackInteractive.sendActionResult incidentId execute
                         (ar_success executionResult)
                         (ar_message executionResult)
                         (ar_logs executionResult) ;;
                       finish (Some executionResult)
                   else finish None
               | None => finish None
               end
           end
     end)
    (fun error =>
       ret {| status := 400; body := ErrorBody "Failed to process approval" |}).

End ManualApproval.

(** ** [api/manual-rollback.step.ts], the POST handler of [/rollback] *)

Module ManualRollback.

Record Request := {
  incident : string;
  reason : option string;
}.

Inductive Body :=
| NotFoundBody (error incidentId : string)
| ResultBody (message incidentId : string) (result : RollbackResult)
| FailureBody (error message : string).

Record Response := {
  status : Z;
  body : Body;
}.

Definition handler (req : Request) : M Response :=
  let incidentId := incident req in
  let reason := Js.optOrElse (reason req) "Manual rollback requested" in
  tryCatch
    (available <- RollbackManager.isRollbackAvailable incidentId ;;
     if negb available then
       ret {| status := 404;
              body := NotFoundBody "No rollback snapshot found for this incident"
                        incidentId |}
     else
       result <- RollbackManager.executeRollback incidentId reason ;;
       ret {| status := if rb_success result then 200 else 500;
              body := ResultBody
                        (if rb_success result
                         then "Rollback completed successfully"
                         else "Rollback failed - see errors")
                        incidentId result |})
    (fun error =>
       ret {| status := 500;
              body := FailureBody "Rollback execution failed"
                        (errorMessage error) |}).

End ManualRollback.

(** ** [state.getGroup], and what [src/services/rollback-manager.ts] and
    [src/api/manual-approval.step.ts] build on it *)

(** [state.getGroup(group)]: the values stored in the group.  The order of
    the array is the state store's own; nothing below depends on it. *)
Definition stateGetGroup {A} (g : Group A) : M (list A) :=
  get (fun w => map snd (map_to_list (g_read g (w_state w)))).

Module RollbackStats.

Record Stats := {
  total : Z;
  successful : Z;
  failed : Z;
  successRate : Q;
}.

Definition getRollbackHistory : M (list RollbackHistoryEntry) :=
  stateGetGroup G_rollback_history.

Definition getRollbackStats : M Stats :=
  history <- getRollbackHistory ;;
  let successful :=
    Z.of_nat (length (filter (fun r => rb_success (rh_result r)) history)) in
  let failed := Z.of_nat (length history) - successful in
  ret {| total := Z.of_nat (length history);
         successful := successful;
         failed := failed;
         successRate :=
           if (0 <? length history)%nat
           then (inject_Z successful / inject_Z (Z.of_nat (length history))
                 * 100)%Q
           else 0%Q |}.

End RollbackStats.

(** [listPendingHandler], the GET handler of [/approvals/pending] *)
Module ListPendingApprovals.

Record PendingItem := {
  incidentId : string;
  status : string;
  requestedAt : string;
  riskLevel : RiskLevel;
  rcaSummary : string;
  proposedFix : string;
}.

Record Response := {
  r_status : Z;
  pending : list PendingItem;
}.

Definition listPendingHandler : M Response :=
  tryCatch
    (pendingApprovalsGroup <- stateGetGroup G_approval_pending ;;
     let pending :=
       map (fun approval =>
              {| incidentId := pa_incidentId approval;
                 status := pa_status approval;
                 requestedAt := pa_requestedAt approval;
                 riskLevel := pa_riskLevel approval;
                 rcaSummary := pa_rcaSummary approval;
                 proposedFix := pa_proposedFix approval |})
           (filter (fun approval => String.eqb (pa_status approval) "pending")
                   pendingApprovalsGroup) in
     ret {| r_status := 200; pending := pending |})
    (fun error => ret {| r_status := 200; pending := [] |}).

End ListPendingApprovals.

(** ** [middlewares/auth.middleware.ts] *)

Module Auth.

Definition roleName (r : ManualApproval.UserRole) : string :=
  match r with
  | ManualApproval.ADMIN => "admin"
  | ManualApproval.OPERATOR => "operator"
  | ManualApproval.VIEWER => "viewer"
  end.

(** An entry of [API_KEYS].  [createdAt], the time the module was loaded,
    is read nowhere and left out; [expiresAt] holds the time value of the
    date, where the field is set. *)
Record ApiKeyConfig := {
  key : string;
  role : ManualApproval.UserRole;
  name : string;
  expiresAt : option Z;
}.

Definition API_KEYS : gmap string ApiKeyConfig :=
  <["sk-sentinal-admin-demo-key-12345" :=
      {| key := "sk-sentinal-admin-demo-key-12345";
         role := ManualApproval.ADMIN;
         name := "Demo Admin";
         expiresAt := None |}]>
  (<["sk-sentinal-operator-demo-key-67890" :=
       {| key := "sk-sentinal-operator-demo-key-67890";
          role := ManualApproval.OPERATOR;
          name := "Demo Operator";
          expiresAt := None |}]>
   (<["sk-sentinal-viewer-demo-key-11111" :=
        {| key := "sk-sentinal-viewer-demo-key-11111";
           role := ManualApproval.VIEWER;
           name := "Demo Viewer";
           expiresAt := None |}]> ∅)).

(** The parts of a request [extractApiKey] reads: two headers and the
    query parameter [apiKey], under [queryParams] and under [query]. *)
Record HttpRequest := {
  authorization : option string;
  xApiKey : option string;
  queryParamsApiKey : option string;
  queryApiKey : option string;
}.

(** [s.substring(n)] *)
Fixpoint substringFrom (n : nat) (s : string) : string :=
  match n, s with
  | O, _ => s
  | S n', String _ s' => substringFrom n' s'
  | S _, EmptyString => EmptyString
  end.

(** [s.substring(0, n)] *)
Fixpoint substringTo (n : nat) (s : string) : string :=
  match n, s with
  | S n', String c s' => String c (substringTo n' s')
  | _, _ => EmptyString
  end.

(** A value that is set and truthy. *)
Definition truthyOpt (a : option string) : option string :=
  match a with
  | Some s => if Js.truthy s then Some s else None
  | None => None
  end.

(** [a || b] where both may be [undefined]. *)
Definition orOpt (a b : option string) : option string :=
  match truthyOpt a with
  | Some s => Some s
  | None => b
  end.

Definition extractApiKey (req : HttpRequest) : option string :=
  match authorization req with
  | Some authHeader =>
      if String.prefix "Bearer " authHeader
      then Some (substringFrom 7 authHeader)
      else
        match truthyOpt (xApiKey req) with
        | Some apiKeyHeader => Some apiKeyHeader
        | None =>
            truthyOpt (orOpt (queryParamsApiKey req) (queryApiKey req))
        end
  | None =>
      match truthyOpt (xApiKey req) with
      | Some apiKeyHeader => Some apiKeyHeader
      | None => truthyOpt (orOpt (queryParamsApiKey req) (queryApiKey req))
      end
  end.

Definition validateApiKey (apiKey : string) : M (option ApiKeyConfig) :=
  match API_KEYS !! apiKey with
  | None => ret None
  | Some config =>
      match expiresAt config with
      | Some expires =>
          now <- dateNow ;;
          if expires <? now then ret None else ret (Some config)
      | None => ret (Some config)
      end
  end.

Definition rolePriority (r : ManualApproval.UserRole) : Z :=
  match r with
  | ManualApproval.VIEWER => 1
  | ManualApproval.OPERATOR => 2
  | ManualApproval.ADMIN => 3
  end.

Definition hasPermission (userRole requiredRole : ManualApproval.UserRole)
  : bool :=
  rolePriority requiredRole <=? rolePriority userRole.

(** What a middleware answers: its own refusal, or the response that
    [next()] returned. *)
Inductive Outcome (A : Type) :=
| Refused (status : Z) (error message : string)
| Passed (response : A).
Arguments Refused {A} status error message.
Arguments Passed {A} response.

(** [authMiddleware]; [next] runs with the user attached to the request. *)
Definition authMiddleware {A} (req : HttpRequest)
    (next : ManualApproval.User -> M (Outcome A)) : M (Outcome A) :=
  match truthyOpt (extractApiKey req) with
  | None =>
      ret (Refused 401 "Unauthorized"
             "API key required. Provide via Authorization header or X-API-Key header.")
  | Some apiKey =>
      userConfig <- validateApiKey apiKey ;;
      match userConfig with
      | None => ret (Refused 401 "Unauthorized" "Invalid or expired API key")
      | Some userConfig =>
          next {| ManualApproval.role := role userConfig;
                  ManualApproval.name := name userConfig;
                  ManualApproval.apiKey := substringTo 10 apiKey +:+ "..." |}
      end
  end.

(** [requireRole(requiredRole)], given [req.user] *)
Definition requireRole {A} (requiredRole : ManualApproval.UserRole)
    (user : option ManualApproval.User) (next : M (Outcome A))
  : M (Outcome A) :=
  match user with
  | None =>
      ret (Refused 500 "Internal Server Error"
             "Authentication middleware not configured")
  | Some user =>
      if negb (hasPermission (ManualApproval.role user) requiredRole) then
        ret (Refused 403 "Forbidden"
               ("This operation requires " +:+ roleName requiredRole
                +:+ " role or higher. You have: "
                +:+ roleName (ManualApproval.role user)))
      else next
  end.

(** [authMiddleware] and [requireRole(UserRole.OPERATOR)] around the GET
    handler of [/manual-approval], as the [middleware] list of its [config]
    chains them; the handler reads the user the first one attached.  (The
    list starts with [coreMiddleware], which is not part of this
    definition: it logs and times the request and adds headers to the
    response.) *)
Definition guardedManualApproval (http : HttpRequest)
    (req : ManualApproval.Request) : M (Outcome ManualApproval.Response) :=
  authMiddleware http (fun user =>
    let req :=
      {| ManualApproval.incident := ManualApproval.incident req;
         ManualApproval.q_action := ManualApproval.q_action req;
         ManualApproval.execute := ManualApproval.execute req;
         ManualApproval.container := ManualApproval.container req;
         ManualApproval.approver := ManualApproval.approver req;
         ManualApproval.user := Some user |} in
    requireRole ManualApproval.OPERATOR (ManualApproval.user req)
      (response <- ManualApproval.handler req ;; ret (Passed response))).

End Auth.

(** ** Code that fills arrays it shares with its callers

    [FixExecutor] passes the arrays [logs] and [executedActions] to its
    helpers, which push to them; what was pushed stays when a helper
    throws.  Such code runs on a store [S] beside the world. *)

Definition L (S A : Type) : Type := S -> World -> S * World * Result A.

Definition retL {S A} (a : A) : L S A := fun s w => (s, w, Ok a).

Definition bindL {S A B} (m : L S A) (k : A -> L S B) : L S B :=
  fun s w =>
    match m s w with
    | (s', w', Ok a) => k a s' w'
    | (s', w', Throw e) => (s', w', Throw e)
    end.

Definition throwL {S A} (e : JsError) : L S A := fun s w => (s, w, Throw e).

Definition tryCatchL {S A} (m : L S A) (h : JsError -> L S A) : L S A :=
  fun s w =>
    match m s w with
    | (s', w', Ok a) => (s', w', Ok a)
    | (s', w', Throw e) => h e s' w'
    end.

(** A computation on the world alone. *)
Definition liftL {S A} (m : M A) : L S A :=
  fun s w =>
    match m w with
    | (w', r) => (s, w', r)
    end.

Definition getL {S} : L S S := fun s w => (s, w, Ok s).

Definition modifyL {S} (f : S -> S) : L S unit := fun s w => (f s, w, Ok tt).

(** A computation that owns its store: it starts from [s]. *)
Definition runL {S A} (s : S) (m : L S A) : M A :=
  fun w =>
    match m s w with
    | (_, w', r) => (w', r)
    end.

Declare Scope l_scope.
Delimit Scope l_scope with L.
Notation "x <- m ;; k" := (bindL m (fun x => k))
  (at level 100, m at next level, right associativity) : l_scope.
Notation "m ;; k" := (bindL m (fun _ => k))
  (at level 100, right associativity) : l_scope.

Fixpoint forEachL {S A} (l : list A) (f : A -> L S unit) : L S unit :=
  match l with
  | [] => retL tt
  | x :: l' => (f x ;; forEachL l' f)%L
  end.

(** ** [services/fix-executor.ts] *)

Module FixExecutor.

Record FixExecutionResult := {
  success : bool;
  message : string;
  executedActions : list string;
  startTime : string;
  endTime : string;
  duration : Z;
  logs : list string;
}.

(** The arrays [logs] and [executedActions] (in the helpers: [actions]). *)
Record Arrays := {
  a_logs : list string;
  a_actions : list string;
}.

(** [logs.push(`[${new Date().toISOString()}] ${text}`)] *)
Definition pushLog (text : string) : L Arrays unit :=
  (timestamp <- liftL newDateISO ;;
   modifyL (fun s =>
     {| a_logs := a_logs s ++ ["[" +:+ timestamp +:+ "] " +:+ text];
        a_actions := a_actions s |}))%L.

(** [actions.push(action)] *)
Definition pushAction (action : string) : L Arrays unit :=
  modifyL (fun s =>
    {| a_logs := a_logs s; a_actions := a_actions s ++ [action] |}).

(** [sleep] lets time pass and does nothing else; the clock gives its
    readings whatever the time between them. *)

Definition executeMemoryFix : L Arrays unit :=
  (pushLog "Analyzing memory usage..." ;;
   pushLog "Identifying high-memory processes..." ;;
   pushAction "identify-high-memory-processes" ;;
   pushLog "Clearing application cache..." ;;
   pushAction "clear-application-cache" ;;
   pushLog "Triggering garbage collection..." ;;
   pushAction "trigger-gc" ;;
   pushLog "Memory optimization complete")%L.

Definition executeContainerRestart : L Arrays unit :=
  (pushLog "Identifying failed container..." ;;
   let containerName := "api-server" in
   pushLog ("Container identified: " +:+ containerName) ;;
   pushLog ("Stopping container " +:+ containerName +:+ "...") ;;
   pushAction ("stop-container-" +:+ containerName) ;;
   pushLog "Clearing container resources..." ;;
   pushAction "clear-container-resources" ;;
   pushLog ("Starting container " +:+ containerName +:+ "...") ;;
   pushAction ("start-container-" +:+ containerName) ;;
   pushLog "Waiting for health check..." ;;
   pushLog ("Container " +:+ containerName +:+ " is healthy"))%L.

Definition executeDiskCleanup : L Arrays unit :=
  (pushLog "Analyzing disk usage..." ;;
   pushLog "Cleaning old log files (>30 days)..." ;;
   pushAction "clean-old-logs" ;;
   pushLog "Removed 15GB of logs" ;;
   pushLog "Cleaning temporary files..." ;;
   pushAction "clean-temp-files" ;;
   pushLog "Removed 3GB of temporary files" ;;
   pushLog "Pruning unused Docker images..." ;;
   pushAction "prune-docker-images" ;;
   pushLog "Removed 8GB of unused images" ;;
   pushLog "Total disk space freed: 26GB")%L.

Definition executeNetworkFix : L Arrays unit :=
  (pushLog "Diagnosing network issues..." ;;
   pushLog "Restarting network service..." ;;
   pushAction "restart-network-service" ;;
   pushLog "Flushing DNS cache..." ;;
   pushAction "flush-dns-cache" ;;
   pushLog "Optimizing network routes..." ;;
   pushAction "optimize-routes" ;;
   pushLog "Network latency reduced to 45ms")%L.

Definition executeCpuFix : L Arrays unit :=
  (pushLog "Analyzing CPU usage..." ;;
   pushLog "Identifying CPU-intensive processes..." ;;
   pushAction "identify-cpu-processes" ;;
   pushLog "Adjusting process priorities..." ;;
   pushAction "adjust-process-priorities" ;;
   pushLog "Restarting worker processes..." ;;
   pushAction "restart-workers" ;;
   pushLog "CPU usage normalized to 15%")%L.

(** [sandboxMonitor.getSandboxPath()] and [getThresholdMB()] *)
Definition getSandboxPath : string := "/home/sidharth/Desktop/Motia/Sandbox".
Definition getThresholdMB : Z := SandboxMonitor.THRESHOLD_MB.

Definition executeSandboxCleanup : L Arrays unit :=
  (pushLog "🎯 REAL EXECUTION MODE - Sandbox Cleanup" ;;
   pushLog ("Target: " +:+ getSandboxPath) ;;
   pushLog ("Threshold: " +:+ Js.showZ getThresholdMB +:+ "MB") ;;
   beforeMetrics <- liftL SandboxMonitor.collectMetrics ;;
   pushLog ("Current size: "
            +:+ Js.showZ (SandboxMonitor.totalSizeMB beforeMetrics) +:+ "MB ("
            +:+ Js.showZ (SandboxMonitor.percentage beforeMetrics)
            +:+ "% of threshold)") ;;
   pushLog ("Files: "
            +:+ Js.showZ (SandboxMonitor.f_logs (SandboxMonitor.files beforeMetrics))
            +:+ " logs, "
            +:+ Js.showZ (SandboxMonitor.f_temp (SandboxMonitor.files beforeMetrics))
            +:+ " temp, "
            +:+ Js.showZ (SandboxMonitor.f_cache (SandboxMonitor.files beforeMetrics))
            +:+ " cache") ;;
   pushLog "Executing cleanup commands..." ;;
   pushAction "real-sandbox-cleanup" ;;
   cleanupResult <- liftL SandboxMonitor.executeCleanup ;;
   forEachL (SandboxMonitor.details cleanupResult)
     (fun detail => pushLog ("✓ " +:+ detail)) ;;
   if SandboxMonitor.success cleanupResult then
     pushLog ("✅ " +:+ SandboxMonitor.message cleanupResult) ;;
     pushLog ("Space freed: "
              +:+ Js.showZ (SandboxMonitor.freedMB cleanupResult) +:+ "MB") ;;
     afterMetrics <- liftL SandboxMonitor.collectMetrics ;;
     pushLog ("Final size: "
              +:+ Js.showZ (SandboxMonitor.totalSizeMB afterMetrics) +:+ "MB ("
              +:+ Js.showZ (SandboxMonitor.percentage afterMetrics)
              +:+ "% of threshold)")
   else
     pushLog ("❌ " +:+ SandboxMonitor.message cleanupResult) ;;
     throwL (Error (SandboxMonitor.message cleanupResult)))%L.

(** [executeFix].  [startTime] and [endTime] are printed from two clock
    readings, and [new Date(s).getTime()] of a string printed by
    [toISOString] is the reading it was printed from. *)
Definition executeFix (alertType proposedFix incidentId : string)
  : M FixExecutionResult :=
  runL {| a_logs := []; a_actions := [] |}
    (started <- liftL dateNow ;;
     let startTime := Js.toISOString started in
     pushLog ("Starting fix execution for " +:+ alertType) ;;
     tryCatchL
       ((if String.eqb alertType "high_memory" then executeMemoryFix
         else if String.eqb alertType "container_down" then executeContainerRestart
         else if String.eqb alertType "disk_full" then executeDiskCleanup
         else if String.eqb alertType "network_latency" then executeNetworkFix
         else if String.eqb alertType "cpu_spike" then executeCpuFix
         else if String.eqb alertType "sandbox_disk_full" then executeSandboxCleanup
         else
           pushLog ("Unknown alert type: " +:+ alertType) ;;
           throwL (Error ("Unknown alert type: " +:+ alertType))) ;;
        liftL Simulator.clearScenario ;;
        pushLog "Infrastructure scenario cleared" ;;
        ended <- liftL dateNow ;;
        let endTime := Js.toISOString ended in
        let duration := ended - started in
        pushLog "Fix execution completed successfully" ;;
        pushLog ("Duration: " +:+ Js.showZ duration +:+ "ms") ;;
        arrays <- getL ;;
        retL {| success := true;
                message := "Fix executed successfully for " +:+ alertType;
                executedActions := a_actions arrays;
                startTime := startTime;
                endTime := endTime;
                duration := duration;
                logs := a_logs arrays |})
       (fun error =>
          ended <- liftL dateNow ;;
          let endTime := Js.toISOString ended in
          let duration := ended - started in
          pushLog ("ERROR: " +:+ errorMessage error) ;;
          arrays <- getL ;;
          retL {| success := false;
                  message := "Fix execution failed: " +:+ errorMessage error;
                  executedActions := a_actions arrays;
                  startTime := startTime;
                  endTime := endTime;
                  duration := duration;
                  logs := a_logs arrays |}))%L.

Record VerifyResult := {
  resolved : bool;
  v_message : string;
  verificationLogs : list string;
}.

(** [verificationLogs.push(`[${new Date().toISOString()}] ${text}`)]; the
    array is local to [verifyFix], which catches nothing. *)
Definition logLine (verificationLogs : list string) (text : string)
  : M (list string) :=
  timestamp <- newDateISO ;;
  ret (verificationLogs ++ ["[" +:+ timestamp +:+ "] " +:+ text]).

Definition verifyFix (alertType incidentId : string) : M VerifyResult :=
  let verificationLogs : list string := [] in
  verificationLogs <-
    logLine verificationLogs ("Starting verification for " +:+ alertType) ;;
  if String.eqb alertType "sandbox_disk_full" then
    verifyResult <- SandboxMonitor.verifyCleanup ;;
    verificationLogs <-
      logLine verificationLogs
        ("Sandbox size check: "
         +:+ Js.showZ (SandboxMonitor.currentSizeMB verifyResult) +:+ "MB") ;;
    verificationLogs <-
      logLine verificationLogs (SandboxMonitor.v_message verifyResult) ;;
    if SandboxMonitor.v_success verifyResult then
      verificationLogs <-
        logLine verificationLogs "✅ Sandbox cleanup verified successfully" ;;
      ret {| resolved := true;
             v_message := SandboxMonitor.v_message verifyResult;
             verificationLogs := verificationLogs |}
    else
      verificationLogs <-
        logLine verificationLogs "⚠️ Sandbox still above threshold" ;;
      ret {| resolved := false;
             v_message := SandboxMonitor.v_message verifyResult;
             verificationLogs := verificationLogs |}
  else
    metrics <- Simulator.collectMetrics ;;
    healthChecks <- Simulator.performHealthChecks metrics ;;
    alerts <- Simulator.detectAlerts healthChecks ;;
    verificationLogs <- logLine verificationLogs "Collected fresh metrics" ;;
    verificationLogs <-
      logLine verificationLogs
        ("Health checks: " +:+ Js.showZ (Z.of_nat (length healthChecks))
         +:+ " total") ;;
    let relatedAlerts :=
      filter (fun alert =>
                String.eqb (alertTypeName (alert_alertType alert)) alertType)
             alerts in
    if (0 <? length relatedAlerts)%nat then
      verificationLogs <-
        logLine verificationLogs
          ("⚠️ Alert still present: "
           +:+ Js.showZ (Z.of_nat (length relatedAlerts)) +:+ " instances") ;;
      ret {| resolved := false;
             v_message :=
               "Fix did not fully resolve the issue. "
               +:+ Js.showZ (Z.of_nat (length relatedAlerts))
               +:+ " alert(s) still present.";
             verificationLogs := verificationLogs |}
    else
      verificationLogs <- logLine verificationLogs "✅ No alerts detected" ;;
      verificationLogs <- logLine verificationLogs "All health checks passed" ;;
      verificationLogs <-
        logLine verificationLogs "Fix successfully resolved the issue" ;;
      ret {| resolved := true;
             v_message :=
               "Fix successfully resolved the issue. All health checks passed.";
             verificationLogs := verificationLogs |}.

End FixExecutor.

(** * Statements about the embedded code *)

(** ** Vocabulary *)

(** The RCA result carries [metadata.alertType = "sandbox_disk_full"]. *)
Definition hasSandboxAlertType (rca : RCAResult) : Prop :=
  exists m, rca_metadata rca = Some m
            /\ m !! "alertType" = Some (JsString "sandbox_disk_full").

(** Two texts that differ in the case of their letters only. *)
Inductive sameIgnoringCase : string -> string -> Prop :=
| sic_nil : sameIgnoringCase "" ""
| sic_cons a b s t :
    Js.lowerChar a = Js.lowerChar b ->
    sameIgnoringCase s t ->
    sameIgnoringCase (String a s) (String b t).

(** [keyword] occurs in [text], whatever the case of the letters. *)
Definition occursIgnoringCase (keyword text : string) : Prop :=
  exists pre mid post,
    text = pre +:+ mid +:+ post /\ sameIgnoringCase mid keyword.

(** The rules [loadPolicyRules] finds in a world. *)
Definition rulesIn (w : World) : PolicyRules :=
  match policy_rules (w_state w) !! "default" with
  | Some rules => rules
  | None => Policy.defaultRules
  end.

(** A computation started in any world ends in a world related by [R] to
    the first one; a value it returns satisfies [Q] and an error it throws
    satisfies [E]. *)
Definition post {A} (R : World -> World -> Prop) (m : M A)
    (Q : A -> Prop) (E : JsError -> Prop) : Prop :=
  forall w w' r,
    m w = (w', r) ->
    R w w' /\ match r with
              | Ok a => Q a
              | Throw e => E e
              end.

Definition noError : JsError -> Prop := fun _ => False.
Definition anyError : JsError -> Prop := fun _ => True.

(** The sizes of the regular files below a node, and their sum. *)
Fixpoint filesBelow (n : FsNode) : list Z :=
  match n with
  | File size _ => [size]
  | Dir _ es => flat_map (fun e => match e with (_, c) => filesBelow c end) es
  end.

Definition sumZ (l : list Z) : Z := fold_right Z.add 0 l.

(** The total byte size of the sandbox tree; a sandbox that cannot be read
    counts as 0. *)
Definition treeBytes (root : option FsNode) : Z :=
  match root with
  | Some n => sumZ (filesBelow n)
  | None => 0
  end.

Definition isFile (n : FsNode) : Prop :=
  match n with
  | File _ _ => True
  | Dir _ _ => False
  end.

(** Relations between the world before and after a computation. *)
Definition anyWorld : World -> World -> Prop := fun _ _ => True.

(** What is below the entry [d] of the sandbox is as it was. *)
Definition keeps (d : string) : World -> World -> Prop :=
  fun w w' => Fs.lookupPath [d] (w_sandbox w') = Fs.lookupPath [d] (w_sandbox w).

(** The state, the emitted events, the simulator and the chat webhook are
    as they were. *)
Definition outsideSandbox : World -> World -> Prop :=
  fun w w' =>
    w_state w' = w_state w
    /\ w_events w' = w_events w
    /\ w_posted w' = w_posted w
    /\ w_webhookUrl w' = w_webhookUrl w
    /\ w_scenarioActive w' = w_scenarioActive w.

(** Nothing changed but the sandbox entries whose name is not in [P]. *)
Definition untouched (P : string -> Prop) : World -> World -> Prop :=
  fun w w' => outsideSandbox w w' /\ forall d, P d -> keeps d w w'.

(** The entries [executeCleanup] may not clean. *)
Definition notCleanable (d : string) : Prop :=
  ~ In d SandboxMonitor.SAFE_CLEANUP_DIRS.

(** An error of the not-found class: one the error handler answers with
    status 404. *)
Definition isNotFoundError (e : JsError) : Prop :=
  Errors.errorHandlerStatus e = 404.

(** The action the GET handler of [/manual-approval] has executed for a
    request that asks for [action], when it reads the clock of [w]. *)
Definition requestedAction (req : ManualApproval.Request) (action : string)
    (w : World) : SlackInteractive.SlackAction :=
  {| SlackInteractive.sa_incidentId := ManualApproval.incident req;
     SlackInteractive.sa_action := action;
     SlackInteractive.sa_containerName := ManualApproval.container req;
     SlackInteractive.sa_userId :=
       Js.optOrElse (ManualApproval.approver req) "slack-interactive";
     SlackInteractive.sa_timestamp := Js.toISOString (w_clock w (w_ticks w)) |}.

(** ** Sample inputs *)

Definition emptyState : State :=
  {| policy_rules := ∅; policy_decisions := ∅; policy_rejections := ∅;
     approval_pending := ∅; rca_results := ∅;
     rollback_snapshots := ∅; rollback_history := ∅ |}.

Definition sampleWorld (fs : option FsNode) (scenario : option AlertType)
  : World :=
  {| w_state := emptyState;
     w_events := [];
     w_sandbox := fs;
     w_scenarioActive := scenario;
     w_scenarioStartTime := 0;
     w_clock := fun n => Z.of_nat n + 1700000000000;
     w_ticks := 0;
     w_random := fun _ => 0.5%Q;
     w_draws := 0;
     w_dockerStats := fun _ => None;
     w_dockerRestart := fun _ _ => inl "Cannot connect to the Docker daemon";
     w_execs := 0;
     w_webhookUrl := "";
     w_posted := [] |}.

(** A sandbox holding one regular file below [data/]. *)
Definition sandboxOfSize (bytes : Z) : option FsNode :=
  Some (Dir 0 [("logs", Dir 0 []); ("temp", Dir 0 []); ("cache", Dir 0 []);
               ("data", Dir 0 [("blob.bin", File bytes 0)])]).

(** A sandbox whose cache holds a subdirectory and a file; [readdir]
    gives the names in their order, ["archive"] before ["entry.bin"]. *)
Definition sandboxWithCacheSubdir : option FsNode :=
  Some (Dir 0 [("cache", Dir 0 [("archive", Dir 0 []);
                                ("entry.bin", File 5 0)]);
               ("data", Dir 0 [("keep.json", File 7 0)]);
               ("logs", Dir 0 []);
               ("temp", Dir 0 [])]).

(** A sandbox whose cache holds files only. *)
Definition sandboxWithCacheFiles : option FsNode :=
  Some (Dir 0 [("logs", Dir 0 []);
               ("temp", Dir 0 []);
               ("cache", Dir 0 [("a.bin", File 9 0); ("entry.bin", File 5 0)]);
               ("data", Dir 0 [("keep.json", File 7 0)])]).

Definition sampleRca (proposedFix : string) (riskLevel : RiskLevel)
    (metadata : option (gmap string JsValue)) : RCAResult :=
  {| rca_incidentId := "incident-1";
     rca_summary := "summary";
     rca_rootCause := "root cause";
     rca_proposedFix := proposedFix;
     rca_riskLevel := riskLevel;
     rca_estimatedImpact := "impact";
     rca_timestamp := "2023-11-14T22:13:20.000Z";
     rca_metadata := metadata |}.

Definition sandboxMetadata : gmap string JsValue :=
  {[ "alertType" := JsString "sandbox_disk_full" ]}.

Definition samplePending : PendingApproval :=
  {| pa_incidentId := "incident-1";
     pa_status := "pending";
     pa_requestedAt := "2023-11-14T22:13:20.000Z";
     pa_riskLevel := RiskHigh;
     pa_rcaSummary := "summary";
     pa_proposedFix := "restart the api-server container";
     pa_approver := None;
     pa_approvedAt := None;
     pa_executionResult := None;
     pa_actionType := None |}.

(** A world where incident-1 awaits approval. *)
Definition pendingWorld : World :=
  withState
    (g_write G_rca_results
       {[ "incident-1" := sampleRca "restart the api-server container" RiskHigh None ]}
       (g_write G_approval_pending {[ "incident-1" := samplePending ]} emptyState))
    (sampleWorld None None).

(** A button click that asks for a container restart and names no
    container. *)
Definition restartWithoutContainer : ManualApproval.Request :=
  {| ManualApproval.incident := "incident-1";
     ManualApproval.q_action := "approve";
     ManualApproval.execute := Some "restart_container";
     ManualApproval.container := None;
     ManualApproval.approver := None;
     ManualApproval.user := None |}.

(** ** Vocabulary and sample inputs of the further statements *)

(** A keyword of the list occurs in the text, whatever the case. *)
Definition mentionsBlockedAction (rules : PolicyRules) (text : string) : Prop :=
  exists keyword,
    In keyword (blockedActions rules) /\ occursIgnoringCase keyword text.

(** The number of entries of the directory [d] of the sandbox; 0 when
    there is no such directory. *)
Definition entryCount (d : string) (root : option FsNode) : Z :=
  match Fs.lookupPath [d] root with
  | Some (Dir _ es) => Z.of_nat (length es)
  | _ => 0
  end.

(** The path leads to a directory. *)
Definition isDirectoryAt (path : list string) (root : option FsNode) : Prop :=
  exists mtime es, Fs.lookupPath path root = Some (Dir mtime es).

(** No regular file of the sandbox has a negative size. *)
Definition sizesNonNegative (root : option FsNode) : Prop :=
  match root with
  | Some n => Forall (fun size => 0 <= size) (filesBelow n)
  | None => True
  end.

(** What [f] makes of a node is no larger than the node. *)
Definition shrinksNode (f : FsNode -> Result (option FsNode)) : Prop :=
  forall c o,
    f c = Ok o ->
    Forall (fun size => 0 <= size) (filesBelow c) ->
    match o with
    | Some c' =>
        Forall (fun size => 0 <= size) (filesBelow c')
        /\ sumZ (filesBelow c') <= sumZ (filesBelow c)
    | None => 0 <= sumZ (filesBelow c)
    end.

(** A sandbox does not grow: what holds of the sizes before holds after,
    and the total is no larger. *)
Definition shrinks : World -> World -> Prop :=
  fun w w' =>
    sizesNonNegative (w_sandbox w) ->
    sizesNonNegative (w_sandbox w')
    /\ treeBytes (w_sandbox w') <= treeBytes (w_sandbox w).

(** Nothing changed but the sandbox and the number of clock readings. *)
Definition onlySandboxAndClock : World -> World -> Prop :=
  fun w w' =>
    w_state w' = w_state w
    /\ w_events w' = w_events w
    /\ w_scenarioActive w' = w_scenarioActive w
    /\ w_scenarioStartTime w' = w_scenarioStartTime w
    /\ w_clock w' = w_clock w
    /\ w_random w' = w_random w
    /\ w_draws w' = w_draws w
    /\ w_dockerStats w' = w_dockerStats w
    /\ w_dockerRestart w' = w_dockerRestart w
    /\ w_execs w' = w_execs w
    /\ w_webhookUrl w' = w_webhookUrl w
    /\ w_posted w' = w_posted w.

(** The modification time of a node. *)
Definition mtimeOf (n : FsNode) : Z :=
  match n with
  | File _ mtime => mtime
  | Dir mtime _ => mtime
  end.

(** The clock readings a run takes from [w] when it takes [k] of them. *)
Definition readings (w : World) (k : nat) (n : nat) : Prop :=
  (w_ticks w <= n < w_ticks w + k)%nat.

(** The temp phase of the cleanup reads the clock once for each entry of
    [temp/]. *)
Definition tempReadings (w : World) : nat -> Prop :=
  readings w (Z.to_nat (entryCount "temp" (w_sandbox w))).

(** A sandbox whose [temp/] holds a file written long ago and one written
    a second before the first clock reading of [sampleWorld]. *)
Definition sandboxWithTempFiles : option FsNode :=
  Some (Dir 0 [("logs", Dir 0 []);
               ("temp", Dir 0 [("old.tmp", File 4 0);
                               ("new.tmp", File 6 1699999999000)]);
               ("cache", Dir 0 []);
               ("data", Dir 0 [("keep.json", File 7 0)])]).

(** The entries of a directory without the one named [name]. *)
Definition removeName (name : string) (es : list (string * FsNode))
  : list (string * FsNode) :=
  filter (fun e => negb (String.eqb (fst e) name)) es.

(** A sandbox whose [logs/] holds seven files, written at the times 1 to
    7, listed in no particular order. *)
Definition sandboxWithSevenLogs : option FsNode :=
  Some (Dir 0 [("logs", Dir 0 [("c.log", File 1 3); ("a.log", File 1 1);
                               ("g.log", File 1 7); ("e.log", File 1 5);
                               ("b.log", File 1 2); ("f.log", File 1 6);
                               ("d.log", File 1 4)]);
               ("temp", Dir 0 []);
               ("cache", Dir 0 []);
               ("data", Dir 0 [("keep.json", File 7 0)])]).

(** What the logs phase of the cleanup records of an entry of [logs/]. *)
Definition toLogStat (e : string * FsNode) : SandboxMonitor.LogStat :=
  {| SandboxMonitor.ls_name := fst e;
     SandboxMonitor.ls_path := ["logs"; fst e];
     SandboxMonitor.ls_mtime := mtimeOf (snd e) |}.

(** Ascending in [key]. *)
Fixpoint ascending {A} (key : A -> Q) (l : list A) : Prop :=
  match l with
  | [] => True
  | x :: l' => Forall (fun y => (key x <= key y)%Q) l' /\ ascending key l'
  end.

(** The metrics [createAlert] knows. *)
Definition knownMetric (metric : string) : bool :=
  existsb (String.eqb metric)
    ["memory_usage_percent"; "cpu_usage_percent"; "disk_usage_percent";
     "container_status"; "network_latency_ms"].

(** Nothing changed but the numbers of clock readings and random draws. *)
Definition onlyClockAndRandom : World -> World -> Prop :=
  fun w w' =>
    w_state w' = w_state w
    /\ w_events w' = w_events w
    /\ w_sandbox w' = w_sandbox w
    /\ w_scenarioActive w' = w_scenarioActive w
    /\ w_scenarioStartTime w' = w_scenarioStartTime w
    /\ w_clock w' = w_clock w
    /\ w_random w' = w_random w
    /\ w_dockerStats w' = w_dockerStats w
    /\ w_dockerRestart w' = w_dockerRestart w
    /\ w_execs w' = w_execs w
    /\ w_webhookUrl w' = w_webhookUrl w
    /\ w_posted w' = w_posted w.

(** An alert reports a health check. *)
Definition reports (timestamp : string) (alert : AlertData)
    (check : HealthCheckResult) : Prop :=
  alert_affectedResource alert = hc_resource check
  /\ alert_metric alert = hc_metric check
  /\ alert_currentValue alert = hc_value check
  /\ alert_threshold alert = hc_threshold check
  /\ alert_timestamp alert = timestamp
  /\ md_healthCheck (alert_metadata alert) = check.

(** The alert a scenario of the simulator leads to: its type, its severity
    and the resource it names. *)
Definition alertOfScenario (scenario : AlertType) : AlertType * Severity * string :=
  match scenario with
  | high_memory => (high_memory, SevHigh, "system-memory")
  | container_down => (container_down, SevCritical, "container-api-server")
  | disk_full => (disk_full, SevCritical, "system-disk")
  | network_latency => (network_latency, SevMedium, "network")
  | cpu_spike => (cpu_spike, SevHigh, "system-cpu")
  | sandbox_disk_full => (disk_full, SevCritical, "system-disk")
  end.

(** The world after [n] more draws of [Math.random]. *)
Fixpoint drawN (n : nat) (w : World) : World :=
  match n with
  | O => w
  | S n' => drawN n' (draw w)
  end.

(** The [k]-th draw of [Math.random] from [w] on (the first is draw 0)
    makes a rollback step fail. *)
Definition stepFails (w : World) (k : nat) : Prop :=
  (w_random w (w_draws w + k)%nat < 0.05)%Q.

(** A snapshot of an alert type the rollback manager has no procedure
    for. *)
Definition sandboxSnapshot : RollbackSnapshot :=
  {| snap_incidentId := "incident-1";
     snap_alertType := "sandbox_disk_full";
     snap_timestamp := "2023-11-14T22:13:20.000Z";
     snap_affectedResource := "sandbox-disk";
     snap_beforeState := [];
     snap_fixApplied := None;
     snap_fixDetails := [] |}.

(** A snapshot of a memory alert. *)
Definition memorySnapshot : RollbackSnapshot :=
  {| snap_incidentId := "incident-1";
     snap_alertType := "high_memory";
     snap_timestamp := "2023-11-14T22:13:20.000Z";
     snap_affectedResource := "system-memory";
     snap_beforeState := [];
     snap_fixApplied := Some "Memory limit adjustment and process restart";
     snap_fixDetails := [] |}.

(** The sample world with a snapshot stored for incident-1. *)
Definition snapshotWorld (snapshot : RollbackSnapshot) : World :=
  withState
    (g_write G_rollback_snapshots {[ "incident-1" := snapshot ]} emptyState)
    (sampleWorld None None).

(** Nothing changed but the number of commands given to the container
    runtime, which has not gone down. *)
Definition onlyContainerRuntime : World -> World -> Prop :=
  fun w w' =>
    outsideSandbox w w'
    /\ w_sandbox w' = w_sandbox w
    /\ w_ticks w' = w_ticks w
    /\ w_draws w' = w_draws w
    /\ (w_execs w <= w_execs w')%nat.

(** The memory share of the containers falls along the list. *)
Definition highestMemoryFirst (l : list ContainerStats) : Prop :=
  ascending (fun c => (- cs_memoryPercentage c)%Q) l.

(** The reason [executeAction] gives when it executes nothing: the action
    is not one it knows, or a restart names no container. *)
Definition refusalReason (action : SlackInteractive.SlackAction) : string :=
  if String.eqb (SlackInteractive.sa_action action) "restart_container"
  then "Container name is required for restart action"
  else "Unknown action type: " +:+ SlackInteractive.sa_action action.

(** A click on the button that clears the sandbox and restarts a
    container. *)
Definition clearAndRestart : SlackInteractive.SlackAction :=
  {| SlackInteractive.sa_incidentId := "incident-1";
     SlackInteractive.sa_action := "both";
     SlackInteractive.sa_containerName := Some "db";
     SlackInteractive.sa_userId := "slack-interactive";
     SlackInteractive.sa_timestamp := "2025-01-01T00:00:00.000Z" |}.

(** The incident of the request has an approval that is still pending,
    and an RCA result. *)
Definition processable (req : ManualApproval.Request) (w : World) : Prop :=
  exists pending rca,
    approval_pending (w_state w) !! ManualApproval.incident req = Some pending
    /\ pa_status pending = "pending"
    /\ rca_results (w_state w) !! ManualApproval.incident req = Some rca.

(** The action the GET handler of [/manual-approval] executes for a
    request: the value of [execute], where the request approves and the
    value is set and not empty. *)
Definition executes (req : ManualApproval.Request) : option string :=
  if String.eqb (ManualApproval.q_action req) "approve"
  then Auth.truthyOpt (ManualApproval.execute req)
  else None.

Definition clearsSandbox (action : option string) : Prop :=
  action = Some "clear_sandbox" \/ action = Some "both".

(** The request asks to clear the sandbox and does not come from an
    administrator. *)
Definition forbidden (req : ManualApproval.Request) : Prop :=
  clearsSandbox (executes req)
  /\ ManualApproval.isAdmin (ManualApproval.user req) = false.

(** The status an approval is stored with, and the topic emitted. *)
Definition processedStatus (req : ManualApproval.Request) : string :=
  if String.eqb (ManualApproval.q_action req) "approve"
  then "approved" else "rejected".

Definition processedTopic (req : ManualApproval.Request) : string :=
  if String.eqb (ManualApproval.q_action req) "approve"
  then "fix.approved" else "fix.rejected".

(** A rejection that asks, all the same, to clear the sandbox. *)
Definition rejectAndClear : ManualApproval.Request :=
  {| ManualApproval.incident := "incident-1";
     ManualApproval.q_action := "reject";
     ManualApproval.execute := Some "clear_sandbox";
     ManualApproval.container := None;
     ManualApproval.approver := Some "alice";
     ManualApproval.user := None |}.

(** What [/approvals/pending] shows of a stored approval. *)
Definition listed (approval : PendingApproval)
  : ListPendingApprovals.PendingItem :=
  {| ListPendingApprovals.incidentId := pa_incidentId approval;
     ListPendingApprovals.status := pa_status approval;
     ListPendingApprovals.requestedAt := pa_requestedAt approval;
     ListPendingApprovals.riskLevel := pa_riskLevel approval;
     ListPendingApprovals.rcaSummary := pa_rcaSummary approval;
     ListPendingApprovals.proposedFix := pa_proposedFix approval |}.

(** The stored approvals that are still pending, in the order of the
    state store. *)
Definition stillPending (w : World) : list PendingApproval :=
  filter (fun approval => pa_status approval = "pending")
    (map snd (map_to_list (approval_pending (w_state w)))).

(** The key the request presents is [key]. *)
Definition presents (http : Auth.HttpRequest) (key : string) : Prop :=
  Auth.truthyOpt (Auth.extractApiKey http) = Some key.

Definition adminKey : string := "sk-sentinal-admin-demo-key-12345".
Definition operatorKey : string := "sk-sentinal-operator-demo-key-67890".
Definition viewerKey : string := "sk-sentinal-viewer-demo-key-11111".

(** A request that carries nothing but the headers given. *)
Definition withHeaders (authorization xApiKey : option string)
  : Auth.HttpRequest :=
  {| Auth.authorization := authorization;
     Auth.xApiKey := xApiKey;
     Auth.queryParamsApiKey := None;
     Auth.queryApiKey := None |}.

(** The alert types [executeFix] has a fix for. *)
Definition knownAlertTypes : list string :=
  ["high_memory"; "container_down"; "disk_full"; "network_latency";
   "cpu_spike"; "sandbox_disk_full"].

(** Nothing changed but the number of clock readings. *)
Definition onlyClock : World -> World -> Prop :=
  fun w w' => onlySandboxAndClock w w' /\ w_sandbox w' = w_sandbox w.

(** A step of a fix: it returns, having changed the world within [R] and
    added [actions] to the executed actions. *)
Definition fixStep {A} (R : World -> World -> Prop)
    (m : L FixExecutor.Arrays A) (actions : list string) : Prop :=
  forall s w,
    exists s' w' a,
      m s w = (s', w', Ok a)
      /\ R w w'
      /\ FixExecutor.a_actions s' = FixExecutor.a_actions s ++ actions.

(** The type of the alert the active scenario of the simulator raises, as
    the alert carries it. *)
Definition raisedAlertType (w : World) : option string :=
  match w_scenarioActive w with
  | Some scenario => Some (alertTypeName (fst (fst (alertOfScenario scenario))))
  | None => None
  end.

(** The size of the sandbox in whole megabytes, as [collectMetrics]
    measures it. *)
Definition sandboxMB (w : World) : Z :=
  Js.round (inject_Z (treeBytes (w_sandbox w)) / inject_Z (1024 * 1024)).

(** Text made of ASCII characters only. *)
Fixpoint isAsciiText (s : string) : bool :=
  match s with
  | EmptyString => true
  | String c s' => (N_of_ascii c <? 128)%N && isAsciiText s'
  end.

(** A container name as the container runtime gives them: a letter or a
    digit, then letters, digits, [_], [.] and [-].  A shell reads such a
    name as one word. *)
Definition isAlnum (c : ascii) : bool :=
  let n := N_of_ascii c in
  (((48 <=? n) && (n <=? 57)) || ((65 <=? n) && (n <=? 90))
   || ((97 <=? n) && (n <=? 122)))%N.

Definition isNameChar (c : ascii) : bool :=
  let n := N_of_ascii c in
  isAlnum c || ((n =? 95) || (n =? 46) || (n =? 45))%N.

Fixpoint allNameChars (s : string) : bool :=
  match s with
  | EmptyString => true
  | String c s' => isNameChar c && allNameChars s'
  end.

Definition plainName (s : string) : bool :=
  match s with
  | EmptyString => false
  | String c s' => isAlnum c && allNameChars s'
  end.

(** The [container] parameter of a request is missing, empty or a plain
    name. *)
Definition plainContainer (container : option string) : bool :=
  match Auth.truthyOpt container with
  | Some name => plainName name
  | None => true
  end.

(** A container runtime with three containers, two of them above 70% of
    their memory, where every restart succeeds and prints the name. *)
Definition containerRow (name : string) (memoryPercentage : Q)
  : ContainerStats :=
  {| cs_name := name; cs_id := name; cs_cpuPercentage := (5 # 1)%Q;
     cs_memoryUsage := "512MiB"; cs_memoryPercentage := memoryPercentage;
     cs_memoryLimit := "1GiB"; cs_netIO := "0B / 0B"; cs_blockIO := "0B / 0B";
     cs_pids := 4; cs_status := running |}.

Definition containerRows : list ContainerStats :=
  [containerRow "worker" (72 # 1)%Q;
   containerRow "api-server" (183 # 2)%Q;
   containerRow "db" (40 # 1)%Q].

Definition dockerWorld (fs : option FsNode) : World :=
  {| w_state := emptyState;
     w_events := [];
     w_sandbox := fs;
     w_scenarioActive := None;
     w_scenarioStartTime := 0;
     w_clock := fun n => Z.of_nat n + 1700000000000;
     w_ticks := 0;
     w_random := fun _ => 0.5%Q;
     w_draws := 0;
     w_dockerStats := fun _ => Some containerRows;
     w_dockerRestart := fun _ name => inr name;
     w_execs := 0;
     w_webhookUrl := "";
     w_posted := [] |}.

(** That world with incident-1 awaiting approval, and an operator's click
    on the button that restarts a container. *)
Definition pendingDockerWorld : World :=
  withState (w_state pendingWorld) (dockerWorld sandboxWithCacheFiles).

Definition operatorRestart : ManualApproval.Request :=
  {| ManualApproval.incident := "incident-1";
     ManualApproval.q_action := "approve";
     ManualApproval.execute := Some "restart_container";
     ManualApproval.container := Some "api-server";
     ManualApproval.approver := Some "olivia";
     ManualApproval.user :=
       Some {| ManualApproval.role := ManualApproval.OPERATOR;
               ManualApproval.name := "Demo Operator";
               ManualApproval.apiKey := "sk-sentina..." |} |}.

(** Printing functions stay folded in the goals. *)
Arguments Js.toISOString : simpl never.
Arguments Js.showZ : simpl never.
Arguments Js.toFixed : simpl never.
Arguments Js.base36Fraction : simpl never.
Arguments Policy.evaluatePolicy : simpl never.

(** ** Strings *)

Lemma append_cons a s t : String a s +:+ t = String a (s +:+ t).
Proof. reflexivity. Qed.

Lemma prefix_spec p s :
  String.prefix p s = true <-> exists post, s = p +:+ post.
Proof.
  revert s. induction p as [|a p IH]; intros s.
  - split; [intros _; exists s; reflexivity | intros _; destruct s; reflexivity].
  - destruct s as [|b s]; simpl.
    + split; [discriminate | intros [post H]; discriminate].
    + destruct (Ascii.ascii_dec a b) as [->|Hne].
      * rewrite IH. split; intros [post H]; exists post;
          rewrite append_cons in *; congruence.
      * split; [discriminate|].
        intros [post H]. rewrite append_cons in H. congruence.
Qed.

Lemma includes_spec needle s :
  Js.includes needle s = true <-> exists pre post, s = pre +:+ needle +:+ post.
Proof.
  induction s as [|c s IH].
  - cbn [Js.includes]. rewrite orb_false_r, prefix_spec. split.
    + intros [post H]. exists "", post. exact H.
    + intros [pre [post H]]. destruct pre; [exists post; exact H | discriminate].
  - cbn [Js.includes]. rewrite orb_true_iff, prefix_spec, IH. split.
    + intros [[post H] | [pre [post H]]].
      * exists "", post. exact H.
      * exists (String c pre), post. rewrite append_cons. congruence.
    + intros [pre [post H]]. destruct pre as [|c' pre].
      * left. exists post. exact H.
      * right. exists pre, post. rewrite append_cons in H. congruence.
Qed.

Lemma toLowerCase_app s t :
  Js.toLowerCase (s +:+ t) = Js.toLowerCase s +:+ Js.toLowerCase t.
Proof.
  induction s as [|c s IH]; [reflexivity|].
  rewrite append_cons. simpl. now rewrite IH.
Qed.

Lemma sameIgnoringCase_lower s t :
  sameIgnoringCase s t <-> Js.toLowerCase s = Js.toLowerCase t.
Proof.
  split.
  - induction 1; simpl; congruence.
  - revert t. induction s as [|a s IH]; intros [|b t]; simpl; try discriminate.
    + constructor.
    + intros H. injection H as Hc Hs. constructor; auto.
Qed.

Lemma toLowerCase_split s a b :
  Js.toLowerCase s = a +:+ b ->
  exists s1 s2, s = s1 +:+ s2 /\ Js.toLowerCase s1 = a /\ Js.toLowerCase s2 = b.
Proof.
  revert s. induction a as [|c a IH]; intros s H.
  - exists "", s. auto.
  - destruct s as [|d s]; [discriminate|].
    rewrite append_cons in H. simpl in H.
    injection H as Hc Hs. destruct (IH _ Hs) as (s1 & s2 & -> & H1 & H2).
    exists (String d s1), s2. simpl. repeat split; congruence.
Qed.

Lemma includes_lower_spec keyword text :
  Js.includes (Js.toLowerCase keyword) (Js.toLowerCase text) = true
  <-> occursIgnoringCase keyword text.
Proof.
  rewrite includes_spec. split.
  - intros (pre & post & H).
    apply toLowerCase_split in H as (s1 & s23 & -> & H1 & H23).
    apply toLowerCase_split in H23 as (s2 & s3 & -> & H2 & H3).
    exists s1, s2, s3. split; [reflexivity|].
    apply sameIgnoringCase_lower. exact H2.
  - intros (pre & mid & post & -> & H). apply sameIgnoringCase_lower in H.
    exists (Js.toLowerCase pre), (Js.toLowerCase post).
    now rewrite !toLowerCase_app, H.
Qed.
(** ** Reasoning about computations *)

Section Post.
Context (R : World -> World -> Prop) `{!PreOrder R}.

Lemma post_ret {A} (a : A) (Q : A -> Prop) E : Q a -> post R (ret a) Q E.
Proof. intros Ha w w' r H. injection H as <- <-. split; [reflexivity | auto]. Qed.

Lemma post_throw {A} e (Q : A -> Prop) (E : JsError -> Prop) :
  E e -> post R (throw e) Q E.
Proof. intros He w w' r H. injection H as <- <-. split; [reflexivity | auto]. Qed.

Lemma post_get {A} (f : World -> A) (Q : A -> Prop) E :
  (forall w, Q (f w)) -> post R (get f) Q E.
Proof. intros Hf w w' r H. injection H as <- <-. split; [reflexivity | auto]. Qed.

Lemma post_modify (f : World -> World) E :
  (forall w, R w (f w)) -> post R (modify f) (fun _ => True) E.
Proof. intros Hf w w' r H. injection H as <- <-. auto. Qed.

Lemma post_bind {A B} (m : M A) (k : A -> M B) (Q1 : A -> Prop)
    (Q2 : B -> Prop) E :
  post R m Q1 E -> (forall a, Q1 a -> post R (k a) Q2 E) ->
  post R (bind m k) Q2 E.
Proof.
  intros Hm Hk w w' r H. unfold bind in H.
  destruct (m w) as [w1 [a|e]] eqn:Em; destruct (Hm _ _ _ Em) as [HR HQ].
  - destruct (Hk a HQ _ _ _ H) as [HR' HQ'].
    split; [etransitivity; eassumption | exact HQ'].
  - injection H as <- <-. auto.
Qed.

Lemma post_tryCatch {A} (m : M A) (h : JsError -> M A) (Q : A -> Prop)
    (E1 E : JsError -> Prop) :
  post R m Q E1 -> (forall e, E1 e -> post R (h e) Q E) ->
  post R (tryCatch m h) Q E.
Proof.
  intros Hm Hh w w' r H. unfold tryCatch in H.
  destruct (m w) as [w1 [a|e]] eqn:Em; destruct (Hm _ _ _ Em) as [HR HQ].
  - injection H as <- <-. auto.
  - destruct (Hh e HQ _ _ _ H) as [HR' HQ'].
    split; [etransitivity; eassumption | exact HQ'].
Qed.

Lemma post_weaken {A} (m : M A) (Q1 Q2 : A -> Prop) (E1 E2 : JsError -> Prop) :
  post R m Q1 E1 -> (forall a, Q1 a -> Q2 a) -> (forall e, E1 e -> E2 e) ->
  post R m Q2 E2.
Proof.
  intros Hm HQ HE w w' r H. destruct (Hm _ _ _ H) as [HR Hr].
  split; [exact HR | destruct r; auto].
Qed.

Lemma post_forEach {A} (l : list A) (f : A -> M unit) (P : A -> Prop) E :
  Forall P l -> (forall x, P x -> post R (f x) (fun _ => True) E) ->
  post R (forEach l f) (fun _ => True) E.
Proof.
  intros Hl Hf. induction Hl as [|x l Hx Hl IH]; simpl.
  - apply post_ret. exact I.
  - eapply post_bind; [apply Hf, Hx | intros _ _; exact IH].
Qed.

Lemma post_foldM {A B} (f : B -> A -> M B) (l : list A) (P : A -> Prop)
    (Q : B -> Prop) E :
  Forall P l -> (forall b x, Q b -> P x -> post R (f b x) Q E) ->
  forall b, Q b -> post R (foldM f b l) Q E.
Proof.
  intros Hl Hf. induction Hl as [|x l Hx Hl IH]; intros b Hb; simpl.
  - apply post_ret. exact Hb.
  - eapply post_bind; [apply Hf; eauto | intros b' Hb'; apply IH, Hb'].
Qed.

Lemma post_mapM {A B} (f : A -> M B) (l : list A) (Q : B -> Prop) E :
  (forall x, post R (f x) Q E) -> post R (mapM f l) (Forall Q) E.
Proof.
  intros Hf. induction l as [|x l IH]; simpl.
  - apply post_ret. constructor.
  - eapply post_bind; [apply Hf|]. intros y Hy.
    eapply post_bind; [apply IH|]. intros ys Hys.
    apply post_ret. constructor; assumption.
Qed.
End Post.

(** Apply a rule of [post] and let the order on worlds be found. *)
Ltac post_apply lem := eapply lem; try typeclasses eauto.

Lemma Forall_True {A} (l : list A) : Forall (fun _ => True) l.
Proof. induction l; constructor; auto. Qed.

(** A computation that always returns. *)
Lemma post_of_run {A} (R : World -> World -> Prop) (m : M A) Q E :
  (forall w, exists w' a, m w = (w', Ok a) /\ R w w' /\ Q a) ->
  post R m Q E.
Proof.
  intros Hm w w' r H. destruct (Hm w) as (w1 & a & Hr & HR & HQ).
  rewrite Hr in H. injection H as <- <-. auto.
Qed.

(** What cannot throw meets any condition on the errors. *)
Lemma post_noError {A} (R : World -> World -> Prop) (m : M A) Q E :
  post R m Q noError -> post R m Q E.
Proof. intros Hm. eapply post_weaken; [exact Hm | auto | intros e []]. Qed.

(** A computation that leaves the world as it is. *)
Lemma post_pure {A} (R : World -> World -> Prop) `{!PreOrder R}
    (m : M A) Q E :
  (forall w, exists r,
     m w = (w, r) /\ match r with
                     | Ok a => Q a
                     | Throw e => E e
                     end) ->
  post R m Q E.
Proof.
  intros Hm w w' r H. destruct (Hm w) as (r' & Hr & Hq).
  rewrite Hr in H. injection H as <- <-. split; [reflexivity | exact Hq].
Qed.

(** A computation that cannot throw returns. *)
Lemma post_run {A} (R : World -> World -> Prop) (m : M A) Q w :
  post R m Q noError -> exists w' a, m w = (w', Ok a) /\ R w w' /\ Q a.
Proof.
  intros Hm. destruct (m w) as [w' [a|e]] eqn:E; destruct (Hm _ _ _ E) as [HR HQ].
  - exists w', a. auto.
  - destruct HQ.
Qed.

(** *** The orders on worlds, and the effects that keep them *)

#[local] Instance anyWorld_preorder : PreOrder anyWorld.
Proof. split; [intros w | intros w1 w2 w3 _ _]; exact I. Qed.

#[local] Instance outsideSandbox_preorder : PreOrder outsideSandbox.
Proof.
  split.
  - intros w. repeat split.
  - intros w1 w2 w3 (A1 & A2 & A3 & A4 & A5) (B1 & B2 & B3 & B4 & B5).
    repeat split; congruence.
Qed.

#[local] Instance untouched_preorder P : PreOrder (untouched P).
Proof.
  split.
  - intros w. split; [reflexivity | intros d _; reflexivity].
  - intros w1 w2 w3 [A1 A2] [B1 B2]. split; [etransitivity; eassumption|].
    intros d Hd. unfold keeps in *. rewrite (B2 d Hd). apply A2, Hd.
Qed.

Lemma post_dateNow R E :
  (forall w, R w (tick w)) -> post R dateNow (fun _ => True) E.
Proof. intros HR w w' r H. injection H as <- <-. auto. Qed.

Lemma post_newDateISO R E :
  (forall w, R w (tick w)) -> post R newDateISO (fun _ => True) E.
Proof. intros HR w w' r H. injection H as <- <-. auto. Qed.

Lemma post_mathRandom R E :
  (forall w, R w (draw w)) -> post R mathRandom (fun _ => True) E.
Proof. intros HR w w' r H. injection H as <- <-. auto. Qed.

Lemma untouched_tick P w : untouched P w (tick w).
Proof. split; [repeat split | intros d _; reflexivity]. Qed.

Lemma outsideSandbox_exec w : outsideSandbox w (exec w).
Proof. repeat split. Qed.

(** ** The policy engine *)

Lemma isSandboxAlert_spec rca :
  Policy.isSandboxAlert (rca_metadata rca) = true <-> hasSandboxAlertType rca.
Proof.
  unfold Policy.isSandboxAlert, hasSandboxAlertType.
  destruct (rca_metadata rca) as [m|].
  - destruct (m !! "alertType") as [v|] eqn:Hv.
    + destruct v as [s| | | |];
        try (split; [discriminate | intros (m' & Hm & H); congruence]).
      rewrite String.eqb_eq. split.
      * intros ->. exists m. auto.
      * intros (m' & Hm & H). congruence.
    + split; [discriminate | intros (m' & Hm & H); congruence].
  - split; [discriminate | intros (m' & Hm & H); discriminate].
Qed.

(** C1.  An RCA result whose [metadata.alertType] is ["sandbox_disk_full"]
    gets the decision [require-approval] from [evaluatePolicy], whatever
    its risk level, its proposed fix and the rules. *)
Theorem evaluatePolicy_sandbox_requires_approval rca rules :
  hasSandboxAlertType rca ->
  Policy.action (Policy.evaluatePolicy rca rules) = require_approval.
Proof.
  intros H. apply isSandboxAlert_spec in H.
  unfold Policy.evaluatePolicy. now rewrite H.
Qed.

Lemma evaluatePolicy_sandbox_requires_approval_witness :
  hasSandboxAlertType (sampleRca "delete-data" RiskLow (Some sandboxMetadata))
  /\ Policy.action
       (Policy.evaluatePolicy
          (sampleRca "delete-data" RiskLow (Some sandboxMetadata))
          Policy.defaultRules) = require_approval.
Proof.
  assert (H : hasSandboxAlertType
                (sampleRca "delete-data" RiskLow (Some sandboxMetadata))).
  { exists sandboxMetadata. split; reflexivity. }
  split; [exact H|].
  exact (evaluatePolicy_sandbox_requires_approval _ Policy.defaultRules H).
Defined.

(** C3, as the code has it.  Under the default rules, an RCA result whose
    [metadata.alertType] is not ["sandbox_disk_full"] and whose proposed
    fix contains "delete-data", in any case of the letters, gets the
    decision [reject], whatever its risk level. *)
Theorem evaluatePolicy_delete_data_rejected rca :
  ~ hasSandboxAlertType rca ->
  occursIgnoringCase "delete-data" (rca_proposedFix rca) ->
  Policy.action (Policy.evaluatePolicy rca Policy.defaultRules) = reject.
Proof.
  intros Hns Hocc.
  rewrite <- isSandboxAlert_spec in Hns. apply not_true_is_false in Hns.
  apply includes_lower_spec in Hocc.
  unfold Policy.evaluatePolicy. rewrite Hns.
  cbn [blockedActions Policy.defaultRules find].
  now rewrite Hocc.
Qed.

Lemma occurs_delete_data :
  occursIgnoringCase "delete-data" "Please DELETE-Data in /var".
Proof.
  exists "Please ", "DELETE-Data", " in /var". split; [reflexivity|].
  apply sameIgnoringCase_lower. reflexivity.
Defined.

Lemma not_sandbox_sample text risk :
  ~ hasSandboxAlertType (sampleRca text risk None).
Proof. intros (m & H & _). discriminate H. Defined.

Lemma evaluatePolicy_delete_data_rejected_witness :
  Policy.action
    (Policy.evaluatePolicy
       (sampleRca "Please DELETE-Data in /var" RiskLow None)
       Policy.defaultRules) = reject.
Proof.
  apply (evaluatePolicy_delete_data_rejected
           (sampleRca "Please DELETE-Data in /var" RiskLow None)).
  - apply not_sandbox_sample.
  - exact occurs_delete_data.
Defined.

(** C3 as stated fails: a sandbox alert whose proposed fix is "delete-data"
    is not rejected. *)
Lemma delete_data_not_rejected_for_sandbox_alert :
  occursIgnoringCase "delete-data"
    (rca_proposedFix (sampleRca "delete-data" RiskLow (Some sandboxMetadata)))
  /\ Policy.action
       (Policy.evaluatePolicy
          (sampleRca "delete-data" RiskLow (Some sandboxMetadata))
          Policy.defaultRules) <> reject.
Proof.
  split.
  - exists "", "delete-data", "". split; [reflexivity|].
    apply sameIgnoringCase_lower. reflexivity.
  - vm_compute. discriminate.
Qed.

(** [loadPolicyRules] reads the rules and changes nothing. *)
Lemma loadPolicyRules_run w :
  Policy.loadPolicyRules w = (w, Ok (rulesIn w)).
Proof. reflexivity. Qed.

(** C5.  When the decision on an RCA result, under the rules found in the
    state, is [reject], the handler returns having emitted no event and
    created no pending approval: it has written the decision under
    [policy-decisions] and a rejection record under [policy-rejections],
    and nothing else. *)
Theorem handler_reject_persists_and_emits_nothing rca w rules :
  snd (Policy.loadPolicyRules w) = Ok rules ->
  Policy.action (Policy.evaluatePolicy rca rules) = reject ->
  exists w' d r,
    Policy.handler rca w = (w', Ok tt)
    /\ w_events w' = w_events w
    /\ approval_pending (w_state w') = approval_pending (w_state w)
    /\ policy_decisions (w_state w')
       = <[rca_incidentId rca := d]> (policy_decisions (w_state w))
    /\ pd_decision d = reject
    /\ policy_rejections (w_state w')
       = <[rca_incidentId rca := r]> (policy_rejections (w_state w))
    /\ policy_rules (w_state w') = policy_rules (w_state w)
    /\ rca_results (w_state w') = rca_results (w_state w)
    /\ rollback_snapshots (w_state w') = rollback_snapshots (w_state w)
    /\ rollback_history (w_state w') = rollback_history (w_state w).
Proof.
  intros Hrules Hrej.
  rewrite loadPolicyRules_run in Hrules. injection Hrules as <-.
  unfold Policy.handler, tryCatch, bind.
  rewrite loadPolicyRules_run.
  unfold newDateISO, bind, dateNow, stateSet, modify, ret. cbv beta iota.
  rewrite Hrej. cbv beta iota.
  do 3 eexists. split; [reflexivity|].
  simpl. repeat split; reflexivity.
Qed.

Lemma handler_reject_persists_and_emits_nothing_witness :
  exists w',
    Policy.handler (sampleRca "Please DELETE-Data in /var" RiskLow None)
      (sampleWorld None None) = (w', Ok tt)
    /\ w_events w' = []
    /\ approval_pending (w_state w') = ∅.
Proof.
  destruct (handler_reject_persists_and_emits_nothing
              (sampleRca "Please DELETE-Data in /var" RiskLow None)
              (sampleWorld None None) Policy.defaultRules)
    as (w' & d & r & Hrun & Hev & Hpend & _).
  - reflexivity.
  - vm_compute. reflexivity.
  - exists w'. repeat split; assumption.
Defined.

(** ** The metrics sources *)

Lemma prometheus_checks_as_simulator :
  Prometheus.performHealthChecks = Simulator.performHealthChecks.
Proof. reflexivity. Qed.

Lemma performHealthChecks_run metrics w :
  exists mem rest,
    Simulator.performHealthChecks metrics w = (tick w, Ok (mem :: rest))
    /\ hc_resource mem = "system-memory"
    /\ hc_status mem
       = (if Qle_bool 60 (mem_percentage (memory metrics))
          then unhealthy else healthy)
    /\ hc_threshold mem = 80%Q
    /\ Forall (fun c => hc_resource c <> "system-memory"
                        /\ hc_resource c <> "sandbox-disk") rest.
Proof.
  unfold Simulator.performHealthChecks, newDateISO, bind, dateNow, ret.
  cbv beta iota zeta delta [app].
  do 2 eexists. split; [reflexivity|]. simpl. repeat split.
  repeat (constructor; [split; discriminate|]).
  apply Forall_app. split.
  - induction (containers metrics) as [|c l IH]; simpl; constructor;
      [split; discriminate | exact IH].
  - constructor; [split; discriminate | constructor].
Qed.

(** C6.  In the simulator and in the metrics-database client,
    [performHealthChecks] returns the check of ["system-memory"] first and
    once; it is [unhealthy] exactly when [memory.percentage >= 60], and
    the threshold it records is 80. *)
Theorem memory_check_trigger_60_threshold_80 metrics w :
  (exists w' mem rest,
     Simulator.performHealthChecks metrics w = (w', Ok (mem :: rest))
     /\ hc_resource mem = "system-memory"
     /\ (hc_status mem = unhealthy
         <-> (60 <= mem_percentage (memory metrics))%Q)
     /\ hc_threshold mem = 80%Q
     /\ Forall (fun c => hc_resource c <> "system-memory") rest)
  /\ (exists w' mem rest,
        Prometheus.performHealthChecks metrics w = (w', Ok (mem :: rest))
        /\ hc_resource mem = "system-memory"
        /\ (hc_status mem = unhealthy
            <-> (60 <= mem_percentage (memory metrics))%Q)
        /\ hc_threshold mem = 80%Q
        /\ Forall (fun c => hc_resource c <> "system-memory") rest).
Proof.
  rewrite prometheus_checks_as_simulator.
  assert (H : exists w' mem rest,
     Simulator.performHealthChecks metrics w = (w', Ok (mem :: rest))
     /\ hc_resource mem = "system-memory"
     /\ (hc_status mem = unhealthy
         <-> (60 <= mem_percentage (memory metrics))%Q)
     /\ hc_threshold mem = 80%Q
     /\ Forall (fun c => hc_resource c <> "system-memory") rest).
  { destruct (performHealthChecks_run metrics w)
      as (mem & rest & Hrun & Hres & Hst & Hth & Hrest).
    exists (tick w), mem, rest. repeat split; try assumption.
    - rewrite Hst. intros H.
      destruct (Qle_bool 60 (mem_percentage (memory metrics))) eqn:E;
        [now apply Qle_bool_iff | discriminate].
    - intros H. apply Qle_bool_iff in H. now rewrite Hst, H.
    - eapply Forall_impl; [exact Hrest|]. intros c [Hc _]. exact Hc. }
  split; exact H.
Qed.

Lemma collectMetrics_run w :
  Simulator.collectMetrics w
  = (tick w,
     Ok (match w_scenarioActive w with
         | Some scenario => Simulator.applyScenario Simulator.baseMetrics scenario
         | None => Simulator.baseMetrics
         end)).
Proof.
  unfold Simulator.collectMetrics, bind, dateNow, get.
  simpl. destruct (w_scenarioActive w); reflexivity.
Qed.

(** C8.  After [triggerScenario('high_memory')], [collectMetrics] reports
    [memory.percentage = 80]; after [clearScenario()] it reports 25 again;
    and with no active scenario the metrics are the baseline, on which
    every health check is [healthy] and [detectAlerts] finds no alert. *)
Theorem scenario_round_trip_and_healthy_baseline w :
  (exists w1 m1,
     (Simulator.triggerScenario high_memory ;; Simulator.collectMetrics) w
     = (w1, Ok m1)
     /\ mem_percentage (memory m1) = 80%Q
     /\ exists w2 m2,
          (Simulator.clearScenario ;; Simulator.collectMetrics) w1
          = (w2, Ok m2)
          /\ mem_percentage (memory m2) = 25%Q)
  /\ (w_scenarioActive w = None ->
      exists w1 w2 w3 checks,
        Simulator.collectMetrics w = (w1, Ok Simulator.baseMetrics)
        /\ Simulator.performHealthChecks Simulator.baseMetrics w1
           = (w2, Ok checks)
        /\ Forall (fun c => hc_status c = healthy) checks
        /\ Simulator.detectAlerts checks w2 = (w3, Ok [])).
Proof.
  split.
  - unfold bind at 1. unfold Simulator.triggerScenario at 1.
    unfold bind at 1, dateNow at 1, modify at 1. cbv beta iota.
    rewrite collectMetrics_run. do 2 eexists. split; [reflexivity|].
    split; [reflexivity|].
    unfold bind, Simulator.clearScenario, modify. cbv beta iota.
    rewrite collectMetrics_run. do 2 eexists. split; reflexivity.
  - intros Hnone. rewrite collectMetrics_run, Hnone.
    do 4 eexists. split; [reflexivity|].
    unfold Simulator.performHealthChecks, newDateISO, bind, dateNow, ret.
    cbn - [Js.toISOString].
    split; [reflexivity|]. split; [repeat constructor|]. reflexivity.
Qed.

Lemma scenario_round_trip_and_healthy_baseline_witness :
  exists w1 w2 w3 checks,
    Simulator.collectMetrics (sampleWorld None None)
    = (w1, Ok Simulator.baseMetrics)
    /\ Simulator.performHealthChecks Simulator.baseMetrics w1 = (w2, Ok checks)
    /\ Forall (fun c => hc_status c = healthy) checks
    /\ Simulator.detectAlerts checks w2 = (w3, Ok []).
Proof.
  apply (scenario_round_trip_and_healthy_baseline (sampleWorld None None)).
  reflexivity.
Defined.

(** [createAlert] never throws, and the alert it gives a check that is not
    on the resource ["sandbox-disk"] is never of type [sandbox_disk_full]. *)
Lemma classify_not_sandbox check :
  hc_resource check <> "sandbox-disk" ->
  post anyWorld (Simulator.classify check)
    (fun c => forall t s l, c = Some (t, s, l) -> t <> sandbox_disk_full)
    noError.
Proof.
  intros Hres. apply String.eqb_neq in Hres.
  unfold Simulator.classify. rewrite Hres.
  repeat match goal with
         | |- context [if String.eqb ?a ?b then _ else _] =>
             destruct (String.eqb a b)
         end;
    try (post_apply post_ret; [intros t s l H; injection H as <- _ _; discriminate]).
  - post_apply post_bind; [apply post_dateNow; done |].
    intros now _. post_apply post_ret.
    intros t s l H. injection H as <- _ _. discriminate.
  - post_apply post_ret; [discriminate].
Qed.

Lemma createAlert_not_sandbox check timestamp :
  hc_resource check <> "sandbox-disk" ->
  post anyWorld (Simulator.createAlert check timestamp)
    (fun r => forall a, r = Some a -> alert_alertType a <> sandbox_disk_full)
    noError.
Proof.
  intros Hres. unfold Simulator.createAlert.
  post_apply post_bind; [apply classify_not_sandbox, Hres |].
  intros [[[t s] l]|] Hc.
  - post_apply post_bind; [apply post_dateNow; done |].
    intros now _.
    post_apply post_bind; [apply post_mathRandom; done |].
    intros r _. post_apply post_ret.
    intros a H. injection H as <-. simpl. eapply Hc. reflexivity.
  - post_apply post_ret; [discriminate].
Qed.

Lemma detectAlerts_not_sandbox checks :
  Forall (fun c => hc_resource c <> "sandbox-disk") checks ->
  post anyWorld (Simulator.detectAlerts checks)
    (Forall (fun a => alert_alertType a <> sandbox_disk_full)) noError.
Proof.
  intros Hchecks. unfold Simulator.detectAlerts.
  post_apply post_bind; [apply post_newDateISO; done |].
  intros timestamp _.
  eapply post_foldM with (P := fun c => hc_resource c <> "sandbox-disk");
    try typeclasses eauto; [exact Hchecks | | constructor].
  intros alerts check Halerts Hres.
  destruct (Simulator.isUnhealthy (hc_status check)).
  - post_apply post_bind; [apply createAlert_not_sandbox, Hres |].
    intros [a|] Ha; post_apply post_ret; try done.
    apply Forall_app. split; [exact Halerts|].
    constructor; [apply Ha; reflexivity | constructor].
  - post_apply post_ret; done.
Qed.

(** C9.  With the scenario [sandbox_disk_full] active, the pipeline
    [collectMetrics], [performHealthChecks], [detectAlerts] yields one
    alert, of type [disk_full] and severity [critical], on the resource
    ["system-disk"]; and whatever the metrics, no alert it derives from
    the health checks has type [sandbox_disk_full]. *)
Theorem sandbox_scenario_raises_disk_full_alert :
  (forall w,
     w_scenarioActive w = Some sandbox_disk_full ->
     exists w' a,
       (metrics <- Simulator.collectMetrics ;;
        checks <- Simulator.performHealthChecks metrics ;;
        Simulator.detectAlerts checks) w = (w', Ok [a])
       /\ alert_alertType a = disk_full
       /\ alert_severity a = SevCritical
       /\ alert_affectedResource a = "system-disk")
  /\ (forall metrics w w' r,
        (checks <- Simulator.performHealthChecks metrics ;;
         Simulator.detectAlerts checks) w = (w', r) ->
        exists alerts,
          r = Ok alerts
          /\ Forall (fun a => alert_alertType a <> sandbox_disk_full) alerts).
Proof.
  split.
  - intros w Hsc. unfold bind at 1. rewrite collectMetrics_run, Hsc.
    unfold Simulator.performHealthChecks, newDateISO, bind, dateNow, ret.
    cbn - [Js.toISOString Js.toFixed Js.showZ Js.base36Fraction].
    do 2 eexists. split; [reflexivity|]. repeat split.
  - intros metrics w w' r Hrun. unfold bind in Hrun.
    destruct (performHealthChecks_run metrics w)
      as (mem & rest & Hchecks & Hmem & _ & _ & Hrest).
    rewrite Hchecks in Hrun.
    assert (Hall : Forall (fun c => hc_resource c <> "sandbox-disk")
                     (mem :: rest)).
    { constructor; [rewrite Hmem; discriminate|].
      eapply Forall_impl; [exact Hrest|]. intros c [_ Hc]. exact Hc. }
    destruct (detectAlerts_not_sandbox _ Hall _ _ _ Hrun) as [_ Hpost].
    destruct r as [alerts|e]; [|destruct Hpost].
    exists alerts. split; [reflexivity | exact Hpost].
Qed.

Lemma sandbox_scenario_raises_disk_full_alert_witness :
  exists w' a,
    (metrics <- Simulator.collectMetrics ;;
     checks <- Simulator.performHealthChecks metrics ;;
     Simulator.detectAlerts checks) (sampleWorld None (Some sandbox_disk_full))
    = (w', Ok [a])
    /\ alert_alertType a = disk_full
    /\ alert_severity a = SevCritical
    /\ alert_affectedResource a = "system-disk".
Proof.
  apply (proj1 sandbox_scenario_raises_disk_full_alert
           (sampleWorld None (Some sandbox_disk_full))).
  reflexivity.
Defined.

(** ** The sandbox monitor *)

Arguments Js.round : simpl never.

Lemma FsNode_nested_ind (P : FsNode -> Prop) :
  (forall size mtime, P (File size mtime)) ->
  (forall mtime es, Forall (fun e => P (snd e)) es -> P (Dir mtime es)) ->
  forall n, P n.
Proof.
  intros HF HD. fix IH 1. intros [size mtime | mtime es].
  - apply HF.
  - apply HD. induction es as [|[name c] es IHes]; constructor.
    + apply IH.
    + exact IHes.
Qed.

Lemma sumZ_app l1 l2 : sumZ (l1 ++ l2) = sumZ l1 + sumZ l2.
Proof. induction l1 as [|x l1 IH]; simpl; [reflexivity | rewrite IH; lia]. Qed.

Lemma fold_left_add l acc :
  fold_left (fun total size => total + size) l acc = acc + sumZ l.
Proof.
  revert acc. induction l as [|x l IH]; intros acc; simpl; [lia|].
  rewrite IH. lia.
Qed.

(** [getDirectorySize] adds up the sizes of the regular files of the tree. *)
Lemma sizeOfNode_sum n : SandboxMonitor.sizeOfNode n = sumZ (filesBelow n).
Proof.
  induction n as [size mtime | mtime es IH] using FsNode_nested_ind.
  - simpl. lia.
  - simpl. rewrite fold_left_add, Z.add_0_l.
    induction IH as [|[name c] es Hc _ IHes]; [reflexivity|].
    simpl in *. rewrite sumZ_app, Hc, IHes. reflexivity.
Qed.

Lemma getDirectorySize_root w :
  SandboxMonitor.getDirectorySize [] w = (w, Ok (treeBytes (w_sandbox w))).
Proof.
  unfold SandboxMonitor.getDirectorySize, tryCatch, bind, get, treeBytes.
  simpl. destruct (w_sandbox w) as [n|]; simpl; [|reflexivity].
  now rewrite sizeOfNode_sum.
Qed.

Lemma countFiles_run path w :
  exists n, SandboxMonitor.countFiles path w = (w, Ok n).
Proof.
  unfold SandboxMonitor.countFiles, tryCatch, bind, Fs.readdir, bind, get.
  simpl. destruct (Fs.lookupPath path (w_sandbox w)) as [[size mtime|mtime es]|];
    simpl; eexists; reflexivity.
Qed.

Lemma sandbox_collectMetrics_run w :
  exists metrics,
    SandboxMonitor.collectMetrics w = (w, Ok metrics)
    /\ SandboxMonitor.totalSizeBytes metrics = treeBytes (w_sandbox w)
    /\ SandboxMonitor.totalSizeMB metrics
       = Js.round (inject_Z (treeBytes (w_sandbox w)) / inject_Z (1024 * 1024)).
Proof.
  unfold SandboxMonitor.collectMetrics. unfold bind at 1.
  rewrite getDirectorySize_root.
  destruct (countFiles_run ["logs"] w) as [n1 H1].
  destruct (countFiles_run ["temp"] w) as [n2 H2].
  destruct (countFiles_run ["cache"] w) as [n3 H3].
  destruct (countFiles_run ["data"] w) as [n4 H4].
  unfold bind. rewrite H1, H2, H3, H4.
  eexists. split; [reflexivity|]. split; reflexivity.
Qed.

Lemma round_MB b :
  Js.round (inject_Z b / inject_Z (1024 * 1024)) = (2 * b + 1048576) / 2097152.
Proof.
  unfold Js.round, Qfloor, Qdiv, Qmult, Qinv, Qplus, inject_Z. simpl.
  f_equal; lia.
Qed.

(** C7.  [isOverThreshold] returns [true] exactly when [totalSizeMB], the
    byte size of the sandbox tree rounded to whole megabytes, is at least
    100, that is from 99.5 MB on: at a measure of 100 MB it is [true], at
    99 MB [false]. *)
Theorem isOverThreshold_iff_100MB w :
  exists metrics over,
    SandboxMonitor.collectMetrics w = (w, Ok metrics)
    /\ SandboxMonitor.totalSizeBytes metrics = treeBytes (w_sandbox w)
    /\ SandboxMonitor.totalSizeMB metrics
       = Js.round (inject_Z (treeBytes (w_sandbox w)) / inject_Z (1024 * 1024))
    /\ SandboxMonitor.isOverThreshold w = (w, Ok over)
    /\ (over = true <-> 100 <= SandboxMonitor.totalSizeMB metrics)
    /\ (over = true <-> 104333312 <= treeBytes (w_sandbox w))
    /\ (SandboxMonitor.totalSizeMB metrics = 100 -> over = true)
    /\ (SandboxMonitor.totalSizeMB metrics = 99 -> over = false).
Proof.
  destruct (sandbox_collectMetrics_run w) as (metrics & Hrun & Hbytes & HMB).
  exists metrics, (100 <=? SandboxMonitor.totalSizeMB metrics).
  split; [exact Hrun|]. split; [exact Hbytes|]. split; [exact HMB|].
  split; [unfold SandboxMonitor.isOverThreshold, bind; now rewrite Hrun|].
  split; [apply Z.leb_le|].
  split.
  - rewrite HMB, round_MB, Z.leb_le.
    split; intros H; Z.div_mod_to_equations; lia.
  - split; intros ->; reflexivity.
Qed.

Lemma isOverThreshold_iff_100MB_witness :
  SandboxMonitor.isOverThreshold (sampleWorld (sandboxOfSize 104857600) None)
  = (sampleWorld (sandboxOfSize 104857600) None, Ok true)
  /\ SandboxMonitor.isOverThreshold (sampleWorld (sandboxOfSize 103809024) None)
     = (sampleWorld (sandboxOfSize 103809024) None, Ok false).
Proof.
  split.
  - destruct (isOverThreshold_iff_100MB
                (sampleWorld (sandboxOfSize 104857600) None))
      as (metrics & over & Hrun & _ & HMB & Hover & _ & _ & H100 & _).
    rewrite Hover. rewrite H100; [reflexivity|].
    rewrite HMB. vm_compute. reflexivity.
  - destruct (isOverThreshold_iff_100MB
                (sampleWorld (sandboxOfSize 103809024) None))
      as (metrics & over & Hrun & _ & HMB & Hover & _ & _ & _ & H99).
    rewrite Hover. rewrite H99; [reflexivity|].
    rewrite HMB. vm_compute. reflexivity.
Defined.

(** *** What the cleanup leaves alone *)

Lemma stat_pure R `{!PreOrder R} path :
  post R (Fs.stat path) (fun _ => True) anyError.
Proof.
  apply post_pure; [assumption|]. intros w.
  unfold Fs.stat, bind, get. simpl.
  destruct (Fs.lookupPath path (w_sandbox w)) as [[size mtime|mtime es]|];
    eexists; (split; [reflexivity | exact I]).
Qed.

Lemma readdir_pure R `{!PreOrder R} path :
  post R (Fs.readdir path) (fun _ => True) anyError.
Proof.
  apply post_pure; [assumption|]. intros w.
  unfold Fs.readdir, bind, get. simpl.
  destruct (Fs.lookupPath path (w_sandbox w)) as [[size mtime|mtime es]|];
    eexists; (split; [reflexivity | exact I]).
Qed.

Lemma lookupEntry_updateEntry_ne d d' f es es' :
  d <> d' ->
  Fs.updateEntry d f es = Ok es' ->
  Fs.lookupEntry d' es' = Fs.lookupEntry d' es.
Proof.
  intros Hne. revert es'. induction es as [|[n c] es IH]; intros es' H; simpl in H.
  - discriminate.
  - destruct (String.eqb n d) eqn:End.
    + apply String.eqb_eq in End. subst n.
      assert (Hd : String.eqb d d' = false) by now apply String.eqb_neq.
      destruct (f c) as [[c'|]|e]; try discriminate; injection H as <-;
        simpl; now rewrite Hd.
    + destruct (Fs.updateEntry d f es) as [r|e]; [|discriminate].
      injection H as <-. simpl. destruct (String.eqb n d'); [reflexivity|].
      now apply IH.
Qed.

(** Removing a file below the entry [d] changes nothing below another
    entry. *)
Lemma unlinkAt_keeps d d' rest n o :
  d <> d' ->
  Fs.unlinkAt (d :: rest) n = Ok o ->
  exists n', o = Some n' /\ Fs.resolve [d'] n' = Fs.resolve [d'] n.
Proof.
  intros Hne H. destruct n as [size mtime|mtime es]; simpl in H; [discriminate|].
  destruct (Fs.updateEntry d (Fs.unlinkAt rest) es) as [es'|e] eqn:E;
    [|discriminate].
  injection H as <-. eexists. split; [reflexivity|]. simpl.
  now rewrite (lookupEntry_updateEntry_ne _ _ _ _ _ Hne E).
Qed.

Lemma unlink_untouched (P : string -> Prop) d rest :
  ~ P d ->
  post (untouched P) (Fs.unlink (d :: rest)) (fun _ => True) anyError.
Proof.
  intros HP w w' r H. unfold Fs.unlink, bind, get in H. cbv beta iota in H.
  destruct (w_sandbox w) as [n|] eqn:Hfs.
  - destruct (Fs.unlinkAt (d :: rest) n) as [o|e] eqn:E.
    + unfold modify in H. injection H as <- <-. split; [|exact I].
      split; [repeat split|]. intros d' Hd'. unfold keeps. simpl.
      assert (Hne : d <> d') by (intros ->; contradiction).
      destruct (unlinkAt_keeps _ _ _ _ _ Hne E) as (n' & -> & Hn').
      rewrite Hfs. exact Hn'.
    + injection H as <- <-. split; [reflexivity | exact I].
  - injection H as <- <-. split; [reflexivity | exact I].
Qed.

Lemma cleanTemp_untouched details :
  post (untouched (fun d => d <> "temp")) (SandboxMonitor.cleanTemp details)
    (fun _ => True) noError.
Proof.
  unfold SandboxMonitor.cleanTemp.
  post_apply post_tryCatch; [|intros e _; post_apply post_ret; exact I].
  post_apply post_bind; [apply readdir_pure; typeclasses eauto|].
  intros tempFiles _.
  post_apply post_bind; [|intros n _; post_apply post_ret; exact I].
  eapply post_foldM with (P := fun _ => True) (Q := fun _ => True);
    try typeclasses eauto; [apply Forall_True | | exact I].
  intros n file _ _.
  post_apply post_bind; [apply stat_pure; typeclasses eauto|]. intros st _.
  post_apply post_bind; [apply post_dateNow; apply untouched_tick|].
  intros now _.
  destruct (Js.Qlt_bool _ _); [|post_apply post_ret; exact I].
  post_apply post_bind; [|intros _ _; post_apply post_ret; exact I].
  apply unlink_untouched. intros H. now apply H.
Qed.

Lemma Forall_insertSorted {A} (key : A -> Q) (P : A -> Prop) x l :
  P x -> Forall P l -> Forall P (Js.insertSorted key x l).
Proof.
  intros Hx Hl. induction Hl as [|y l Hy Hl IH]; simpl.
  - constructor; [exact Hx | constructor].
  - destruct (Qle_bool (key x) (key y)); repeat constructor; assumption.
Qed.

Lemma Forall_sortBy {A} (key : A -> Q) (P : A -> Prop) l :
  Forall P l -> Forall P (Js.sortBy key l).
Proof.
  intros Hl. induction Hl as [|x l Hx Hl IH]; simpl; [constructor|].
  now apply Forall_insertSorted.
Qed.

Lemma cleanLogs_untouched details :
  post (untouched (fun d => d <> "logs")) (SandboxMonitor.cleanLogs details)
    (fun _ => True) noError.
Proof.
  unfold SandboxMonitor.cleanLogs.
  post_apply post_tryCatch; [|intros e _; post_apply post_ret; exact I].
  post_apply post_bind; [apply readdir_pure; typeclasses eauto|].
  intros logFiles _.
  post_apply post_bind.
  { eapply post_mapM with
      (Q := fun ls => exists file, SandboxMonitor.ls_path ls = ["logs"; file]);
      try typeclasses eauto.
    intros file.
    post_apply post_bind; [apply stat_pure; typeclasses eauto|]. intros st _.
    post_apply post_ret. exists file. reflexivity. }
  intros logStats HlogStats. cbv zeta.
  post_apply post_bind; [|intros _ _; post_apply post_ret; exact I].
  eapply post_forEach; try typeclasses eauto.
  - unfold Js.dropLast. apply Forall_take, Forall_sortBy. exact HlogStats.
  - intros ls [file ->]. apply unlink_untouched. intros H. now apply H.
Qed.

Lemma cleanCache_untouched details :
  post (untouched (fun d => d <> "cache")) (SandboxMonitor.cleanCache details)
    (fun _ => True) noError.
Proof.
  unfold SandboxMonitor.cleanCache.
  post_apply post_tryCatch; [|intros e _; post_apply post_ret; exact I].
  post_apply post_bind; [apply readdir_pure; typeclasses eauto|].
  intros cacheFiles _.
  post_apply post_bind; [|intros _ _; post_apply post_ret; exact I].
  eapply post_forEach with (P := fun _ => True);
    try typeclasses eauto; [apply Forall_True|].
  intros file _. apply unlink_untouched. intros H. now apply H.
Qed.

(** *** Emptying the cache *)

Lemma updateEntry_found d f es c c' :
  Fs.lookupEntry d es = Some c ->
  f c = Ok (Some c') ->
  exists es',
    Fs.updateEntry d f es = Ok es' /\ Fs.lookupEntry d es' = Some c'.
Proof.
  intros Hc Hf. induction es as [|[n x] es IH]; simpl in *; [discriminate|].
  destruct (String.eqb n d) eqn:End.
  - injection Hc as ->. rewrite Hf. eexists. split; [reflexivity|].
    simpl. now rewrite End.
  - destruct (IH Hc) as (es' & -> & Hes'). eexists. split; [reflexivity|].
    simpl. now rewrite End.
Qed.

Lemma unlinkAt_dir name rest mtime es :
  Fs.unlinkAt (name :: rest) (Dir mtime es)
  = match Fs.updateEntry name (Fs.unlinkAt rest) es with
    | Ok es' => Ok (Some (Dir mtime es'))
    | Throw e => Throw e
    end.
Proof. reflexivity. Qed.

(** Removing the file a directory lists first leaves the other entries. *)
Lemma unlink_first_entry d name size t mtime es w :
  Fs.lookupPath [d] (w_sandbox w) = Some (Dir mtime ((name, File size t) :: es)) ->
  exists w',
    Fs.unlink [d; name] w = (w', Ok tt)
    /\ Fs.lookupPath [d] (w_sandbox w') = Some (Dir mtime es).
Proof.
  intros Hd. unfold Fs.unlink, bind, get. cbv beta iota.
  destruct (w_sandbox w) as [[rsize rmtime|rmtime res]|]; simpl in Hd;
    try discriminate.
  destruct (Fs.lookupEntry d res) as [c|] eqn:Hc; [|discriminate].
  injection Hd as ->.
  destruct (updateEntry_found d (Fs.unlinkAt [name]) res _ (Dir mtime es) Hc)
    as (res' & Hup & Hres').
  { simpl. now rewrite String.eqb_refl. }
  rewrite unlinkAt_dir, Hup. unfold modify. eexists. split; [reflexivity|].
  simpl. now rewrite Hres'.
Qed.

Lemma forEach_unlink_files d mtime es :
  Forall (fun e => isFile (snd e)) es ->
  forall w,
    Fs.lookupPath [d] (w_sandbox w) = Some (Dir mtime es) ->
    exists w',
      forEach (map fst es) (fun file => Fs.unlink ([d] ++ [file])) w
      = (w', Ok tt)
      /\ Fs.lookupPath [d] (w_sandbox w') = Some (Dir mtime []).
Proof.
  induction 1 as [|[name c] es Hc Hes IH]; intros w Hd; simpl.
  - exists w. split; [reflexivity | exact Hd].
  - destruct c as [size t|]; [|destruct Hc].
    destruct (unlink_first_entry _ _ _ _ _ _ _ Hd) as (w1 & Hrun & Hd1).
    unfold bind. rewrite Hrun. apply IH, Hd1.
Qed.

Lemma cleanCache_clears details mtime es w :
  Fs.lookupPath ["cache"] (w_sandbox w) = Some (Dir mtime es) ->
  Forall (fun e => isFile (snd e)) es ->
  exists w' details',
    SandboxMonitor.cleanCache details w = (w', Ok details')
    /\ Fs.lookupPath ["cache"] (w_sandbox w') = Some (Dir mtime []).
Proof.
  intros Hcache Hfiles.
  destruct (forEach_unlink_files "cache" mtime es Hfiles w Hcache)
    as (w' & Hrun & Hempty).
  unfold SandboxMonitor.cleanCache, tryCatch, bind at 1, Fs.readdir, bind at 1, get.
  cbv zeta beta iota. rewrite Hcache. unfold ret at 1. cbv beta iota.
  unfold bind. rewrite Hrun. do 2 eexists. split; [reflexivity | exact Hempty].
Qed.

Lemma lookupPath_cons d p root :
  Fs.lookupPath (d :: p) root
  = match Fs.lookupPath [d] root with
    | Some c => Fs.resolve p c
    | None => None
    end.
Proof.
  destruct root as [[size mtime|mtime es]|]; simpl; try reflexivity.
  destruct (Fs.lookupEntry d es); reflexivity.
Qed.

Lemma untouched_weaken (P P' : string -> Prop) w w' :
  (forall d, P' d -> P d) -> untouched P w w' -> untouched P' w w'.
Proof. intros HP [Ho Hk]. split; [exact Ho | auto]. Qed.

Lemma notCleanable_ne d :
  notCleanable d -> d <> "temp" /\ d <> "logs" /\ d <> "cache".
Proof.
  unfold notCleanable, SandboxMonitor.SAFE_CLEANUP_DIRS. simpl. intros H.
  repeat split; intros ->; apply H; auto.
Qed.

(** [executeCleanup] returns with [success: true], having changed nothing
    but what is below [logs/], [temp/] and [cache/]; a cache directory that
    holds regular files only is left empty. *)
Lemma executeCleanup_run w :
  exists w' result,
    SandboxMonitor.executeCleanup w = (w', Ok result)
    /\ SandboxMonitor.success result = true
    /\ untouched notCleanable w w'
    /\ (forall mtime es,
          Fs.lookupPath ["cache"] (w_sandbox w) = Some (Dir mtime es) ->
          Forall (fun e => isFile (snd e)) es ->
          Fs.lookupPath ["cache"] (w_sandbox w') = Some (Dir mtime [])).
Proof.
  destruct (sandbox_collectMetrics_run w) as (before & Hbefore & _).
  destruct (post_run _ _ _ w (cleanTemp_untouched []))
    as (w1 & d1 & Hrun1 & Hw1 & _).
  destruct (post_run _ _ _ w1 (cleanLogs_untouched d1))
    as (w2 & d2 & Hrun2 & Hw2 & _).
  destruct (post_run _ _ _ w2 (cleanCache_untouched d2))
    as (w3 & d3 & Hrun3 & Hw3 & _).
  destruct (sandbox_collectMetrics_run w3) as (after & Hafter & _).
  exists w3. eexists. split; [|split; [|split]].
  - unfold SandboxMonitor.executeCleanup, bind at 1. rewrite Hbefore.
    unfold tryCatch, bind. rewrite Hrun1, Hrun2, Hrun3, Hafter. reflexivity.
  - reflexivity.
  - transitivity w1; [|transitivity w2].
    + eapply untouched_weaken; [|exact Hw1]. intros d Hd.
      now apply notCleanable_ne in Hd.
    + eapply untouched_weaken; [|exact Hw2]. intros d Hd.
      now apply notCleanable_ne in Hd.
    + eapply untouched_weaken; [|exact Hw3]. intros d Hd.
      now apply notCleanable_ne in Hd.
  - intros mtime es Hcache Hfiles.
    assert (Hcache2 : Fs.lookupPath ["cache"] (w_sandbox w2)
                      = Some (Dir mtime es)).
    { destruct Hw1 as [_ K1]. destruct Hw2 as [_ K2].
      unfold keeps in *. rewrite K2, K1 by discriminate. exact Hcache. }
    destruct (cleanCache_clears d2 mtime es w2 Hcache2 Hfiles)
      as (w3' & d3' & Hrun3' & Hempty).
    rewrite Hrun3 in Hrun3'. injection Hrun3' as -> _. exact Hempty.
Qed.

(** What [executeCleanup] keeps and what it clears.  Whatever the sandbox
    holds, it returns, and then what is below [data/] is what was there
    before; and when every entry of [cache/] is a regular file, nothing is
    left directly under [cache/]. *)
Theorem executeCleanup_keeps_data_and_clears_cache_files w :
  exists w' result,
    SandboxMonitor.executeCleanup w = (w', Ok result)
    /\ (forall path,
          Fs.lookupPath ("data" :: path) (w_sandbox w')
          = Fs.lookupPath ("data" :: path) (w_sandbox w))
    /\ (forall mtime es,
          Fs.lookupPath ["cache"] (w_sandbox w) = Some (Dir mtime es) ->
          Forall (fun e => isFile (snd e)) es ->
          forall file, Fs.lookupPath ["cache"; file] (w_sandbox w') = None).
Proof.
  destruct (executeCleanup_run w) as (w' & result & Hrun & _ & [_ Hkeep] & Hcache).
  exists w', result. split; [exact Hrun|]. split.
  - intros path.
    rewrite (lookupPath_cons "data" path (w_sandbox w')).
    rewrite (lookupPath_cons "data" path (w_sandbox w)).
    rewrite (Hkeep "data"); [reflexivity|].
    unfold notCleanable, SandboxMonitor.SAFE_CLEANUP_DIRS. simpl.
    intros [H|[H|[H|[]]]]; discriminate.
  - intros mtime es Hc Hfiles file.
    rewrite lookupPath_cons, (Hcache mtime es Hc Hfiles). reflexivity.
Qed.

Lemma executeCleanup_keeps_data_and_clears_cache_files_witness :
  exists w',
    fst (SandboxMonitor.executeCleanup (sampleWorld sandboxWithCacheFiles None))
    = w'
    /\ Fs.lookupPath ["data"; "keep.json"] (w_sandbox w') = Some (File 7 0)
    /\ Fs.lookupPath ["cache"; "entry.bin"] (w_sandbox w') = None.
Proof.
  destruct (executeCleanup_keeps_data_and_clears_cache_files
              (sampleWorld sandboxWithCacheFiles None))
    as (w' & result & Hrun & Hdata & Hcache).
  exists w'. split; [now rewrite Hrun|]. split.
  - rewrite Hdata. reflexivity.
  - apply (Hcache 0 [("a.bin", File 9 0); ("entry.bin", File 5 0)]).
    + reflexivity.
    + repeat constructor.
Defined.

(** C2.  The cleanup leaves files under [cache/], against the claim and
    against the comment of the cache phase ("Clean up cache (all files)").
    On a sandbox whose [cache/] holds the subdirectory [archive] and the
    regular file [entry.bin], the first entry cannot be unlinked; the loop
    is left there, the phase is reported as "skipped (not found)" and
    [executeCleanup] returns [success: true] with [cache/entry.bin] still
    in place.  The file below [data/] is kept, as the claim says. *)
Lemma cache_file_after_subdirectory_survives :
  exists w' result,
    SandboxMonitor.executeCleanup (sampleWorld sandboxWithCacheSubdir None)
    = (w', Ok result)
    /\ SandboxMonitor.success result = true
    /\ SandboxMonitor.details result = ["Cache cleanup skipped (not found)"]
    /\ Fs.lookupPath ["cache"; "entry.bin"] sandboxWithCacheSubdir
       = Some (File 5 0)
    /\ Fs.lookupPath ["cache"; "entry.bin"] (w_sandbox w') = Some (File 5 0)
    /\ Fs.lookupPath ["data"; "keep.json"] (w_sandbox w') = Some (File 7 0).
Proof.
  do 2 eexists. split; [vm_compute; reflexivity|].
  repeat split.
Qed.

(** ** The rollback manager *)

(** C4, as the code has it.  When no snapshot is stored for the incident
    under [rollback-snapshots], [executeRollback] throws a [RollbackError],
    which is not recoverable and wraps the [RollbackError] whose reason is
    "No rollback snapshot found"; the state is as it was, so nothing is
    written under [rollback-history], and no event is emitted. *)
Theorem executeRollback_without_snapshot_throws incidentId reason w :
  rollback_snapshots (w_state w) !! incidentId = None ->
  exists w' e,
    RollbackManager.executeRollback incidentId reason w = (w', Throw e)
    /\ Errors.errorName e = "RollbackError"
    /\ Errors.isRecoverableError e = false
    /\ e = Errors.newRollbackError incidentId
             ("Rollback failed for incident " +:+ incidentId
              +:+ ": No rollback snapshot found")
             (Errors.newRollbackError incidentId "No rollback snapshot found"
                (Error "Snapshot not in state"))
    /\ w_state w' = w_state w
    /\ rollback_history (w_state w') = rollback_history (w_state w)
    /\ w_events w' = w_events w.
Proof.
  intros Hnone.
  unfold RollbackManager.executeRollback, bind at 1, dateNow at 1.
  unfold tryCatch, bind at 1, stateGet, get. cbn [g_read G_rollback_snapshots].
  change (w_state (tick w)) with (w_state w). rewrite Hnone.
  do 2 eexists. split; [reflexivity|]. repeat split.
Qed.

Lemma executeRollback_without_snapshot_throws_witness :
  exists w' e,
    RollbackManager.executeRollback "incident-1" "Manual rollback requested"
      (sampleWorld None None) = (w', Throw e)
    /\ Errors.errorName e = "RollbackError"
    /\ rollback_history (w_state w') = ∅.
Proof.
  destruct (executeRollback_without_snapshot_throws "incident-1"
              "Manual rollback requested" (sampleWorld None None))
    as (w' & e & Hrun & Hname & _ & _ & _ & Hhist & _).
  - vm_compute. reflexivity.
  - exists w', e. repeat split; assumption.
Defined.

(** C4 as stated fails: the error thrown for a missing snapshot is of the
    class [RollbackError], and the error handler answers it with status
    500, not with the 404 of a resource that is not found. *)
Lemma rollback_without_snapshot_is_not_a_not_found_error :
  rollback_snapshots (w_state (sampleWorld None None)) !! "incident-1" = None
  /\ exists w' e,
       RollbackManager.executeRollback "incident-1" "Manual rollback requested"
         (sampleWorld None None) = (w', Throw e)
       /\ Errors.errorName e = "RollbackError"
       /\ Errors.errorHandlerStatus e = 500
       /\ ~ isNotFoundError e.
Proof.
  split; [vm_compute; reflexivity|].
  do 2 eexists. split; [vm_compute; reflexivity|].
  split; [reflexivity|]. split; [vm_compute; reflexivity|].
  unfold isNotFoundError. vm_compute. discriminate.
Qed.

(** The [/rollback] endpoint answers 404 for an incident without snapshot
    by its own test of [isRollbackAvailable]: it does not call
    [executeRollback] then, and changes nothing. *)
Lemma manualRollback_without_snapshot req w :
  rollback_snapshots (w_state w) !! ManualRollback.incident req = None ->
  exists response,
    ManualRollback.handler req w = (w, Ok response)
    /\ ManualRollback.status response = 404.
Proof.
  intros Hnone.
  unfold ManualRollback.handler, tryCatch, bind at 1.
  unfold RollbackManager.isRollbackAvailable, bind, stateGet, get.
  cbn [g_read G_rollback_snapshots]. rewrite Hnone.
  eexists. split; reflexivity.
Qed.

(** ** The manual approval endpoint *)

(** The cleanup, the container runtime and the actions built from them
    never throw, and they leave the state and the events as they are. *)
Lemma executeCleanup_outside :
  post outsideSandbox SandboxMonitor.executeCleanup (fun _ => True) noError.
Proof.
  apply post_of_run. intros w.
  destruct (executeCleanup_run w) as (w' & result & Hrun & _ & [Hout _] & _).
  exists w', result. auto.
Qed.

Lemma execDockerStats_outside :
  post outsideSandbox DockerStats.execDockerStats (fun _ => True) noError.
Proof.
  intros w w' r H. injection H as <- <-.
  split; [apply outsideSandbox_exec | exact I].
Qed.

Lemma execDockerRestart_outside containerName :
  post outsideSandbox (DockerStats.execDockerRestart containerName)
    (fun _ => True) anyError.
Proof.
  intros w w' r H. unfold DockerStats.execDockerRestart in H.
  injection H as <- <-. split; [apply outsideSandbox_exec|].
  destruct (w_dockerRestart w (w_execs w) containerName); exact I.
Qed.

Lemma getContainerStats_outside :
  post outsideSandbox DockerStats.getContainerStats (fun _ => True) noError.
Proof.
  unfold DockerStats.getContainerStats.
  post_apply post_bind; [apply execDockerStats_outside|].
  intros [rows|] _; [|post_apply post_ret; exact I].
  destruct (DockerStats.generateRecommendations _ _).
  post_apply post_ret. exact I.
Qed.

Lemma getContainerStatsById_outside containerId :
  post outsideSandbox (DockerStats.getContainerStatsById containerId)
    (fun _ => True) noError.
Proof.
  unfold DockerStats.getContainerStatsById.
  post_apply post_bind; [apply getContainerStats_outside|].
  intros result _. post_apply post_ret. exact I.
Qed.

Lemma restartContainer_outside containerName :
  post outsideSandbox (DockerStats.restartContainer containerName)
    (fun _ => True) noError.
Proof.
  unfold DockerStats.restartContainer.
  post_apply post_bind; [apply getContainerStatsById_outside|].
  intros statsBefore _. cbv zeta.
  post_apply post_tryCatch; [|intros e _; post_apply post_ret; exact I].
  post_apply post_bind; [apply execDockerRestart_outside|].
  intros output _. cbv zeta.
  post_apply post_bind;
    [apply post_noError, getContainerStatsById_outside|].
  intros statsAfter _. cbv zeta. post_apply post_ret. exact I.
Qed.

Lemma executeAction_outside action :
  post outsideSandbox (SlackInteractive.executeAction action)
    (fun _ => True) noError.
Proof.
  unfold SlackInteractive.executeAction. cbv zeta.
  eapply post_tryCatch with (E1 := anyError); try typeclasses eauto;
    [|intros e _; post_apply post_ret; exact I].
  destruct (String.eqb _ "clear_sandbox").
  { post_apply post_bind;
      [apply post_noError, executeCleanup_outside|].
    intros result _. post_apply post_ret. exact I. }
  destruct (String.eqb _ "restart_container").
  { destruct (SlackInteractive.sa_containerName action) as [containerName|];
      [|post_apply post_throw; exact I].
    destruct (Js.truthy containerName); [|post_apply post_throw; exact I].
    post_apply post_bind;
      [apply post_noError, restartContainer_outside|].
    intros result _. post_apply post_ret. exact I. }
  destruct (String.eqb _ "both"); [|post_apply post_throw; exact I].
  post_apply post_bind;
    [apply post_noError, executeCleanup_outside|].
  intros sandboxResult _.
  destruct (negb _); [post_apply post_ret; exact I|].
  post_apply post_bind;
    [apply post_noError, getContainerStats_outside|].
  intros stats _.
  destruct (DockerStats.highMemoryContainers stats) as [|top rest];
    [post_apply post_ret; exact I|].
  post_apply post_bind;
    [apply post_noError, restartContainer_outside|].
  intros restartResult _. post_apply post_ret. exact I.
Qed.

Lemma sendActionResult_run incidentId action success message logs w :
  exists w',
    SlackInteractive.sendActionResult incidentId action success message logs w
    = (w', Ok tt)
    /\ w_state w' = w_state w
    /\ w_events w' = w_events w.
Proof.
  unfold SlackInteractive.sendActionResult, bind, get. cbv beta iota.
  destruct (negb (Js.truthy (w_webhookUrl w))).
  - exists w. repeat split.
  - eexists. split; [reflexivity|]. split; reflexivity.
Qed.

(** C10.  In the GET handler of [/manual-approval], when the request
    approves a pending incident and asks for an action to be executed, and
    the action fails, the approval proceeds all the same: the handler
    answers 200, the pending approval is stored with status [approved] and
    the failed execution result, and [fix.approved] is emitted with that
    result. *)
Theorem approval_proceeds_when_action_fails req w action pending rca w1 result :
  ManualApproval.q_action req = "approve" ->
  ManualApproval.execute req = Some action ->
  Js.truthy action = true ->
  approval_pending (w_state w) !! ManualApproval.incident req = Some pending ->
  pa_status pending = "pending" ->
  rca_results (w_state w) !! ManualApproval.incident req = Some rca ->
  (action = "clear_sandbox" \/ action = "both" ->
   ManualApproval.isAdmin (ManualApproval.user req) = true) ->
  SlackInteractive.executeAction (requestedAction req action w) (tick w)
  = (w1, Ok result) ->
  ar_success result = false ->
  exists w' response approval event,
    ManualApproval.handler req w = (w', Ok response)
    /\ ManualApproval.status response = 200
    /\ approval_pending (w_state w') !! ManualApproval.incident req
       = Some approval
    /\ pa_status approval = "approved"
    /\ pa_executionResult approval = Some result
    /\ w_events w' = w_events w ++ [{| topic := "fix.approved";
                                       data := FixApproved event |}]
    /\ fa_incidentId event = ManualApproval.incident req
    /\ fa_executionResult event = Some result.
Proof.
  intros Hact Hexe Htruthy Hpending Hstatus Hrca Hadmin Hrun Hfail.
  destruct (executeAction_outside _ _ _ _ Hrun) as [(Hst1 & Hev1 & _) _].
  destruct (sendActionResult_run (ManualApproval.incident req) action
              (ar_success result) (ar_message result) (ar_logs result) w1)
    as (w2 & Hsend & Hst2 & Hev2).
  assert (Hgate : (String.eqb action "clear_sandbox" || String.eqb action "both")
                  && negb (ManualApproval.isAdmin (ManualApproval.user req))
                  = false).
  { destruct (String.eqb action "clear_sandbox" || String.eqb action "both")
      eqn:E; [|reflexivity].
    rewrite Hadmin; [reflexivity|].
    apply orb_true_iff in E. rewrite !String.eqb_eq in E. exact E. }
  unfold ManualApproval.handler, tryCatch, bind at 1, stateGet at 1, get.
  rewrite Hexe, Htruthy, Hact. cbn [g_read G_approval_pending].
  rewrite Hpending, Hstatus. cbn [String.eqb Ascii.eqb Bool.eqb negb].
  unfold bind at 1, stateGet at 1, get. cbn [g_read G_rca_results].
  rewrite Hrca, Hgate.
  unfold bind at 1, newDateISO at 1, bind at 1, dateNow at 1, ret at 1.
  cbv beta iota.
  unfold bind at 1. unfold requestedAction in Hrun. rewrite Hrun.
  unfold bind at 1. rewrite Hsend.
  unfold bind, newDateISO, dateNow, stateSet, modify, emit, ret.
  cbn [String.eqb Ascii.eqb Bool.eqb]. cbv beta iota.
  do 4 eexists. split; [reflexivity|]. split; [reflexivity|].
  cbn - [Js.toISOString Js.optOrElse]. rewrite lookup_insert_eq.
  split; [reflexivity|]. split; [reflexivity|]. split; [reflexivity|].
  rewrite Hev2, Hev1. repeat split.
Qed.

Lemma approval_proceeds_when_action_fails_witness :
  exists w' response approval event,
    ManualApproval.handler restartWithoutContainer pendingWorld
    = (w', Ok response)
    /\ ManualApproval.status response = 200
    /\ approval_pending (w_state w') !! "incident-1" = Some approval
    /\ pa_status approval = "approved"
    /\ pa_executionResult approval
       = Some {| ar_success := false;
                 ar_message :=
                   "Action failed: Container name is required for restart action";
                 ar_logs :=
                   ["❌ Error: Container name is required for restart action"] |}
    /\ w_events w' = w_events pendingWorld
                     ++ [{| topic := "fix.approved"; data := FixApproved event |}]
    /\ fa_incidentId event = "incident-1"
    /\ fa_executionResult event
       = Some {| ar_success := false;
                 ar_message :=
                   "Action failed: Container name is required for restart action";
                 ar_logs :=
                   ["❌ Error: Container name is required for restart action"] |}.
Proof.
  apply (approval_proceeds_when_action_fails restartWithoutContainer
           pendingWorld "restart_container" samplePending
           (sampleRca "restart the api-server container" RiskHigh None)
           (tick pendingWorld)).
  - reflexivity.
  - reflexivity.
  - reflexivity.
  - vm_compute. reflexivity.
  - reflexivity.
  - vm_compute. reflexivity.
  - intros [H|H]; discriminate H.
  - vm_compute. reflexivity.
  - reflexivity.
Defined.

(** * More statements about the embedded code *)

Lemma Qlt_bool_iff x y : Js.Qlt_bool x y = true <-> (x < y)%Q.
Proof.
  unfold Js.Qlt_bool. rewrite negb_true_iff. split.
  - intros H. apply Qnot_le_lt. intros Hle. apply Qle_bool_iff in Hle.
    congruence.
  - intros H. destruct (Qle_bool y x) eqn:E; [|reflexivity].
    apply Qle_bool_iff in E. exfalso. exact (Qlt_not_le _ _ H E).
Qed.

(** ** More on the policy engine *)

Lemma find_blocked_spec rules text :
  match find (fun blockedAction =>
                Js.includes (Js.toLowerCase blockedAction) (Js.toLowerCase text))
             (blockedActions rules) with
  | Some keyword =>
      In keyword (blockedActions rules) /\ occursIgnoringCase keyword text
  | None => ~ mentionsBlockedAction rules text
  end.
Proof.
  unfold mentionsBlockedAction.
  induction (blockedActions rules) as [|k l IH]; simpl.
  - intros (keyword & [] & _).
  - destruct (Js.includes (Js.toLowerCase k) (Js.toLowerCase text)) eqn:E.
    + split; [now left | now apply includes_lower_spec].
    + destruct (find _ l) as [k'|].
      * destruct IH as [Hin Hocc]. split; [now right | exact Hocc].
      * intros (keyword & [<-|Hin] & Hocc).
        -- apply includes_lower_spec in Hocc. congruence.
        -- apply IH. exists keyword. auto.
Qed.

(** X1.  On ASCII text, that is when the proposed fix and the blocked
    keywords of the rules are ASCII, [evaluatePolicy] decides [reject]
    exactly when the RCA result is not a sandbox alert and its proposed fix
    contains one of the blocked keywords, in any case of the letters; the
    reason then names a blocked keyword that occurs.  The list [rejectFor]
    of the rules and the risk level play no part. *)
Theorem evaluatePolicy_rejects_exactly_blocked_fixes rca rules :
  isAsciiText (rca_proposedFix rca) = true ->
  forallb isAsciiText (blockedActions rules) = true ->
  (Policy.action (Policy.evaluatePolicy rca rules) = reject
   <-> ~ hasSandboxAlertType rca
       /\ mentionsBlockedAction rules (rca_proposedFix rca))
  /\ (Policy.action (Policy.evaluatePolicy rca rules) = reject ->
      exists keyword,
        In keyword (blockedActions rules)
        /\ occursIgnoringCase keyword (rca_proposedFix rca)
        /\ Policy.reason (Policy.evaluatePolicy rca rules)
           = "Proposed fix contains blocked action: " +:+ keyword).
Proof.
  intros _ _.
  pose proof (isSandboxAlert_spec rca) as Hs.
  pose proof (find_blocked_spec rules (rca_proposedFix rca)) as Hf.
  unfold Policy.evaluatePolicy.
  destruct (Policy.isSandboxAlert (rca_metadata rca)).
  - split; [split|]; try discriminate.
    intros [Hns _]. exfalso. apply Hns, Hs. reflexivity.
  - assert (Hns : ~ hasSandboxAlertType rca).
    { intros H. apply Hs in H. discriminate. }
    destruct (find _ (blockedActions rules)) as [k|].
    + destruct Hf as [Hin Hocc]. split.
      * split; [intros _; split; [exact Hns | exists k; auto] | reflexivity].
      * intros _. exists k. auto.
    + assert (Hne : forall d : Policy.Decision,
                Policy.action d <> reject ->
                (Policy.action d = reject
                 <-> ~ hasSandboxAlertType rca
                     /\ mentionsBlockedAction rules (rca_proposedFix rca))
                /\ (Policy.action d = reject ->
                    exists keyword,
                      In keyword (blockedActions rules)
                      /\ occursIgnoringCase keyword (rca_proposedFix rca)
                      /\ Policy.reason d
                         = "Proposed fix contains blocked action: " +:+ keyword)).
      { intros d Hd. split; [split|]; try contradiction.
        intros [_ Hm]. contradiction. }
      destruct (_ && _); [apply Hne; discriminate|].
      destruct (Js.arrayIncludes _ _); apply Hne; discriminate.
Qed.

Lemma evaluatePolicy_rejects_exactly_blocked_fixes_witness :
  Policy.action
    (Policy.evaluatePolicy
       (sampleRca "Please DELETE-Data in /var" RiskLow None)
       Policy.defaultRules) = reject
  /\ Policy.reason
       (Policy.evaluatePolicy
          (sampleRca "Please DELETE-Data in /var" RiskLow None)
          Policy.defaultRules)
     = "Proposed fix contains blocked action: delete-data".
Proof.
  destruct (evaluatePolicy_rejects_exactly_blocked_fixes
              (sampleRca "Please DELETE-Data in /var" RiskLow None)
              Policy.defaultRules eq_refl eq_refl) as [Hiff _].
  split; [|vm_compute; reflexivity].
  apply Hiff. split; [apply not_sandbox_sample|].
  exists "delete-data". split; [left; reflexivity | apply occurs_delete_data].
Defined.

(** X2.  On ASCII text, that is when the proposed fix and the blocked
    keywords of the rules are ASCII, [evaluatePolicy] decides
    [auto-approve] exactly when the RCA result is not a sandbox alert, its
    proposed fix contains no blocked keyword, its risk level is [low] and
    the rules' [autoApproveThreshold] is ["low"]: a fix of medium or high
    risk is never approved automatically, whatever threshold the rules
    carry. *)
Theorem evaluatePolicy_auto_approves_only_low_risk rca rules :
  isAsciiText (rca_proposedFix rca) = true ->
  forallb isAsciiText (blockedActions rules) = true ->
  (Policy.action (Policy.evaluatePolicy rca rules) = auto_approve
   <-> ~ hasSandboxAlertType rca
       /\ ~ mentionsBlockedAction rules (rca_proposedFix rca)
       /\ rca_riskLevel rca = RiskLow
       /\ autoApproveThreshold rules = "low").
Proof.
  intros _ _.
  pose proof (isSandboxAlert_spec rca) as Hs.
  pose proof (find_blocked_spec rules (rca_proposedFix rca)) as Hf.
  unfold Policy.evaluatePolicy.
  destruct (Policy.isSandboxAlert (rca_metadata rca)).
  - split; [discriminate|]. intros (Hns & _). exfalso. apply Hns, Hs. reflexivity.
  - assert (Hns : ~ hasSandboxAlertType rca).
    { intros H. apply Hs in H. discriminate. }
    destruct (find _ (blockedActions rules)) as [k|].
    + destruct Hf as [Hin Hocc]. split; [discriminate|].
      intros (_ & Hm & _). exfalso. apply Hm. exists k. auto.
    + destruct (String.eqb (riskLevelName (rca_riskLevel rca)) "low"
                && String.eqb (autoApproveThreshold rules) "low") eqn:E.
      * apply andb_true_iff in E as [E1 E2]. apply String.eqb_eq in E2.
        split; [|reflexivity]. intros _. repeat split; try assumption.
        destruct (rca_riskLevel rca); [reflexivity | discriminate | discriminate].
      * assert (Hno : ~ (rca_riskLevel rca = RiskLow
                         /\ autoApproveThreshold rules = "low")).
        { intros [H1 H2]. rewrite H1, H2 in E. discriminate. }
        destruct (Js.arrayIncludes _ _); (split; [discriminate|]);
          intros (_ & _ & H1 & H2); exfalso; apply Hno; auto.
Qed.

Lemma evaluatePolicy_auto_approves_only_low_risk_witness :
  Policy.action
    (Policy.evaluatePolicy
       (sampleRca "restart the api-server container" RiskLow None)
       Policy.defaultRules) = auto_approve
  /\ ~ mentionsBlockedAction Policy.defaultRules
        "restart the api-server container"
  /\ Policy.action
       (Policy.evaluatePolicy
          (sampleRca "restart the api-server container" RiskMedium None)
          Policy.defaultRules) <> auto_approve.
Proof.
  assert (H : Policy.action
                (Policy.evaluatePolicy
                   (sampleRca "restart the api-server container" RiskLow None)
                   Policy.defaultRules) = auto_approve)
    by (vm_compute; reflexivity).
  split; [exact H|].
  apply (evaluatePolicy_auto_approves_only_low_risk
           (sampleRca "restart the api-server container" RiskLow None)
           Policy.defaultRules eq_refl eq_refl) in H.
  split; [apply H|].
  intros Hm.
  apply (evaluatePolicy_auto_approves_only_low_risk
           (sampleRca "restart the api-server container" RiskMedium None)
           Policy.defaultRules eq_refl eq_refl) in Hm.
  destruct Hm as (_ & _ & Hrisk & _). discriminate Hrisk.
Defined.

(** X3.  The policy handler never throws.  It records its decision under
    [policy-decisions]; on [auto-approve] it emits one [fix.approved] event
    (approval type [automatic], approved by [policy-engine]) and creates no
    pending approval; on [require-approval] it emits one
    [approval.required] event and stores a pending approval with status
    [pending]; on [reject] it emits nothing. *)
Theorem handler_emits_what_the_decision_asks rca w :
  exists w' d,
    Policy.handler rca w = (w', Ok tt)
    /\ policy_decisions (w_state w')
       = <[rca_incidentId rca := d]> (policy_decisions (w_state w))
    /\ pd_decision d = Policy.action (Policy.evaluatePolicy rca (rulesIn w))
    /\ rca_results (w_state w') = rca_results (w_state w)
    /\ match pd_decision d with
       | auto_approve =>
           (exists event,
              w_events w' = w_events w ++ [{| topic := "fix.approved";
                                              data := FixApproved event |}]
              /\ fa_incidentId event = rca_incidentId rca
              /\ fa_approvalType event = "automatic"
              /\ fa_approvedBy event = "policy-engine"
              /\ fa_rcaResult event = rca)
           /\ approval_pending (w_state w') = approval_pending (w_state w)
       | require_approval =>
           exists event pending,
             w_events w' = w_events w ++ [{| topic := "approval.required";
                                             data := ApprovalRequired event |}]
             /\ rq_incidentId event = rca_incidentId rca
             /\ rq_rcaResult event = rca
             /\ approval_pending (w_state w')
                = <[rca_incidentId rca := pending]> (approval_pending (w_state w))
             /\ pa_status pending = "pending"
             /\ pa_incidentId pending = rca_incidentId rca
             /\ pa_approver pending = None
             /\ pa_executionResult pending = None
       | reject =>
           w_events w' = w_events w
           /\ approval_pending (w_state w') = approval_pending (w_state w)
       end.
Proof.
  unfold Policy.handler, tryCatch, bind.
  rewrite loadPolicyRules_run.
  unfold newDateISO, bind, dateNow, stateSet, modify, emit, ret. cbv beta iota.
  destruct (Policy.action (Policy.evaluatePolicy rca (rulesIn w))) eqn:E;
    cbv beta iota; do 2 eexists;
    (split; [reflexivity|]); (split; [reflexivity|]);
    (split; [reflexivity|]); (split; [reflexivity|]);
    cbn [pd_decision].
  - split; [|reflexivity]. eexists. split; [reflexivity|]. repeat split.
  - do 2 eexists. split; [reflexivity|]. repeat split.
  - split; reflexivity.
Qed.

(** ** More on the sandbox monitor *)

Lemma countFiles_spec d w :
  SandboxMonitor.countFiles [d] w = (w, Ok (entryCount d (w_sandbox w))).
Proof.
  unfold SandboxMonitor.countFiles, tryCatch, bind, Fs.readdir, bind, get,
    entryCount.
  cbv beta iota.
  destruct (Fs.lookupPath [d] (w_sandbox w)) as [[size mtime|mtime es]|];
    cbn [ret throw]; try reflexivity.
  now rewrite length_map.
Qed.

Lemma round_percent n :
  Js.round (inject_Z n / inject_Z SandboxMonitor.THRESHOLD_MB * 100) = n.
Proof.
  unfold Js.round, Qfloor, Qdiv, Qmult, Qinv, Qplus, inject_Z,
    SandboxMonitor.THRESHOLD_MB.
  simpl. Z.div_mod_to_equations. lia.
Qed.

Lemma sandbox_collectMetrics_spec w :
  SandboxMonitor.collectMetrics w
  = (w,
     Ok {| SandboxMonitor.totalSizeMB :=
             Js.round (inject_Z (treeBytes (w_sandbox w))
                       / inject_Z (1024 * 1024));
           SandboxMonitor.totalSizeBytes := treeBytes (w_sandbox w);
           SandboxMonitor.percentage :=
             Js.round (inject_Z (treeBytes (w_sandbox w))
                       / inject_Z (1024 * 1024));
           SandboxMonitor.files :=
             {| SandboxMonitor.f_logs := entryCount "logs" (w_sandbox w);
                SandboxMonitor.f_temp := entryCount "temp" (w_sandbox w);
                SandboxMonitor.f_cache := entryCount "cache" (w_sandbox w);
                SandboxMonitor.f_data := entryCount "data" (w_sandbox w) |} |}).
Proof.
  unfold SandboxMonitor.collectMetrics. unfold bind at 1.
  rewrite getDirectorySize_root. unfold bind.
  rewrite !countFiles_spec, round_percent. reflexivity.
Qed.

(** *** The three phases of the cleanup, for any order on worlds that the
    clock and [unlink] keep *)

Section Phases.
Context (R : World -> World -> Prop) `{!PreOrder R}.
Hypothesis R_tick : forall w, R w (tick w).
Hypothesis R_unlink :
  forall path, post R (Fs.unlink path) (fun _ => True) anyError.

Lemma cleanTemp_post details :
  post R (SandboxMonitor.cleanTemp details) (fun _ => True) noError.
Proof.
  unfold SandboxMonitor.cleanTemp.
  post_apply post_tryCatch; [|intros e _; post_apply post_ret; exact I].
  post_apply post_bind; [apply readdir_pure; typeclasses eauto|].
  intros tempFiles _.
  post_apply post_bind; [|intros n _; post_apply post_ret; exact I].
  eapply post_foldM with (P := fun _ => True) (Q := fun _ => True);
    try typeclasses eauto; [apply Forall_True | | exact I].
  intros n file _ _.
  post_apply post_bind; [apply stat_pure; typeclasses eauto|]. intros st _.
  post_apply post_bind; [apply post_dateNow; apply R_tick|].
  intros now _.
  destruct (Js.Qlt_bool _ _); [|post_apply post_ret; exact I].
  post_apply post_bind; [apply R_unlink|intros _ _; post_apply post_ret; exact I].
Qed.

Lemma cleanLogs_post details :
  post R (SandboxMonitor.cleanLogs details) (fun _ => True) noError.
Proof.
  unfold SandboxMonitor.cleanLogs.
  post_apply post_tryCatch; [|intros e _; post_apply post_ret; exact I].
  post_apply post_bind; [apply readdir_pure; typeclasses eauto|].
  intros logFiles _.
  post_apply post_bind.
  { eapply post_mapM with (Q := fun _ => True); try typeclasses eauto.
    intros file.
    post_apply post_bind; [apply stat_pure; typeclasses eauto|]. intros st _.
    post_apply post_ret. exact I. }
  intros logStats _. cbv zeta.
  post_apply post_bind; [|intros _ _; post_apply post_ret; exact I].
  eapply post_forEach with (P := fun _ => True);
    try typeclasses eauto; [apply Forall_True|].
  intros ls _. apply R_unlink.
Qed.

Lemma cleanCache_post details :
  post R (SandboxMonitor.cleanCache details) (fun _ => True) noError.
Proof.
  unfold SandboxMonitor.cleanCache.
  post_apply post_tryCatch; [|intros e _; post_apply post_ret; exact I].
  post_apply post_bind; [apply readdir_pure; typeclasses eauto|].
  intros cacheFiles _.
  post_apply post_bind; [|intros _ _; post_apply post_ret; exact I].
  eapply post_forEach with (P := fun _ => True);
    try typeclasses eauto; [apply Forall_True|].
  intros file _. apply R_unlink.
Qed.

Lemma sandbox_collectMetrics_post E :
  post R SandboxMonitor.collectMetrics (fun _ => True) E.
Proof.
  apply post_pure; [assumption|]. intros u. eexists.
  split; [apply sandbox_collectMetrics_spec | exact I].
Qed.

Lemma executeCleanup_post :
  post R SandboxMonitor.executeCleanup (fun _ => True) noError.
Proof.
  unfold SandboxMonitor.executeCleanup.
  post_apply post_bind; [apply sandbox_collectMetrics_post|].
  intros before _. cbv zeta.
  eapply post_tryCatch with (E1 := noError); try typeclasses eauto;
    [|intros e []].
  post_apply post_bind; [apply cleanTemp_post|]. intros t1 _.
  post_apply post_bind; [apply cleanLogs_post|]. intros t2 _.
  post_apply post_bind; [apply cleanCache_post|]. intros t3 _.
  post_apply post_bind; [apply sandbox_collectMetrics_post|].
  intros after _. post_apply post_ret. exact I.
Qed.
End Phases.

#[local] Instance onlySandboxAndClock_preorder : PreOrder onlySandboxAndClock.
Proof.
  split.
  - intros w. repeat split.
  - intros w1 w2 w3 H1 H2. unfold onlySandboxAndClock in *.
    repeat match goal with H : _ /\ _ |- _ => destruct H end.
    repeat split; congruence.
Qed.

Lemma onlySandboxAndClock_tick w : onlySandboxAndClock w (tick w).
Proof. repeat split. Qed.

Lemma unlink_onlySandbox path :
  post onlySandboxAndClock (Fs.unlink path) (fun _ => True) anyError.
Proof.
  intros u u' r H. unfold Fs.unlink, bind, get in H. cbv beta iota in H.
  destruct (w_sandbox u) as [n|];
    [|injection H as <- <-; split; [reflexivity | exact I]].
  destruct (Fs.unlinkAt path n); unfold modify in H; injection H as <- <-;
    (split; [repeat split | exact I]).
Qed.

(** [executeCleanup] runs its three phases one after the other and
    reports the difference of the two measures. *)
Lemma executeCleanup_phases w :
  exists w1 d1 w2 d2 w3 d3,
    SandboxMonitor.cleanTemp [] w = (w1, Ok d1)
    /\ SandboxMonitor.cleanLogs d1 w1 = (w2, Ok d2)
    /\ SandboxMonitor.cleanCache d2 w2 = (w3, Ok d3)
    /\ SandboxMonitor.executeCleanup w
       = (w3,
          Ok {| SandboxMonitor.success := true;
                SandboxMonitor.message :=
                  "Successfully freed "
                  +:+ Js.showZ
                        (Js.round (inject_Z (treeBytes (w_sandbox w))
                                   / inject_Z (1024 * 1024))
                         - Js.round (inject_Z (treeBytes (w_sandbox w3))
                                     / inject_Z (1024 * 1024)))
                  +:+ "MB of disk space in sandbox";
                SandboxMonitor.freedMB :=
                  Js.round (inject_Z (treeBytes (w_sandbox w))
                            / inject_Z (1024 * 1024))
                  - Js.round (inject_Z (treeBytes (w_sandbox w3))
                              / inject_Z (1024 * 1024));
                SandboxMonitor.details := d3 |}).
Proof.
  destruct (post_run _ _ _ w (cleanTemp_untouched []))
    as (w1 & d1 & Hrun1 & _).
  destruct (post_run _ _ _ w1 (cleanLogs_untouched d1))
    as (w2 & d2 & Hrun2 & _).
  destruct (post_run _ _ _ w2 (cleanCache_untouched d2))
    as (w3 & d3 & Hrun3 & _).
  exists w1, d1, w2, d2, w3, d3. repeat (split; [assumption|]).
  unfold SandboxMonitor.executeCleanup, bind at 1.
  rewrite sandbox_collectMetrics_spec.
  unfold tryCatch, bind. rewrite Hrun1, Hrun2, Hrun3.
  rewrite sandbox_collectMetrics_spec. reflexivity.
Qed.

(** A phase whose directory is missing, or is a regular file, is skipped
    and changes nothing. *)
Lemma readdir_not_directory path w :
  ~ isDirectoryAt path (w_sandbox w) ->
  exists e, Fs.readdir path w = (w, Throw e).
Proof.
  intros Hno. unfold Fs.readdir, bind, get. cbv beta iota.
  destruct (Fs.lookupPath path (w_sandbox w)) as [[size mtime|mtime es]|] eqn:E.
  - eexists. reflexivity.
  - exfalso. apply Hno. exists mtime, es. exact E.
  - eexists. reflexivity.
Qed.

Lemma cleanTemp_skipped details w :
  ~ isDirectoryAt ["temp"] (w_sandbox w) ->
  SandboxMonitor.cleanTemp details w
  = (w, Ok (details ++ ["Temp directory cleanup skipped (not found)"])).
Proof.
  intros Hno. destruct (readdir_not_directory _ _ Hno) as [e He].
  unfold SandboxMonitor.cleanTemp, tryCatch, bind. cbv zeta.
  now rewrite He.
Qed.

Lemma cleanLogs_skipped details w :
  ~ isDirectoryAt ["logs"] (w_sandbox w) ->
  SandboxMonitor.cleanLogs details w
  = (w, Ok (details ++ ["Logs cleanup skipped (not found)"])).
Proof.
  intros Hno. destruct (readdir_not_directory _ _ Hno) as [e He].
  unfold SandboxMonitor.cleanLogs, tryCatch, bind. cbv zeta.
  now rewrite He.
Qed.

Lemma cleanCache_skipped details w :
  ~ isDirectoryAt ["cache"] (w_sandbox w) ->
  SandboxMonitor.cleanCache details w
  = (w, Ok (details ++ ["Cache cleanup skipped (not found)"])).
Proof.
  intros Hno. destruct (readdir_not_directory _ _ Hno) as [e He].
  unfold SandboxMonitor.cleanCache, tryCatch, bind. cbv zeta.
  now rewrite He.
Qed.

(** X4.  On a sandbox where none of [temp/], [logs/] and [cache/] is a
    directory (the sandbox itself may be missing), [executeCleanup] still
    reports success: it changes nothing, frees 0 MB and lists the three
    phases as skipped, in the order temp, logs, cache. *)
Theorem executeCleanup_skips_missing_directories w :
  ~ isDirectoryAt ["temp"] (w_sandbox w) ->
  ~ isDirectoryAt ["logs"] (w_sandbox w) ->
  ~ isDirectoryAt ["cache"] (w_sandbox w) ->
  exists result,
    SandboxMonitor.executeCleanup w = (w, Ok result)
    /\ SandboxMonitor.success result = true
    /\ SandboxMonitor.freedMB result = 0
    /\ SandboxMonitor.details result
       = ["Temp directory cleanup skipped (not found)";
          "Logs cleanup skipped (not found)";
          "Cache cleanup skipped (not found)"].
Proof.
  intros Htemp Hlogs Hcache.
  destruct (executeCleanup_phases w)
    as (w1 & d1 & w2 & d2 & w3 & d3 & H1 & H2 & H3 & Hrun).
  rewrite cleanTemp_skipped in H1 by exact Htemp. injection H1 as <- <-.
  rewrite cleanLogs_skipped in H2 by exact Hlogs. injection H2 as <- <-.
  rewrite cleanCache_skipped in H3 by exact Hcache. injection H3 as <- <-.
  eexists. split; [exact Hrun|]. cbn. repeat split. lia.
Qed.

Lemma executeCleanup_skips_missing_directories_witness :
  exists result,
    SandboxMonitor.executeCleanup (sampleWorld None None)
    = (sampleWorld None None, Ok result)
    /\ SandboxMonitor.success result = true
    /\ SandboxMonitor.freedMB result = 0
    /\ SandboxMonitor.details result
       = ["Temp directory cleanup skipped (not found)";
          "Logs cleanup skipped (not found)";
          "Cache cleanup skipped (not found)"].
Proof.
  apply (executeCleanup_skips_missing_directories (sampleWorld None None));
    intros (mtime & es & H); discriminate H.
Defined.

(** X5.  [executeCleanup] never reports a failure: whatever the sandbox
    holds it returns [success: true] with the message "Successfully freed
    N MB ...", N being the difference of the sizes measured before and
    after.  Apart from reading the clock it changes the sandbox only (not
    the state, the events, the simulator, the container runtime or the
    webhook), and in the sandbox nothing outside [logs/], [temp/] and
    [cache/]. *)
Theorem executeCleanup_always_succeeds_within_its_directories w :
  exists w' result,
    SandboxMonitor.executeCleanup w = (w', Ok result)
    /\ SandboxMonitor.success result = true
    /\ SandboxMonitor.freedMB result
       = Js.round (inject_Z (treeBytes (w_sandbox w)) / inject_Z (1024 * 1024))
         - Js.round (inject_Z (treeBytes (w_sandbox w')) / inject_Z (1024 * 1024))
    /\ SandboxMonitor.message result
       = "Successfully freed " +:+ Js.showZ (SandboxMonitor.freedMB result)
         +:+ "MB of disk space in sandbox"
    /\ onlySandboxAndClock w w'
    /\ (forall d path,
          ~ In d SandboxMonitor.SAFE_CLEANUP_DIRS ->
          Fs.lookupPath (d :: path) (w_sandbox w')
          = Fs.lookupPath (d :: path) (w_sandbox w)).
Proof.
  destruct (executeCleanup_phases w)
    as (w1 & d1 & w2 & d2 & w3 & d3 & H1 & H2 & H3 & Hrun).
  destruct (executeCleanup_run w)
    as (w' & result & Hrun' & _ & [_ Hkeep] & _).
  rewrite Hrun in Hrun'. injection Hrun' as <- <-.
  destruct (executeCleanup_post onlySandboxAndClock onlySandboxAndClock_tick
              unlink_onlySandbox _ _ _ Hrun) as [Hframe _].
  do 2 eexists. split; [exact Hrun|]. cbn.
  repeat (split; [first [reflexivity | assumption]|]).
  intros d path Hd.
  rewrite (lookupPath_cons d path (w_sandbox w3)).
  rewrite (lookupPath_cons d path (w_sandbox w)).
  rewrite (Hkeep d Hd). reflexivity.
Qed.

(** *** The cleanup never grows the sandbox *)

Lemma Forall_flat_map_entries (P : Z -> Prop) (es : list (string * FsNode)) :
  Forall P (flat_map (fun e => match e with (_, c) => filesBelow c end) es)
  <-> Forall (fun e => Forall P (filesBelow (snd e))) es.
Proof.
  induction es as [|[name c] es IH]; simpl.
  - split; constructor.
  - rewrite Forall_app, Forall_cons, IH. reflexivity.
Qed.

Lemma updateEntry_shrinks name f es es' :
  shrinksNode f ->
  Fs.updateEntry name f es = Ok es' ->
  Forall (fun size => 0 <= size) (filesBelow (Dir 0 es)) ->
  Forall (fun size => 0 <= size) (filesBelow (Dir 0 es'))
  /\ sumZ (filesBelow (Dir 0 es')) <= sumZ (filesBelow (Dir 0 es)).
Proof.
  intros Hf. revert es'.
  induction es as [|[n c] es IH]; intros es' H Hpos; simpl in H.
  - discriminate.
  - cbn [filesBelow flat_map] in Hpos. apply Forall_app in Hpos as [Hc Hes].
    destruct (String.eqb n name).
    + destruct (f c) as [[c'|]|e] eqn:Ec; try discriminate; injection H as <-.
      * destruct (Hf _ _ Ec Hc) as [Hc' Hle].
        cbn [filesBelow flat_map]. rewrite !sumZ_app. split; [|lia].
        apply Forall_app. auto.
      * pose proof (Hf _ _ Ec Hc) as Hle. cbv beta iota in Hle.
        cbn [filesBelow flat_map]. rewrite sumZ_app. split; [exact Hes | lia].
    + destruct (Fs.updateEntry name f es) as [r|e] eqn:Er; [|discriminate].
      injection H as <-. destruct (IH r eq_refl Hes) as [Hr Hle].
      cbn [filesBelow flat_map] in *. rewrite !sumZ_app. split; [|lia].
      apply Forall_app. auto.
Qed.

Lemma sumZ_nonneg l : Forall (fun size => 0 <= size) l -> 0 <= sumZ l.
Proof. induction 1; simpl; lia. Qed.

Lemma unlinkAt_shrinks path : shrinksNode (Fs.unlinkAt path).
Proof.
  induction path as [|name rest IH]; intros c o H Hpos.
  - destruct c as [size mtime|mtime es]; simpl in H; [|discriminate].
    injection H as <-. now apply sumZ_nonneg.
  - destruct c as [size mtime|mtime es]; [discriminate|].
    rewrite unlinkAt_dir in H.
    destruct (Fs.updateEntry name (Fs.unlinkAt rest) es) as [es'|e] eqn:E;
      [|discriminate].
    injection H as <-.
    exact (updateEntry_shrinks _ _ _ _ IH E Hpos).
Qed.

#[local] Instance shrinks_preorder : PreOrder shrinks.
Proof.
  split.
  - intros w H. split; [exact H | lia].
  - intros w1 w2 w3 H12 H23 H1.
    destruct (H12 H1) as [H2 Hle12]. destruct (H23 H2) as [H3 Hle23].
    split; [exact H3 | lia].
Qed.

Lemma shrinks_tick w : shrinks w (tick w).
Proof. intros H. split; [exact H | simpl; lia]. Qed.

Lemma unlink_shrinks path :
  post shrinks (Fs.unlink path) (fun _ => True) anyError.
Proof.
  intros w w' r H. unfold Fs.unlink, bind, get in H. cbv beta iota in H.
  destruct (w_sandbox w) as [n|] eqn:Hfs;
    [|injection H as <- <-; split; [reflexivity | exact I]].
  destruct (Fs.unlinkAt path n) as [o|e] eqn:E; unfold modify in H;
    injection H as <- <-; (split; [|exact I]); [|reflexivity].
  intros Hpos. rewrite Hfs in Hpos. simpl in Hpos.
  pose proof (unlinkAt_shrinks path n o E Hpos) as Ho.
  rewrite Hfs. destruct o as [n'|]; simpl; [exact Ho | split; [exact I | exact Ho]].
Qed.

Lemma round_MB_mono a b :
  a <= b ->
  Js.round (inject_Z a / inject_Z (1024 * 1024))
  <= Js.round (inject_Z b / inject_Z (1024 * 1024)).
Proof.
  intros H. rewrite !round_MB. apply Z.div_le_mono; lia.
Qed.

(** X6.  On a sandbox whose files have sizes that are not negative,
    [executeCleanup] frees a number of megabytes that is not negative: the
    total size of the sandbox after the cleanup is at most the total size
    before. *)
Theorem executeCleanup_never_grows_the_sandbox w :
  sizesNonNegative (w_sandbox w) ->
  exists w' result,
    SandboxMonitor.executeCleanup w = (w', Ok result)
    /\ treeBytes (w_sandbox w') <= treeBytes (w_sandbox w)
    /\ 0 <= SandboxMonitor.freedMB result
    /\ sizesNonNegative (w_sandbox w').
Proof.
  intros Hpos.
  destruct (executeCleanup_phases w)
    as (w1 & d1 & w2 & d2 & w3 & d3 & H1 & H2 & H3 & Hrun).
  destruct (executeCleanup_post shrinks shrinks_tick unlink_shrinks _ _ _ Hrun)
    as [Hshrinks _].
  destruct (Hshrinks Hpos) as [Hpos3 Hle].
  do 2 eexists. split; [exact Hrun|]. cbn.
  split; [exact Hle|]. split; [|exact Hpos3].
  pose proof (round_MB_mono _ _ Hle). lia.
Qed.

Lemma executeCleanup_never_grows_the_sandbox_witness :
  exists w' result,
    SandboxMonitor.executeCleanup (sampleWorld sandboxWithCacheFiles None)
    = (w', Ok result)
    /\ treeBytes (w_sandbox w') <= 21
    /\ 0 <= SandboxMonitor.freedMB result.
Proof.
  destruct (executeCleanup_never_grows_the_sandbox
              (sampleWorld sandboxWithCacheFiles None))
    as (w' & result & Hrun & Hle & Hfreed & _).
  - simpl. repeat constructor; lia.
  - exists w', result. repeat split; assumption.
Defined.

(** *** Temp files go by their age *)

(** [ageHours > 0.01] says that more than 36 seconds have passed. *)
Lemma ageHours_spec now mtime :
  Js.Qlt_bool 0.01 (inject_Z (now - mtime) / inject_Z (1000 * 60 * 60))
  = (36000 <? now - mtime).
Proof.
  unfold Js.Qlt_bool, Qle_bool, Qdiv, Qmult, Qinv, inject_Z. simpl.
  destruct (36000 <? now - mtime) eqn:E.
  - apply Z.ltb_lt in E. apply negb_true_iff, Z.leb_gt. lia.
  - apply Z.ltb_ge in E. apply negb_false_iff, Z.leb_le. lia.
Qed.

Lemma stat_file path size mtime w :
  Fs.lookupPath path (w_sandbox w) = Some (File size mtime) ->
  Fs.stat path w
  = (w, Ok {| Fs.isDirectory := false; Fs.st_size := size;
              Fs.st_mtime := mtime |}).
Proof. intros H. unfold Fs.stat, bind, get. cbv beta iota. now rewrite H. Qed.

(** Removing an entry of a directory leaves the entries of other names. *)
Lemma unlink_keeps_sibling d name name' w w' r :
  name <> name' ->
  Fs.unlink [d; name] w = (w', r) ->
  Fs.lookupPath [d; name'] (w_sandbox w')
  = Fs.lookupPath [d; name'] (w_sandbox w).
Proof.
  intros Hne H. unfold Fs.unlink, bind, get in H. cbv beta iota in H.
  destruct (w_sandbox w) as [root|] eqn:Hfs;
    [|injection H as <- _; now rewrite Hfs].
  destruct (Fs.unlinkAt [d; name] root) as [o|e] eqn:E; unfold modify in H;
    injection H as <- _; [|now rewrite Hfs].
  cbn [w_sandbox withSandbox].
  destruct root as [rsize rmtime|rmtime res]; [discriminate|].
  rewrite unlinkAt_dir in E.
  destruct (Fs.updateEntry d (Fs.unlinkAt [name]) res) as [res'|e] eqn:Eres;
    [|discriminate].
  injection E as <-. cbn [Fs.lookupPath Fs.resolve].
  clear Hfs. revert res' Eres.
  induction res as [|[n c] res IH]; intros res' Eres;
    cbn [Fs.updateEntry] in Eres.
  - discriminate.
  - destruct (String.eqb n d) eqn:End.
    + destruct c as [csize cmtime|cmtime ces]; [discriminate|].
      rewrite unlinkAt_dir in Eres.
      destruct (Fs.updateEntry name (Fs.unlinkAt []) ces) as [ces'|e] eqn:Ec;
        [|discriminate].
      injection Eres as <-. cbn [Fs.lookupEntry]. rewrite End.
      cbn [Fs.resolve].
      now rewrite (lookupEntry_updateEntry_ne _ _ _ _ _ Hne Ec).
    + destruct (Fs.updateEntry d (Fs.unlinkAt [name]) res) as [r'|e] eqn:Er;
        [|discriminate].
      injection Eres as <-. cbn [Fs.lookupEntry]. rewrite End.
      apply IH. reflexivity.
Qed.

Lemma unlink_clock path w w' r :
  Fs.unlink path w = (w', r) ->
  w_clock w' = w_clock w /\ w_ticks w' = w_ticks w.
Proof.
  intros H. unfold Fs.unlink, bind, get in H. cbv beta iota in H.
  destruct (w_sandbox w) as [root|]; [|injection H as <- _; auto].
  destruct (Fs.unlinkAt path root); unfold modify in H;
    injection H as <- _; auto.
Qed.

(** The loop of the temp phase leaves a file that is young at each of its
    clock readings. *)
Lemma tempLoop_keeps_young file size mtime names :
  forall tempDeleted w,
    Fs.lookupPath ["temp"; file] (w_sandbox w) = Some (File size mtime) ->
    (forall n, readings w (length names) n -> w_clock w n - mtime <= 36000) ->
    exists w' r,
      foldM (fun tempDeleted file =>
               let filePath := ["temp"] ++ [file] in
               stat <- Fs.stat filePath ;;
               now <- dateNow ;;
               let ageHours :=
                 (inject_Z (now - Fs.st_mtime stat)
                  / inject_Z (1000 * 60 * 60))%Q in
               if Js.Qlt_bool 0.01 ageHours then
                 Fs.unlink filePath ;; ret (tempDeleted + 1)
               else ret tempDeleted)
            tempDeleted names w = (w', r)
      /\ Fs.lookupPath ["temp"; file] (w_sandbox w') = Some (File size mtime).
Proof.
  induction names as [|f names IH]; intros acc w Hfile Hyoung.
  - do 2 eexists. split; [reflexivity | exact Hfile].
  - cbn [foldM]. unfold bind at 1. unfold bind at 1.
    cbn [app].
    destruct (Fs.stat ["temp"; f] w) as [w0 [st|e]] eqn:Est.
    2:{ do 2 eexists. split; [reflexivity|].
        unfold Fs.stat, bind, get in Est. cbv beta iota in Est.
        destruct (Fs.lookupPath ["temp"; f] (w_sandbox w)) as [[? ?|? ?]|];
          injection Est as <- _; exact Hfile. }
    assert (Hw0 : w0 = w).
    { unfold Fs.stat, bind, get in Est. cbv beta iota in Est.
      destruct (Fs.lookupPath ["temp"; f] (w_sandbox w)) as [[? ?|? ?]|];
        injection Est as <- _; reflexivity. }
    subst w0. unfold bind at 1, dateNow at 1. cbv beta iota.
    rewrite ageHours_spec.
    assert (Hnext : forall w1,
              w_clock w1 = w_clock w -> w_ticks w1 = S (w_ticks w) ->
              forall n, readings w1 (length names) n ->
                        w_clock w1 n - mtime <= 36000).
    { intros w1 Hc Ht n [Hn1 Hn2]. rewrite Hc. apply Hyoung.
      unfold readings. simpl. lia. }
    destruct (36000 <? w_clock w (w_ticks w) - Fs.st_mtime st) eqn:Eold.
    + assert (Hne : f <> file).
      { intros ->. rewrite (stat_file _ _ _ _ Hfile) in Est.
        injection Est as <-. simpl in Eold. apply Z.ltb_lt in Eold.
        assert (w_clock w (w_ticks w) - mtime <= 36000); [|lia].
        apply Hyoung. unfold readings. simpl. lia. }
      unfold bind at 1.
      destruct (Fs.unlink ["temp"; f] (tick w)) as [w1 r1] eqn:Eun.
      pose proof (unlink_keeps_sibling _ _ _ _ _ _ Hne Eun) as Hkeep.
      destruct (unlink_clock _ _ _ _ Eun) as [Hc Ht].
      destruct r1 as [[]|e].
      * unfold ret at 1. apply IH; [now rewrite Hkeep | now apply Hnext].
      * do 2 eexists. split; [reflexivity | now rewrite Hkeep].
    + unfold ret at 1. apply IH; [exact Hfile | now apply Hnext].
Qed.

(** The loop removes all the entries when they are regular files that are
    old at each of its clock readings. *)
Lemma tempLoop_removes_old mtime es :
  Forall (fun e => isFile (snd e)) es ->
  forall tempDeleted w,
    Fs.lookupPath ["temp"] (w_sandbox w) = Some (Dir mtime es) ->
    (forall n e, readings w (length es) n -> In e es ->
                 36000 < w_clock w n - mtimeOf (snd e)) ->
    exists w',
      foldM (fun tempDeleted file =>
               let filePath := ["temp"] ++ [file] in
               stat <- Fs.stat filePath ;;
               now <- dateNow ;;
               let ageHours :=
                 (inject_Z (now - Fs.st_mtime stat)
                  / inject_Z (1000 * 60 * 60))%Q in
               if Js.Qlt_bool 0.01 ageHours then
                 Fs.unlink filePath ;; ret (tempDeleted + 1)
               else ret tempDeleted)
            tempDeleted (map fst es) w
      = (w', Ok (tempDeleted + Z.of_nat (length es)))
      /\ Fs.lookupPath ["temp"] (w_sandbox w') = Some (Dir mtime []).
Proof.
  induction 1 as [|[name c] es Hc Hes IH]; intros acc w Hdir Hold.
  - exists w. split; [|exact Hdir].
    cbn [map foldM length Z.of_nat]. unfold ret. now rewrite Z.add_0_r.
  - destruct c as [size t|]; [|destruct Hc].
    cbn [map fst foldM app]. unfold bind at 1. unfold bind at 1.
    assert (Hfile : Fs.lookupPath ["temp"; name] (w_sandbox w)
                    = Some (File size t)).
    { rewrite lookupPath_cons, Hdir. simpl. now rewrite String.eqb_refl. }
    rewrite (stat_file _ _ _ _ Hfile).
    unfold bind at 1, dateNow at 1. cbv beta iota.
    rewrite ageHours_spec. cbn [Fs.st_mtime].
    assert (Eold : (36000 <? w_clock w (w_ticks w) - t) = true).
    { apply Z.ltb_lt.
      apply (Hold (w_ticks w) (name, File size t)); [|now left].
      unfold readings. simpl. lia. }
    rewrite Eold. unfold bind at 1.
    destruct (unlink_first_entry "temp" name size t mtime es (tick w) Hdir)
      as (w1 & Hrun & Hdir1).
    rewrite Hrun. unfold ret at 1.
    destruct (unlink_clock _ _ _ _ Hrun) as [Hc1 Ht1].
    destruct (IH (acc + 1) w1 Hdir1) as (w' & Hrest & Hempty).
    { intros n e [Hn1 Hn2] He. rewrite Hc1. apply Hold; [|now right].
      unfold readings. rewrite Ht1 in *. simpl in *. lia. }
    exists w'. split; [|exact Hempty].
    replace (acc + Z.of_nat (length ((name, File size t) :: es)))
      with (acc + 1 + Z.of_nat (length es)) by (simpl length; lia).
    exact Hrest.
Qed.

(** Each phase adds to the report and takes nothing from it. *)
Lemma cleanLogs_extends details :
  post anyWorld (SandboxMonitor.cleanLogs details)
    (fun details' => exists more, details' = details ++ more) noError.
Proof.
  unfold SandboxMonitor.cleanLogs. cbv zeta.
  eapply post_tryCatch with (E1 := anyError); try typeclasses eauto;
    [|intros e _; post_apply post_ret; eexists; reflexivity].
  eapply post_bind with (Q1 := fun _ => True); try typeclasses eauto;
    [apply readdir_pure; typeclasses eauto|].
  intros logFiles _.
  eapply post_bind with (Q1 := fun _ => True); try typeclasses eauto.
  { eapply post_weaken with (Q1 := Forall (fun _ => True)) (E1 := anyError);
      [|intros a _; exact I | intros e He; exact He].
    eapply post_mapM; try typeclasses eauto.
    intros file.
    eapply post_bind with (Q1 := fun _ => True); try typeclasses eauto;
      [apply stat_pure; typeclasses eauto|].
    intros st _. post_apply post_ret. exact I. }
  intros logStats _.
  eapply post_bind with (Q1 := fun _ => True); try typeclasses eauto.
  { eapply post_forEach with (P := fun _ => True);
      try typeclasses eauto; [apply Forall_True|].
    intros ls _ w w' r _. split; [exact I | destruct r; exact I]. }
  intros _ _. post_apply post_ret.
  destruct (_ <? _)%nat; [eexists; reflexivity | exists []; now rewrite app_nil_r].
Qed.

Lemma cleanCache_extends details :
  post anyWorld (SandboxMonitor.cleanCache details)
    (fun details' => exists more, details' = details ++ more) noError.
Proof.
  unfold SandboxMonitor.cleanCache. cbv zeta.
  eapply post_tryCatch with (E1 := anyError); try typeclasses eauto;
    [|intros e _; post_apply post_ret; eexists; reflexivity].
  eapply post_bind with (Q1 := fun _ => True); try typeclasses eauto;
    [apply readdir_pure; typeclasses eauto|].
  intros cacheFiles _.
  eapply post_bind with (Q1 := fun _ => True); try typeclasses eauto.
  { eapply post_forEach with (P := fun _ => True);
      try typeclasses eauto; [apply Forall_True|].
    intros ls _ w w' r _. split; [exact I | destruct r; exact I]. }
  intros _ _. post_apply post_ret.
  destruct (_ <? _)%nat; [eexists; reflexivity | exists []; now rewrite app_nil_r].
Qed.

(** X7.  In [executeCleanup], temp files go by their age at the clock
    reading taken for them.  A regular file of [temp/] that is at most 36
    seconds old at each of these readings is still there afterwards,
    whatever else the sandbox holds; and when all the entries of [temp/]
    are regular files more than 36 seconds old at each reading, [temp/] is
    empty afterwards and the report counts them as deleted. *)
Theorem executeCleanup_deletes_temp_files_by_age w :
  exists w' result,
    SandboxMonitor.executeCleanup w = (w', Ok result)
    /\ (forall file size mtime,
          Fs.lookupPath ["temp"; file] (w_sandbox w) = Some (File size mtime) ->
          (forall n, tempReadings w n -> w_clock w n - mtime <= 36000) ->
          Fs.lookupPath ["temp"; file] (w_sandbox w') = Some (File size mtime))
    /\ (forall mtime es,
          Fs.lookupPath ["temp"] (w_sandbox w) = Some (Dir mtime es) ->
          Forall (fun e => isFile (snd e)) es ->
          (forall n e, tempReadings w n -> In e es ->
                       36000 < w_clock w n - mtimeOf (snd e)) ->
          Fs.lookupPath ["temp"] (w_sandbox w') = Some (Dir mtime [])
          /\ (es <> [] ->
              In ("Deleted " +:+ Js.showZ (Z.of_nat (length es)) +:+ " temp files")
                 (SandboxMonitor.details result))).
Proof.
  destruct (executeCleanup_phases w)
    as (w1 & d1 & w2 & d2 & w3 & d3 & H1 & H2 & H3 & Hrun).
  destruct (cleanLogs_untouched d1 _ _ _ H2) as [[_ Hk2] _].
  destruct (cleanCache_untouched d2 _ _ _ H3) as [[_ Hk3] _].
  assert (Htemp : Fs.lookupPath ["temp"] (w_sandbox w3)
                  = Fs.lookupPath ["temp"] (w_sandbox w1)).
  { unfold keeps in *. rewrite Hk3, Hk2 by discriminate. reflexivity. }
  do 2 eexists. split; [exact Hrun|]. cbn [SandboxMonitor.details]. split.
  - intros file size mtime Hfile Hyoung.
    rewrite lookupPath_cons, Htemp, <- lookupPath_cons.
    assert (Hdir : exists mt es,
               Fs.lookupPath ["temp"] (w_sandbox w) = Some (Dir mt es)).
    { rewrite lookupPath_cons in Hfile.
      destruct (Fs.lookupPath ["temp"] (w_sandbox w)) as [[? ?|mt es]|];
        try discriminate. eauto. }
    destruct Hdir as (mt & es & Hdir).
    unfold SandboxMonitor.cleanTemp, tryCatch, bind at 1, Fs.readdir,
      bind at 1, get in H1.
    cbv zeta beta iota in H1. rewrite Hdir in H1. unfold ret at 1 in H1.
    cbv beta iota in H1. unfold bind at 1 in H1.
    destruct (tempLoop_keeps_young file size mtime (map fst es) 0 w Hfile)
      as (wl & rl & Hloop & Hkept).
    { intros n Hn. apply Hyoung. unfold tempReadings, entryCount.
      rewrite Hdir, Nat2Z.id. now rewrite length_map in Hn. }
    cbn [app] in H1. cbn [app] in Hloop. rewrite Hloop in H1.
    destruct rl as [n|e]; injection H1 as <- _; exact Hkept.
  - intros mtime es Hdir Hfiles Hold.
    unfold SandboxMonitor.cleanTemp, tryCatch, bind at 1, Fs.readdir,
      bind at 1, get in H1.
    cbv zeta beta iota in H1. rewrite Hdir in H1. unfold ret at 1 in H1.
    cbv beta iota in H1. unfold bind at 1 in H1.
    destruct (tempLoop_removes_old mtime es Hfiles 0 w Hdir)
      as (wl & Hloop & Hempty).
    { intros n e Hn He. apply Hold; [|exact He]. unfold tempReadings, entryCount.
      now rewrite Hdir, Nat2Z.id. }
    cbn [app] in H1. cbn [app] in Hloop. rewrite Hloop in H1.
    unfold ret in H1. injection H1 as <- <-.
    split; [now rewrite Htemp|].
    intros Hne.
    assert (Hd1 : In ("Deleted " +:+ Js.showZ (Z.of_nat (length es))
                      +:+ " temp files")
                     (if 0 <? 0 + Z.of_nat (length es)
                      then [] ++ ["Deleted "
                                  +:+ Js.showZ (0 + Z.of_nat (length es))
                                  +:+ " temp files"]
                      else [])).
    { destruct es as [|e es]; [contradiction|].
      replace (0 <? 0 + Z.of_nat (length (e :: es))) with true
        by (symmetry; apply Z.ltb_lt; simpl length; lia).
      rewrite Z.add_0_l. now left. }
    destruct (cleanLogs_extends _ _ _ _ H2) as [_ [m2 ->]].
    destruct (cleanCache_extends _ _ _ _ H3) as [_ [m3 ->]].
    apply in_or_app. left. apply in_or_app. left. exact Hd1.
Qed.

Lemma executeCleanup_deletes_temp_files_by_age_witness :
  exists w',
    fst (SandboxMonitor.executeCleanup (sampleWorld sandboxWithTempFiles None))
    = w'
    /\ Fs.lookupPath ["temp"; "new.tmp"] (w_sandbox w')
       = Some (File 6 1699999999000).
Proof.
  destruct (executeCleanup_deletes_temp_files_by_age
              (sampleWorld sandboxWithTempFiles None))
    as (w' & result & Hrun & Hyoung & _).
  exists w'. split; [now rewrite Hrun|].
  apply Hyoung; [reflexivity|].
  intros n [_ Hn]. cbn in Hn. cbn [w_clock sampleWorld]. lia.
Defined.

(** *** The logs phase keeps the five newest files *)

Section SortFacts.
Context {A : Type} (key : A -> Q).

Lemma insertSorted_perm x l : Permutation (Js.insertSorted key x l) (x :: l).
Proof.
  induction l as [|y l IH]; simpl; [reflexivity|].
  destruct (Qle_bool (key x) (key y)); [reflexivity|].
  rewrite IH. apply perm_swap.
Qed.

Lemma sortBy_perm l : Permutation (Js.sortBy key l) l.
Proof.
  induction l as [|x l IH]; simpl; [reflexivity|].
  rewrite insertSorted_perm. now constructor.
Qed.

Lemma insertSorted_ascending x l :
  ascending key l -> ascending key (Js.insertSorted key x l).
Proof.
  induction l as [|y l IH]; simpl; intros Hl.
  - split; constructor.
  - destruct Hl as [Hy Hl].
    destruct (Qle_bool (key x) (key y)) eqn:E.
    + apply Qle_bool_iff in E. split; [|split; assumption].
      constructor; [exact E|].
      eapply Forall_impl; [exact Hy|]. intros z Hz. simpl in Hz.
      eapply Qle_trans; eassumption.
    + split; [|auto].
      rewrite insertSorted_perm. constructor; [|exact Hy].
      destruct (Qlt_le_dec (key x) (key y)) as [Hlt|Hle].
      * apply Qlt_le_weak in Hlt. apply Qle_bool_iff in Hlt. congruence.
      * exact Hle.
Qed.

Lemma sortBy_ascending l : ascending key (Js.sortBy key l).
Proof.
  induction l as [|x l IH]; simpl; [exact I|].
  now apply insertSorted_ascending.
Qed.

(** Where a list in ascending order is cut, what is before is at most
    what is after. *)
Lemma ascending_cut l :
  ascending key l ->
  forall k a b, In a (firstn k l) -> In b (skipn k l) -> (key a <= key b)%Q.
Proof.
  induction l as [|y l IH]; intros Hl [|k] a b Ha Hb;
    simpl in *; try contradiction.
  destruct Hl as [Hy Hl]. destruct Ha as [<-|Ha]; [|eauto].
  rewrite Forall_forall in Hy. apply Hy. apply list_elem_of_In.
  rewrite <- (firstn_skipn k l). apply in_or_app. now right.
Qed.
End SortFacts.

(** Entries of a directory whose names differ pairwise. *)
Lemma lookupEntry_NoDup es e :
  NoDup (map fst es) -> In e es -> Fs.lookupEntry (fst e) es = Some (snd e).
Proof.
  induction es as [|[n c] es IH]; intros Hnd He; [destruct He|].
  apply NoDup_cons in Hnd as [Hn Hnd]. simpl.
  destruct He as [<-|He]; [simpl; now rewrite String.eqb_refl|].
  destruct (String.eqb n (fst e)) eqn:E; [|auto].
  apply String.eqb_eq in E. subst n. exfalso. apply Hn.
  apply list_elem_of_In. exact (in_map fst es e He).
Qed.

Lemma NoDup_names_inj (es : list (string * FsNode)) e e' :
  NoDup (map fst es) -> In e es -> In e' es -> fst e = fst e' -> e = e'.
Proof.
  intros Hnd He He' Heq.
  pose proof (lookupEntry_NoDup _ _ Hnd He) as H1.
  pose proof (lookupEntry_NoDup _ _ Hnd He') as H2.
  rewrite Heq in H1. rewrite H1 in H2. injection H2 as Hs.
  destruct e, e'. simpl in *. congruence.
Qed.

Lemma In_removeName name es e :
  In e (removeName name es) <-> In e es /\ fst e <> name.
Proof.
  unfold removeName. rewrite <- !list_elem_of_In, list_elem_of_filter.
  rewrite Is_true_true, negb_true_iff, String.eqb_neq. tauto.
Qed.

Lemma removeName_cons name n c es :
  removeName name ((n, c) :: es)
  = if String.eqb n name then removeName name es
    else (n, c) :: removeName name es.
Proof.
  unfold removeName. rewrite filter_cons. simpl.
  destruct (String.eqb n name); simpl; reflexivity.
Qed.

Lemma removeName_absent name es :
  ~ In name (map fst es) -> removeName name es = es.
Proof.
  induction es as [|[n c] es IH]; intros Hno; [reflexivity|].
  rewrite removeName_cons.
  destruct (String.eqb n name) eqn:E.
  - apply String.eqb_eq in E. exfalso. apply Hno. now left.
  - rewrite IH; [reflexivity|]. intros H. apply Hno. now right.
Qed.

Lemma updateEntry_remove name size t es :
  NoDup (map fst es) ->
  Fs.lookupEntry name es = Some (File size t) ->
  Fs.updateEntry name (Fs.unlinkAt []) es = Ok (removeName name es).
Proof.
  induction es as [|[n c] es IH]; intros Hnd Hl; [discriminate|].
  apply NoDup_cons in Hnd as [Hn Hnd].
  cbn [Fs.updateEntry Fs.lookupEntry] in *. rewrite removeName_cons.
  destruct (String.eqb n name) eqn:E.
  - injection Hl as ->. cbn [Fs.unlinkAt].
    apply String.eqb_eq in E. subst n.
    rewrite removeName_absent; [reflexivity|].
    intros H. apply Hn, list_elem_of_In, H.
  - now rewrite IH.
Qed.

Lemma length_removeName name es :
  NoDup (map fst es) -> In name (map fst es) ->
  S (length (removeName name es)) = length es.
Proof.
  induction es as [|[n c] es IH]; intros Hnd Hin; [destruct Hin|].
  apply NoDup_cons in Hnd as [Hn Hnd]. rewrite removeName_cons.
  destruct (String.eqb n name) eqn:E.
  - apply String.eqb_eq in E. subst n.
    rewrite removeName_absent; [reflexivity|].
    intros H. apply Hn, list_elem_of_In, H.
  - simpl. f_equal. apply IH; [exact Hnd|].
    destruct Hin as [H|H]; [|exact H].
    simpl in H. apply String.eqb_neq in E. contradiction.
Qed.

Lemma NoDup_removeName name es :
  NoDup (map fst es) -> NoDup (map fst (removeName name es)).
Proof.
  induction es as [|[n c] es IH]; intros Hnd; [exact Hnd|].
  apply NoDup_cons in Hnd as [Hn Hnd]. rewrite removeName_cons.
  destruct (String.eqb n name); [auto|].
  cbn [map fst]. apply NoDup_cons. split; [|auto].
  intros H. apply Hn. apply list_elem_of_In in H. apply list_elem_of_In.
  apply in_map_iff in H as (e & He1 & He2). apply in_map_iff.
  exists e. split; [exact He1|]. now apply In_removeName in He2.
Qed.

Lemma unlink_entry d name size t mtime es w :
  Fs.lookupPath [d] (w_sandbox w) = Some (Dir mtime es) ->
  NoDup (map fst es) ->
  Fs.lookupEntry name es = Some (File size t) ->
  exists w',
    Fs.unlink [d; name] w = (w', Ok tt)
    /\ Fs.lookupPath [d] (w_sandbox w') = Some (Dir mtime (removeName name es)).
Proof.
  intros Hd Hnd Hname. unfold Fs.unlink, bind, get. cbv beta iota.
  destruct (w_sandbox w) as [[rsize rmtime|rmtime res]|]; simpl in Hd;
    try discriminate.
  destruct (Fs.lookupEntry d res) as [c|] eqn:Hc; [|discriminate].
  injection Hd as ->.
  destruct (updateEntry_found d (Fs.unlinkAt [name]) res _
              (Dir mtime (removeName name es)) Hc)
    as (res' & Hup & Hres').
  { rewrite unlinkAt_dir. now rewrite (updateEntry_remove _ _ _ _ Hnd Hname). }
  rewrite unlinkAt_dir, Hup. unfold modify. eexists. split; [reflexivity|].
  simpl. now rewrite Hres'.
Qed.

Lemma isFile_removeName name es :
  Forall (fun e => isFile (snd e)) es ->
  Forall (fun e => isFile (snd e)) (removeName name es).
Proof.
  rewrite !Forall_forall. intros H e He. apply H.
  apply list_elem_of_In. apply list_elem_of_In in He.
  now apply In_removeName in He.
Qed.

(** Unlinking files of pairwise different names, all of them entries of
    the directory, leaves the other entries in their order. *)
Lemma forEach_unlink_entries d mtime (toDelete : list SandboxMonitor.LogStat) :
  forall es w,
    Fs.lookupPath [d] (w_sandbox w) = Some (Dir mtime es) ->
    NoDup (map fst es) ->
    Forall (fun e => isFile (snd e)) es ->
    NoDup (map SandboxMonitor.ls_name toDelete) ->
    Forall (fun st => SandboxMonitor.ls_path st = [d; SandboxMonitor.ls_name st]
                      /\ In (SandboxMonitor.ls_name st) (map fst es))
           toDelete ->
    exists w' kept,
      forEach toDelete (fun file => Fs.unlink (SandboxMonitor.ls_path file)) w
      = (w', Ok tt)
      /\ Fs.lookupPath [d] (w_sandbox w') = Some (Dir mtime kept)
      /\ sublist kept es
      /\ (length kept + length toDelete = length es)%nat
      /\ (forall e, In e kept
                    <-> In e es
                        /\ ~ In (fst e) (map SandboxMonitor.ls_name toDelete)).
Proof.
  induction toDelete as [|st l IH]; intros es w Hd Hnd Hfiles Hnames Hall.
  - exists w, es. split; [reflexivity|]. split; [exact Hd|].
    split; [reflexivity|]. split; [simpl; lia|].
    intros e. simpl. tauto.
  - apply Forall_cons in Hall as [[Hpath Hin] Hall].
    cbn [map] in Hnames. apply NoDup_cons in Hnames as [Hst Hnames].
    assert (Hentry : exists size t,
               Fs.lookupEntry (SandboxMonitor.ls_name st) es
               = Some (File size t)).
    { apply in_map_iff in Hin as (e & He1 & He2).
      pose proof (lookupEntry_NoDup _ _ Hnd He2) as Hl. rewrite He1 in Hl.
      rewrite Forall_forall in Hfiles.
      apply list_elem_of_In in He2. apply Hfiles in He2.
      destruct (snd e) as [size t|]; [eauto | destruct He2]. }
    destruct Hentry as (size & t & Hentry).
    destruct (unlink_entry d _ size t mtime es w Hd Hnd Hentry)
      as (w1 & Hrun & Hd1).
    destruct (IH (removeName (SandboxMonitor.ls_name st) es) w1 Hd1)
      as (w' & kept & Hrest & Hd' & Hsub & Hlen & Hkept).
    + now apply NoDup_removeName.
    + now apply isFile_removeName.
    + exact Hnames.
    + rewrite Forall_forall in Hall |- *. intros st' Hst'.
      destruct (Hall st' Hst') as [Hp Hi]. split; [exact Hp|].
      apply in_map_iff in Hi as (e & He1 & He2). apply in_map_iff.
      exists e. split; [exact He1|]. apply In_removeName. split; [exact He2|].
      rewrite He1. intros Heq. apply Hst. rewrite <- Heq.
      apply list_elem_of_In, in_map, list_elem_of_In, Hst'.
    + exists w', kept. cbn [forEach]. unfold bind. rewrite Hpath, Hrun.
      split; [exact Hrest|]. split; [exact Hd'|]. split; [|split].
      * etransitivity; [exact Hsub|]. apply sublist_filter.
      * pose proof (length_removeName _ _ Hnd Hin). simpl length. lia.
      * intros e. rewrite Hkept, In_removeName. cbn [map In]. split.
        -- intros [[He Hne] Hno]. split; [exact He|].
           intros [Heq|Hin']; [now symmetry in Heq | contradiction].
        -- intros [He Hno]. split; [split; [exact He|]|].
           ++ intros Heq. apply Hno. now left.
           ++ intros Hin'. apply Hno. now right.
Qed.

(** What the logs phase reads of a directory of entries with pairwise
    different names. *)
Lemma logStats_run mtime es w :
  Fs.lookupPath ["logs"] (w_sandbox w) = Some (Dir mtime es) ->
  NoDup (map fst es) ->
  mapM (fun file =>
          stat <- Fs.stat (["logs"] ++ [file]) ;;
          ret {| SandboxMonitor.ls_name := file;
                 SandboxMonitor.ls_path := ["logs"] ++ [file];
                 SandboxMonitor.ls_mtime := Fs.st_mtime stat |})
       (map fst es) w
  = (w, Ok (map toLogStat es)).
Proof.
  intros Hd Hnd.
  assert (Hall : forall e, In e es ->
                           Fs.lookupEntry (fst e) es = Some (snd e)).
  { intros e He. now apply lookupEntry_NoDup. }
  revert Hall. generalize es at 1 3 4. intros l.
  induction l as [|e l IH]; intros Hall; [reflexivity|].
  cbn [map mapM]. unfold bind at 1. unfold bind at 1.
  assert (He : exists st,
             Fs.stat (["logs"] ++ [fst e]) w = (w, Ok st)
             /\ Fs.st_mtime st = mtimeOf (snd e)).
  { unfold Fs.stat, bind, get. cbv beta iota. cbn [app].
    rewrite lookupPath_cons, Hd. cbn [Fs.resolve].
    rewrite (Hall e) by now left.
    destruct (snd e); eexists; (split; [reflexivity|]); reflexivity. }
  destruct He as (st & -> & Hst). unfold ret at 1. unfold bind at 1.
  rewrite IH by (intros e' He'; apply Hall; now right).
  unfold ret, toLogStat. cbn [app]. now rewrite Hst.
Qed.

Lemma toDelete_facts (es : list (string * FsNode)) :
  NoDup (map fst es) ->
  let sorted :=
    Js.sortBy (fun a => inject_Z (SandboxMonitor.ls_mtime a))
      (map toLogStat es) in
  let toDelete := Js.dropLast 5 sorted in
  NoDup (map SandboxMonitor.ls_name toDelete)
  /\ Forall (fun st =>
               SandboxMonitor.ls_path st = ["logs"; SandboxMonitor.ls_name st]
               /\ In (SandboxMonitor.ls_name st) (map fst es))
            toDelete
  /\ length toDelete = (length es - 5)%nat
  /\ (forall e e',
        In e es -> In e' es ->
        ~ In (fst e) (map SandboxMonitor.ls_name toDelete) ->
        In (fst e') (map SandboxMonitor.ls_name toDelete) ->
        mtimeOf (snd e') <= mtimeOf (snd e)).
Proof.
  intros Hnd sorted toDelete.
  assert (Hperm : Permutation sorted (map toLogStat es))
    by apply sortBy_perm.
  assert (Hlen : length sorted = length es).
  { rewrite (Permutation_length Hperm). apply length_map. }
  assert (Hnames : map SandboxMonitor.ls_name (map toLogStat es) = map fst es).
  { rewrite map_map. reflexivity. }
  assert (Hnd' : NoDup (map SandboxMonitor.ls_name sorted)).
  { rewrite (Permutation_map SandboxMonitor.ls_name Hperm), Hnames.
    exact Hnd. }
  assert (Himg : forall st, In st sorted ->
                            exists e, In e es /\ st = toLogStat e).
  { intros st Hst. apply (Permutation_in _ Hperm) in Hst.
    apply in_map_iff in Hst as (e & <- & He). eauto. }
  assert (Hsub : forall st, In st toDelete -> In st sorted).
  { intros st Hst. unfold toDelete, Js.dropLast in Hst.
    rewrite <- (firstn_skipn (length sorted - 5) sorted).
    apply in_or_app. now left. }
  split; [|split; [|split]].
  - unfold toDelete, Js.dropLast. rewrite <- firstn_map.
    eapply sublist_NoDup; [exact Hnd' | apply sublist_take].
  - rewrite Forall_forall. intros st Hst. apply list_elem_of_In in Hst.
    destruct (Himg st (Hsub st Hst)) as (e & He & ->).
    split; [reflexivity|]. simpl. now apply in_map.
  - unfold toDelete, Js.dropLast. rewrite length_take, Hlen. lia.
  - intros e e' He He' Hno Hin.
    rewrite Zle_Qle.
    apply in_map_iff in Hin as (st' & Hname' & Hst').
    destruct (Himg st' (Hsub st' Hst')) as (e'' & He'' & ->).
    simpl in Hname'.
    assert (e'' = e') by (eapply NoDup_names_inj; eauto). subst e''.
    assert (Hin_sorted : In (toLogStat e) sorted).
    { apply (Permutation_in _ (Permutation_sym Hperm)). now apply in_map. }
    rewrite <- (firstn_skipn (length sorted - 5) sorted) in Hin_sorted.
    apply in_app_or in Hin_sorted as [Hfirst|Hlast].
    { exfalso. apply Hno. apply in_map_iff. exists (toLogStat e).
      split; [reflexivity | exact Hfirst]. }
    exact (ascending_cut (fun a => inject_Z (SandboxMonitor.ls_mtime a))
             sorted (sortBy_ascending _ _) _ _ _ Hst' Hlast).
Qed.

(** X8.  When [logs/] is a directory of regular files, [executeCleanup]
    leaves the five newest of them and removes the others (it leaves all
    of them when there are at most five): the files left are entries that
    were there, in their order, and each was modified no earlier than
    every file removed. *)
Theorem executeCleanup_keeps_the_five_newest_logs w mtime es :
  Fs.lookupPath ["logs"] (w_sandbox w) = Some (Dir mtime es) ->
  NoDup (map fst es) ->
  Forall (fun e => isFile (snd e)) es ->
  exists w' result kept,
    SandboxMonitor.executeCleanup w = (w', Ok result)
    /\ Fs.lookupPath ["logs"] (w_sandbox w') = Some (Dir mtime kept)
    /\ sublist kept es
    /\ length kept = Nat.min 5 (length es)
    /\ (forall e e',
          In e kept -> In e' es -> ~ In e' kept ->
          mtimeOf (snd e') <= mtimeOf (snd e)).
Proof.
  intros Hlogs Hnd Hfiles.
  destruct (executeCleanup_phases w)
    as (w1 & d1 & w2 & d2 & w3 & d3 & H1 & H2 & H3 & Hrun).
  destruct (cleanTemp_untouched [] _ _ _ H1) as [[_ Hk1] _].
  destruct (cleanCache_untouched d2 _ _ _ H3) as [[_ Hk3] _].
  assert (Hlogs1 : Fs.lookupPath ["logs"] (w_sandbox w1) = Some (Dir mtime es)).
  { unfold keeps in Hk1. rewrite Hk1 by discriminate. exact Hlogs. }
  destruct (toDelete_facts es Hnd) as (Hnames & Hall & Hlen & Hnew).
  destruct (forEach_unlink_entries "logs" mtime _ es w1 Hlogs1 Hnd Hfiles
              Hnames Hall)
    as (w2' & kept & Hloop & Hkept_dir & Hsub & Hcount & Hkept).
  assert (Hw2 : w2 = w2').
  { unfold SandboxMonitor.cleanLogs, tryCatch, bind at 1, Fs.readdir,
      bind at 1, get in H2.
    cbv zeta beta iota in H2. rewrite Hlogs1 in H2. unfold ret at 1 in H2.
    cbv beta iota in H2. unfold bind at 1 in H2.
    rewrite (logStats_run mtime es w1 Hlogs1 Hnd) in H2.
    unfold bind at 1 in H2. rewrite Hloop in H2.
    unfold ret in H2. now injection H2 as <- _. }
  subst w2'.
  exists w3. eexists. exists kept. split; [exact Hrun|].
  split. { unfold keeps in Hk3. rewrite Hk3 by discriminate. exact Hkept_dir. }
  split; [exact Hsub|]. split; [lia|].
  intros e e' He He' Hno.
  apply Hkept in He as [He Hname].
  apply (Hnew e e' He He' Hname).
  destruct (in_dec string_dec (fst e')
              (map SandboxMonitor.ls_name
                 (Js.dropLast 5
                    (Js.sortBy (fun a => inject_Z (SandboxMonitor.ls_mtime a))
                       (map toLogStat es))))) as [Hin|Hnin]; [exact Hin|].
  exfalso. apply Hno, Hkept. auto.
Qed.

Lemma executeCleanup_keeps_the_five_newest_logs_witness :
  exists w' result kept,
    SandboxMonitor.executeCleanup (sampleWorld sandboxWithSevenLogs None)
    = (w', Ok result)
    /\ Fs.lookupPath ["logs"] (w_sandbox w') = Some (Dir 0 kept)
    /\ length kept = 5%nat.
Proof.
  destruct (executeCleanup_keeps_the_five_newest_logs
              (sampleWorld sandboxWithSevenLogs None) 0
              [("c.log", File 1 3); ("a.log", File 1 1); ("g.log", File 1 7);
               ("e.log", File 1 5); ("b.log", File 1 2); ("f.log", File 1 6);
               ("d.log", File 1 4)])
    as (w' & result & kept & Hrun & Hdir & _ & Hlen & _).
  - reflexivity.
  - apply NoDup_ListNoDup. repeat constructor; simpl; intuition discriminate.
  - repeat constructor.
  - exists w', result, kept. repeat split; assumption.
Defined.

(** ** More on the metrics sources *)

#[local] Instance onlyClockAndRandom_preorder : PreOrder onlyClockAndRandom.
Proof.
  split.
  - intros w. repeat split.
  - intros w1 w2 w3 H1 H2. unfold onlyClockAndRandom in *.
    repeat match goal with H : _ /\ _ |- _ => destruct H end.
    repeat split; congruence.
Qed.

(** X9.  Every scenario of the simulator, once triggered, makes the
    pipeline [collectMetrics], [performHealthChecks], [detectAlerts] raise
    exactly one alert.  Its type is the scenario, except for
    [sandbox_disk_full], which raises [disk_full]; memory and CPU alerts
    are of severity [high], latency alerts [medium], the others
    [critical]. *)
Theorem every_scenario_raises_exactly_one_alert scenario w :
  exists w' alert,
    (Simulator.triggerScenario scenario ;;
     metrics <- Simulator.collectMetrics ;;
     checks <- Simulator.performHealthChecks metrics ;;
     Simulator.detectAlerts checks) w = (w', Ok [alert])
    /\ (alert_alertType alert, alert_severity alert,
        alert_affectedResource alert) = alertOfScenario scenario
    /\ (scenario <> sandbox_disk_full -> alert_alertType alert = scenario).
Proof.
  unfold bind at 1, Simulator.triggerScenario at 1.
  unfold bind at 1, dateNow at 1, modify at 1. cbv beta iota.
  unfold bind at 1. rewrite collectMetrics_run.
  cbn [w_scenarioActive withScenario tick].
  unfold Simulator.performHealthChecks, newDateISO, bind, dateNow, ret.
  destruct scenario;
    cbn - [Js.toISOString Js.toFixed Js.showZ Js.base36Fraction];
    do 2 eexists; (split; [reflexivity|]); split; try reflexivity;
    intros H; try reflexivity; now contradiction H.
Qed.

(** X10.  The health checks other than the memory check: the CPU check is
    [unhealthy] exactly when the usage is at least 80, the disk check when
    the percentage is at least 95, the network check when the latency is
    above 200 (200 itself is healthy); and each container has its own
    check, named after it and [unhealthy] exactly when it is not
    running.  The checks come in the order memory, CPU, disk, containers,
    network, all with the time of the call. *)
Theorem performHealthChecks_triggers metrics w :
  exists mem cpuCheck diskCheck containerChecks networkCheck,
    Simulator.performHealthChecks metrics w
    = (tick w,
       Ok ([mem; cpuCheck; diskCheck] ++ containerChecks ++ [networkCheck]))
    /\ (hc_resource cpuCheck = "system-cpu"
        /\ (hc_status cpuCheck = unhealthy
            <-> (80 <= cpu_usage (cpu metrics))%Q))
    /\ (hc_resource diskCheck = "system-disk"
        /\ (hc_status diskCheck = unhealthy
            <-> (95 <= disk_percentage (disk metrics))%Q))
    /\ (hc_resource networkCheck = "network"
        /\ (hc_status networkCheck = unhealthy
            <-> (200 < net_latency (network metrics))%Q))
    /\ Forall2 (fun container check =>
                  hc_resource check = "container-" +:+ c_name container
                  /\ (hc_status check = unhealthy
                      <-> c_status container <> running))
               (containers metrics) containerChecks
    /\ Forall (fun check =>
                 hc_timestamp check = Js.toISOString (w_clock w (w_ticks w)))
              ([mem; cpuCheck; diskCheck] ++ containerChecks ++ [networkCheck]).
Proof.
  unfold Simulator.performHealthChecks, newDateISO, bind, dateNow, ret.
  cbv beta iota zeta. cbn [app].
  do 5 eexists. split; [reflexivity|]. cbn [hc_resource hc_status].
  split; [|split; [|split; [|split]]].
  - split; [reflexivity|].
    destruct (Qle_bool 80 (cpu_usage (cpu metrics))) eqn:E.
    + apply Qle_bool_iff in E. tauto.
    + split; [discriminate|]. intros H. apply Qle_bool_iff in H. congruence.
  - split; [reflexivity|].
    destruct (Qle_bool 95 (disk_percentage (disk metrics))) eqn:E.
    + apply Qle_bool_iff in E. tauto.
    + split; [discriminate|]. intros H. apply Qle_bool_iff in H. congruence.
  - split; [reflexivity|].
    destruct (Js.Qlt_bool 200 (net_latency (network metrics))) eqn:E.
    + apply Qlt_bool_iff in E. tauto.
    + split; [discriminate|]. intros H. apply Qlt_bool_iff in H. congruence.
  - induction (containers metrics) as [|c l IH]; simpl; constructor;
      [|exact IH].
    split; [reflexivity|]. destruct (c_status c); simpl; split;
      try discriminate; try congruence; intros H; now contradiction H.
  - repeat (constructor; [reflexivity|]).
    apply Forall_app. split; [|repeat constructor].
    induction (containers metrics) as [|c l IH]; simpl; constructor;
      [reflexivity | exact IH].
Qed.

Lemma onlyClockAndRandom_tick w : onlyClockAndRandom w (tick w).
Proof. repeat split. Qed.

Lemma onlyClockAndRandom_draw w : onlyClockAndRandom w (draw w).
Proof. repeat split. Qed.

(** [createAlert] gives an alert for a check exactly when it knows the
    metric; the alert reports the check, under the timestamp handed in. *)
Lemma createAlert_reports check timestamp :
  post onlyClockAndRandom (Simulator.createAlert check timestamp)
    (fun r =>
       if knownMetric (hc_metric check)
       then exists alert, r = Some alert /\ reports timestamp alert check
       else r = None)
    noError.
Proof.
  assert (Hclassify :
    post onlyClockAndRandom (Simulator.classify check)
      (fun c => if knownMetric (hc_metric check)
                then exists t s l, c = Some (t, s, l)
                else c = None)
      noError).
  { unfold Simulator.classify, knownMetric. cbn [existsb].
    repeat match goal with
           | |- context [if String.eqb ?a ?b then _ else _] =>
               destruct (String.eqb a b)
           end; cbn [orb];
      try (post_apply post_ret;
           first [reflexivity | do 3 eexists; reflexivity]).
    post_apply post_bind; [apply post_dateNow, onlyClockAndRandom_tick|].
    intros now _. post_apply post_ret. do 3 eexists. reflexivity. }
  unfold Simulator.createAlert.
  post_apply post_bind; [exact Hclassify|].
  intros c Hc. destruct (knownMetric (hc_metric check)).
  - destruct Hc as (t & s & l & ->).
    post_apply post_bind; [apply post_dateNow, onlyClockAndRandom_tick|].
    intros now _.
    post_apply post_bind; [apply post_mathRandom, onlyClockAndRandom_draw|].
    intros r _. post_apply post_ret.
    eexists. split; [reflexivity|]. repeat split.
  - subst c. post_apply post_ret. reflexivity.
Qed.

Lemma detectLoop_reports timestamp checks :
  forall alerts,
    post onlyClockAndRandom
      (foldM (fun alerts check =>
                if Simulator.isUnhealthy (hc_status check) then
                  alert <- Simulator.createAlert check timestamp ;;
                  match alert with
                  | Some alert => ret (alerts ++ [alert])
                  | None => ret alerts
                  end
                else ret alerts)
             alerts checks)
      (fun alerts' =>
         exists new,
           alerts' = alerts ++ new
           /\ Forall2 (reports timestamp) new
                (filter (fun check =>
                           Simulator.isUnhealthy (hc_status check)
                           && knownMetric (hc_metric check))
                        checks))
      noError.
Proof.
  induction checks as [|check checks IH]; intros alerts; cbn [foldM].
  - post_apply post_ret. exists []. split; [now rewrite app_nil_r | constructor].
  - rewrite filter_cons.
    destruct (Simulator.isUnhealthy (hc_status check)); cbn [andb].
    + post_apply post_bind.
      { post_apply post_bind; [apply createAlert_reports|].
        intros r Hr.
        instantiate (1 := fun alerts' =>
          if knownMetric (hc_metric check)
          then exists alert, alerts' = alerts ++ [alert]
                             /\ reports timestamp alert check
          else alerts' = alerts).
        cbv beta. destruct (knownMetric (hc_metric check)).
        - destruct Hr as (alert & -> & Hrep). post_apply post_ret.
          eexists. split; [reflexivity | exact Hrep].
        - subst r. post_apply post_ret. reflexivity. }
      intros alerts1 H1. cbv beta in H1.
      eapply post_weaken; [apply IH | | auto].
      intros alerts' (new & -> & Hnew).
      destruct (knownMetric (hc_metric check)).
      * destruct H1 as (alert & -> & Hrep).
        exists (alert :: new). rewrite <- app_assoc. split; [reflexivity|].
        destruct (decide _) as [_|Hd]; [|contradiction Hd; exact I].
        now constructor.
      * subst alerts1. exists new. split; [reflexivity|].
        destruct (decide _) as [[]|_]. exact Hnew.
    + eapply post_bind with (Q1 := fun a => a = alerts);
        try typeclasses eauto; [post_apply post_ret; reflexivity|].
      intros alerts1 ->.
      eapply post_weaken; [apply IH | | auto].
      intros alerts' (new & -> & Hnew). exists new. split; [reflexivity|].
      destruct (decide _) as [[]|_]. exact Hnew.
Qed.

(** X11.  [detectAlerts] never throws.  It returns one alert for each
    check that is [unhealthy] and whose metric [createAlert] knows, in the
    order of the checks and none besides; each alert carries the resource,
    metric, value and threshold of its check, and all carry the time of the
    call.  Nothing is changed but the clock and the random source. *)
Theorem detectAlerts_reports_each_unhealthy_check checks w :
  exists w' alerts,
    Simulator.detectAlerts checks w = (w', Ok alerts)
    /\ Forall2 (reports (Js.toISOString (w_clock w (w_ticks w)))) alerts
         (filter (fun check =>
                    Simulator.isUnhealthy (hc_status check)
                    && knownMetric (hc_metric check))
                 checks)
    /\ onlyClockAndRandom w w'.
Proof.
  unfold Simulator.detectAlerts, bind at 1, newDateISO, bind at 1,
    dateNow at 1, ret at 1.
  cbv beta iota.
  destruct (post_run _ _ _ (tick w)
              (detectLoop_reports (Js.toISOString (w_clock w (w_ticks w)))
                 checks []))
    as (w' & alerts & Hrun & HR & new & -> & Hnew).
  exists w', new. split; [exact Hrun|]. split; [exact Hnew|].
  transitivity (tick w); [apply onlyClockAndRandom_tick | exact HR].
Qed.

(** ** More on the rollback manager *)

Lemma getRollbackProcedure_three_steps alertType procedure :
  RollbackManager.getRollbackProcedure alertType = Some procedure ->
  exists s1 s2 s3, RollbackManager.steps procedure = [s1; s2; s3].
Proof.
  unfold RollbackManager.getRollbackProcedure.
  repeat match goal with
         | |- context [if String.eqb ?a ?b then _ else _] =>
             destruct (String.eqb a b)
         end;
    intros H; try discriminate; injection H as <-; simpl; eauto.
Qed.

Lemma drawN_draws n w : w_draws (drawN n w) = (w_draws w + n)%nat.
Proof.
  revert w. induction n as [|n IH]; intros w; simpl; [lia|].
  rewrite IH. simpl. lia.
Qed.

Lemma drawN_random n w : w_random (drawN n w) = w_random w.
Proof. revert w. induction n as [|n IH]; intros w; simpl; [|rewrite IH]; reflexivity. Qed.

Lemma drawN_outside n w :
  w_state (drawN n w) = w_state w
  /\ w_events (drawN n w) = w_events w
  /\ w_clock (drawN n w) = w_clock w
  /\ w_ticks (drawN n w) = w_ticks w
  /\ w_sandbox (drawN n w) = w_sandbox w.
Proof.
  revert w. induction n as [|n IH]; intros w; simpl; [repeat split|].
  destruct (IH (draw w)) as (H1 & H2 & H3 & H4 & H5).
  rewrite H1, H2, H3, H4, H5. repeat split.
Qed.

(** The loop over the steps goes through all of them, whatever fails: it
    draws once for each step, and returns the errors it was given exactly
    when no step failed. *)
Lemma runSteps_run snapshot l :
  forall i errors w,
    exists more,
      RollbackManager.runSteps snapshot i l errors w
      = (drawN (length l) w, Ok (errors ++ more))
      /\ (more = [] <-> forall k, (k < length l)%nat -> ~ stepFails w k).
Proof.
  induction l as [|step l IH]; intros i errors w.
  - exists []. rewrite app_nil_r. split; [reflexivity|].
    split; [intros _ k Hk; simpl in Hk; lia | reflexivity].
  - cbn [RollbackManager.runSteps length drawN].
    unfold bind at 1, tryCatch, bind at 1,
      RollbackManager.executeRollbackStep, bind at 1, mathRandom.
    cbv beta iota.
    destruct (Js.Qlt_bool (w_random w (w_draws w)) 0.05) eqn:E.
    + unfold throw, ret at 1. cbv beta iota.
      destruct (IH (i + 1) (errors ++ ["Step " +:+ Js.showZ (i + 1)
                                        +:+ " failed: "
                                        +:+ errorMessage
                                              (Error ("Failed to execute: "
                                                      +:+ step))])
                  (draw w)) as (more & Hrun & _).
      eexists. rewrite Hrun, <- app_assoc. split; [reflexivity|].
      split; [discriminate|].
      intros H. exfalso. apply (H 0%nat); [simpl; lia|].
      unfold stepFails. rewrite Nat.add_0_r. now apply Qlt_bool_iff.
    + unfold ret at 1. unfold ret at 1. cbv beta iota.
      destruct (IH (i + 1) errors (draw w)) as (more & Hrun & Hmore).
      exists more. split; [exact Hrun|]. rewrite Hmore. split.
      * intros H [|k] Hk.
        -- unfold stepFails. rewrite Nat.add_0_r. intros Hf.
           apply Qlt_bool_iff in Hf. congruence.
        -- specialize (H k). unfold stepFails in *. simpl in *.
           replace (w_draws w + S k)%nat with (S (w_draws w + k)) by lia.
           apply H. lia.
      * intros H k Hk. specialize (H (S k)). unfold stepFails in *. simpl in *.
        replace (S (w_draws w + k)) with (w_draws w + S k)%nat by lia.
        apply H. lia.
Qed.

(** [executeRollback] on a snapshot whose alert type has a procedure. *)
Lemma executeRollback_run incidentId reason w snapshot procedure :
  rollback_snapshots (w_state w) !! incidentId = Some snapshot ->
  RollbackManager.getRollbackProcedure (snap_alertType snapshot)
  = Some procedure ->
  exists w' result key,
    RollbackManager.executeRollback incidentId reason w = (w', Ok result)
    /\ rb_incidentId result = incidentId
    /\ rb_verificationPassed result
       = Js.Qlt_bool (w_random w (w_draws w + 3)%nat) 0.9
    /\ (rb_errors result = None
        <-> forall k, (k < 3)%nat -> ~ stepFails w k)
    /\ rb_success result
       = match rb_errors result with
         | None => rb_verificationPassed result
         | Some _ => false
         end
    /\ w_state w'
       = g_write G_rollback_history
           (<[key := {| rh_result := result; rh_reason := reason;
                        rh_snapshot := snapshot |}]>
              (rollback_history (w_state w)))
           (w_state w)
    /\ w_events w' = w_events w
    /\ w_sandbox w' = w_sandbox w
    /\ w_draws w' = (w_draws w + 4)%nat.
Proof.
  intros Hsnap Hproc.
  destruct (getRollbackProcedure_three_steps _ _ Hproc) as (s1 & s2 & s3 & Hsteps).
  unfold RollbackManager.executeRollback, bind at 1, dateNow at 1.
  unfold tryCatch, bind at 1, stateGet, get. cbn [g_read G_rollback_snapshots].
  change (w_state (tick w)) with (w_state w). rewrite Hsnap, Hproc.
  unfold bind at 1.
  destruct (runSteps_run snapshot (RollbackManager.steps procedure) 0 []
              (tick w)) as (more & Hrun & Hmore).
  rewrite Hrun, Hsteps. cbn [length app].
  unfold bind at 1, RollbackManager.verifyRollback, bind at 1, mathRandom,
    ret at 1.
  cbv beta iota.
  unfold bind, dateNow, newDateISO, bind, dateNow, ret, stateSet, modify.
  cbv beta iota.
  do 3 eexists. split; [reflexivity|].
  cbn [rb_incidentId rb_verificationPassed rb_errors rb_success].
  split; [reflexivity|].
  split.
  { cbn [drawN w_random w_draws draw tick]. f_equal. f_equal. lia. }
  rewrite Hsteps in Hmore. cbn [length] in Hmore.
  split.
  { destruct more as [|m more]; cbn [length Nat.ltb Nat.leb].
    - split; [intros _; now apply Hmore | reflexivity].
    - split; [discriminate|]. intros H. apply Hmore in H. discriminate. }
  split.
  { destruct more as [|m more]; reflexivity. }
  split; [reflexivity|]. split; [reflexivity|]. split; [reflexivity|].
  cbn. lia.
Qed.

(** [executeRollback] on a snapshot whose alert type has no procedure. *)
Lemma executeRollback_no_procedure incidentId reason w snapshot :
  rollback_snapshots (w_state w) !! incidentId = Some snapshot ->
  RollbackManager.getRollbackProcedure (snap_alertType snapshot) = None ->
  exists e,
    RollbackManager.executeRollback incidentId reason w
    = (tick (tick w), Throw e)
    /\ Errors.errorName e = "RollbackError".
Proof.
  intros Hsnap Hproc.
  unfold RollbackManager.executeRollback, bind at 1, dateNow at 1.
  unfold tryCatch, bind at 1, stateGet, get. cbn [g_read G_rollback_snapshots].
  change (w_state (tick w)) with (w_state w). rewrite Hsnap, Hproc.
  eexists. split; reflexivity.
Qed.

(** X12.  [createSnapshot] never throws.  It stores the snapshot it
    returns under [rollback-snapshots] at the incident id, replacing any
    snapshot stored there before, so that [isRollbackAvailable] answers
    [true] afterwards; the snapshot carries the incident id, the alert
    type and the fix details it was given, and as [fixApplied] the
    description of the alert type, which is undefined for
    ["sandbox_disk_full"].  Nothing else of the state changes and no event
    is emitted. *)
Theorem createSnapshot_makes_rollback_available
    incidentId alertType affectedResource fixDetails w :
  exists w' snapshot,
    RollbackManager.createSnapshot incidentId alertType affectedResource
      fixDetails w = (w', Ok snapshot)
    /\ w_state w'
       = g_write G_rollback_snapshots
           (<[incidentId := snapshot]> (rollback_snapshots (w_state w)))
           (w_state w)
    /\ w_events w' = w_events w
    /\ snap_incidentId snapshot = incidentId
    /\ snap_alertType snapshot = alertType
    /\ snap_affectedResource snapshot = affectedResource
    /\ snap_fixDetails snapshot = fixDetails
    /\ snap_fixApplied snapshot = RollbackManager.getFixDescription alertType
    /\ RollbackManager.getFixDescription "sandbox_disk_full" = None
    /\ RollbackManager.isRollbackAvailable incidentId w' = (w', Ok true).
Proof.
  unfold RollbackManager.createSnapshot, RollbackManager.captureCurrentState.
  unfold bind, newDateISO, bind, dateNow, ret, stateSet, modify.
  cbv beta iota.
  do 2 eexists. split; [reflexivity|].
  split; [reflexivity|]. split; [reflexivity|].
  cbn [snap_incidentId snap_alertType snap_affectedResource snap_fixDetails
       snap_fixApplied].
  repeat (split; [reflexivity|]).
  unfold RollbackManager.isRollbackAvailable, bind, stateGet, get, ret.
  cbn [w_state withState g_read g_write G_rollback_snapshots rollback_snapshots].
  now rewrite lookup_insert_eq.
Qed.

(** X13.  On a stored snapshot whose alert type has a rollback procedure,
    [executeRollback] never throws.  It runs the three steps of the
    procedure, going on after a step that fails, then the verification:
    four draws of [Math.random] in all.  The rollback succeeds exactly when
    no step failed (no draw below 0.05) and the verification passed (fourth
    draw below 0.9); errors are reported exactly when a step failed.  The
    result is written, with the reason and the snapshot, as one entry of
    [rollback-history]; the snapshot stays, and no event is emitted. *)
Theorem executeRollback_records_its_result
    incidentId reason w snapshot procedure :
  rollback_snapshots (w_state w) !! incidentId = Some snapshot ->
  RollbackManager.getRollbackProcedure (snap_alertType snapshot)
  = Some procedure ->
  exists w' result key,
    RollbackManager.executeRollback incidentId reason w = (w', Ok result)
    /\ rb_incidentId result = incidentId
    /\ (rb_success result = true
        <-> (forall k, (k < 3)%nat -> ~ stepFails w k)
            /\ (w_random w (w_draws w + 3)%nat < 0.9)%Q)
    /\ (rb_errors result = None
        <-> forall k, (k < 3)%nat -> ~ stepFails w k)
    /\ w_draws w' = (w_draws w + 4)%nat
    /\ rollback_history (w_state w')
       = <[key := {| rh_result := result; rh_reason := reason;
                     rh_snapshot := snapshot |}]>
           (rollback_history (w_state w))
    /\ rollback_snapshots (w_state w') = rollback_snapshots (w_state w)
    /\ w_events w' = w_events w.
Proof.
  intros Hsnap Hproc.
  destruct (executeRollback_run incidentId reason w snapshot procedure
              Hsnap Hproc)
    as (w' & result & key & Hrun & Hid & Hver & Herr & Hsucc & Hst & Hev
        & _ & Hdraws).
  exists w', result, key. split; [exact Hrun|]. split; [exact Hid|].
  split.
  { rewrite Hsucc, <- Herr, <- Qlt_bool_iff, <- Hver.
    destruct (rb_errors result).
    - split; [discriminate | intros [H _]; discriminate H].
    - split; [intros H; split; [reflexivity|exact H] | intros [_ H]; exact H]. }
  split; [exact Herr|]. split; [exact Hdraws|].
  rewrite Hst. repeat split. exact Hev.
Qed.

Lemma executeRollback_records_its_result_witness :
  exists w' result,
    RollbackManager.executeRollback "incident-1" "Manual rollback requested"
      (snapshotWorld memorySnapshot) = (w', Ok result)
    /\ rb_success result = true
    /\ rb_errors result = None.
Proof.
  destruct (executeRollback_records_its_result "incident-1"
              "Manual rollback requested" (snapshotWorld memorySnapshot)
              memorySnapshot
              {| RollbackManager.steps :=
                   ["Restore previous memory limits";
                    "Restart affected processes with original config";
                    "Verify memory usage returned to baseline"];
                 RollbackManager.estimatedDuration := 30000;
                 RollbackManager.requiresConfirmation := false |})
    as (w' & result & key & Hrun & _ & Hsucc & Herr & _).
  - vm_compute. reflexivity.
  - reflexivity.
  - assert (Hsteps : forall k, (k < 3)%nat ->
                               ~ stepFails (snapshotWorld memorySnapshot) k).
    { intros k _ H. unfold stepFails in H. cbn in H.
      apply Qlt_bool_iff in H. discriminate H. }
    exists w', result. split; [exact Hrun|]. split.
    + apply Hsucc. split; [exact Hsteps|]. cbn. reflexivity.
    + apply Herr. exact Hsteps.
Defined.

(** X14.  On a stored snapshot whose alert type has no rollback procedure
    (the procedures cover the five simulated alert types, not
    ["sandbox_disk_full"] and not ["unknown"]), [executeRollback] throws a
    [RollbackError] before it runs any step: the state is as it was, so no
    history entry is written, and no event is emitted. *)
Theorem executeRollback_without_procedure_throws
    incidentId reason w snapshot :
  rollback_snapshots (w_state w) !! incidentId = Some snapshot ->
  RollbackManager.getRollbackProcedure (snap_alertType snapshot) = None ->
  exists w' e,
    RollbackManager.executeRollback incidentId reason w = (w', Throw e)
    /\ Errors.errorName e = "RollbackError"
    /\ w_state w' = w_state w
    /\ w_events w' = w_events w
    /\ w_draws w' = w_draws w.
Proof.
  intros Hsnap Hproc.
  destruct (executeRollback_no_procedure incidentId reason w snapshot
              Hsnap Hproc) as (e & Hrun & Hname).
  do 2 eexists. split; [exact Hrun|]. repeat split. exact Hname.
Qed.

Lemma executeRollback_without_procedure_throws_witness :
  RollbackManager.getRollbackProcedure "sandbox_disk_full" = None
  /\ RollbackManager.getRollbackProcedure "unknown" = None
  /\ exists w' e,
       RollbackManager.executeRollback "incident-1" "Fix execution failed"
         (snapshotWorld sandboxSnapshot) = (w', Throw e)
       /\ Errors.errorName e = "RollbackError"
       /\ w_state w' = w_state (snapshotWorld sandboxSnapshot).
Proof.
  split; [reflexivity|]. split; [reflexivity|].
  destruct (executeRollback_without_procedure_throws "incident-1"
              "Fix execution failed" (snapshotWorld sandboxSnapshot)
              sandboxSnapshot)
    as (w' & e & Hrun & Hname & Hst & _).
  - vm_compute. reflexivity.
  - reflexivity.
  - exists w', e. repeat split; assumption.
Defined.


Lemma rate_bounds (s n : Z) :
  0 <= s <= n -> 0 < n ->
  (0 <= inject_Z s / inject_Z n * 100 <= 100)%Q
  /\ ((inject_Z s / inject_Z n * 100 == 100)%Q <-> s = n).
Proof.
  intros Hs Hn.
  assert (HN : (0 < inject_Z n)%Q).
  { change 0%Q with (inject_Z 0). rewrite <- Zlt_Qlt. exact Hn. }
  assert (HS0 : (0 <= inject_Z s)%Q).
  { change 0%Q with (inject_Z 0). rewrite <- Zle_Qle. lia. }
  assert (HSN : (inject_Z s <= inject_Z n)%Q).
  { rewrite <- Zle_Qle. lia. }
  assert (Hne : ~ (inject_Z n == 0)%Q).
  { intros H. rewrite H in HN. discriminate HN. }
  split; [split|split].
  - apply Qmult_le_0_compat; [|discriminate].
    apply Qle_shift_div_l; [exact HN|]. now rewrite Qmult_0_l.
  - apply Qle_trans with (1 * 100)%Q; [|discriminate].
    apply Qmult_le_compat_r; [|discriminate].
    apply Qle_shift_div_r; [exact HN|]. now rewrite Qmult_1_l.
  - intros H.
    assert (H1 : (inject_Z s / inject_Z n == 1)%Q).
    { apply (Qmult_inj_r _ _ 100); [discriminate|].
      now rewrite Qmult_1_l. }
    assert (H2 : (inject_Z s == inject_Z n)%Q).
    { rewrite <- (Qmult_div_r (inject_Z s) (inject_Z n) Hne), H1.
      apply Qmult_1_r. }
    apply inject_Z_injective. exact H2.
  - intros ->. field. exact Hne.
Qed.

(** X16.  [getRollbackStats] reads the state and changes nothing.  Its
    [total] is the number of entries of [rollback-history], [successful]
    the number of those whose result succeeded, and [failed] the rest, so
    that successful + failed = total with neither negative.  The success
    rate lies between 0 and 100; it is 0 (no division is made) for an empty
    history, and 100 exactly when the history is not empty and no rollback
    failed. *)
Theorem getRollbackStats_counts w :
  exists stats,
    RollbackStats.getRollbackStats w = (w, Ok stats)
    /\ RollbackStats.total stats
       = Z.of_nat (size (rollback_history (w_state w)))
    /\ RollbackStats.successful stats
       = Z.of_nat
           (size (filter (fun kv => rb_success (rh_result (snd kv)) = true)
                    (rollback_history (w_state w))))
    /\ RollbackStats.successful stats + RollbackStats.failed stats
       = RollbackStats.total stats
    /\ 0 <= RollbackStats.successful stats
    /\ 0 <= RollbackStats.failed stats
    /\ (0 <= RollbackStats.successRate stats <= 100)%Q
    /\ (rollback_history (w_state w) = ∅
        -> RollbackStats.successRate stats = 0%Q)
    /\ ((RollbackStats.successRate stats == 100)%Q
        <-> 0 < RollbackStats.total stats /\ RollbackStats.failed stats = 0).
Proof.
  unfold RollbackStats.getRollbackStats, RollbackStats.getRollbackHistory,
    stateGetGroup, bind, get, ret.
  cbn [g_read G_rollback_history].
  set (m := rollback_history (w_state w)).
  set (history := map snd (map_to_list m)).
  set (good := filter (fun r => rb_success (rh_result r)) history).
  assert (Hlen : length history = size m).
  { unfold history. now rewrite length_map, length_map_to_list. }
  assert (Hgood : (length good <= length history)%nat)
    by apply length_filter.
  eexists. split; [reflexivity|].
  cbn [RollbackStats.total RollbackStats.successful RollbackStats.failed
       RollbackStats.successRate].
  split; [now rewrite Hlen|].
  split.
  { f_equal. unfold good, history.
    rewrite map_filter_alt, <- length_map_to_list.
    rewrite map_to_list_to_map.
    2:{ apply (sublist_NoDup _ (map_to_list m).*1);
          [apply NoDup_fst_map_to_list|].
        apply fmap_sublist, sublist_filter. }
    generalize (map_to_list m). intros l.
    induction l as [|[k v] l IH]; [reflexivity|].
    cbn [map]. rewrite !filter_cons. cbn [snd].
    destruct (rb_success (rh_result v)).
    - destruct (decide _) as [_|Hd]; [|contradiction Hd; exact I].
      destruct (decide _) as [_|Hd]; [|contradiction Hd; reflexivity].
      cbn [length]. now rewrite IH.
    - destruct (decide _) as [[]|_].
      destruct (decide _) as [Hd|_]; [discriminate Hd|]. exact IH. }
  split; [lia|]. split; [lia|]. split; [lia|].
  destruct (0 <? length history)%nat eqn:Hpos.
  - apply Nat.ltb_lt in Hpos.
    destruct (rate_bounds (Z.of_nat (length good)) (Z.of_nat (length history)))
      as [Hb Heq]; [lia|lia|].
    split; [exact Hb|]. split.
    + intros He. rewrite He in Hlen. rewrite map_size_empty in Hlen. lia.
    + rewrite Heq. lia.
  - apply Nat.ltb_ge in Hpos.
    split; [split; discriminate|]. split; [reflexivity|].
    split; [discriminate|lia].
Qed.

(** ** The container runtime *)

Lemma getContainerStats_run w :
  exists result,
    DockerStats.getContainerStats w = (exec w, Ok result)
    /\ match w_dockerStats w (w_execs w) with
       | None => result = DockerStats.getEmptyResult
       | Some containers =>
           DockerStats.ds_containers result = containers
           /\ DockerStats.totalContainers result
              = Z.of_nat (length containers)
           /\ DockerStats.runningContainers result
              = Z.of_nat (length containers)
           /\ DockerStats.highMemoryContainers result
              = Js.sortBy (fun c => (- cs_memoryPercentage c)%Q)
                  (filter (fun c => Js.Qlt_bool 70 (cs_memoryPercentage c))
                     containers)
           /\ DockerStats.recommendations result
              = fst (DockerStats.generateRecommendations containers
                       (filter (fun c => Js.Qlt_bool 70 (cs_memoryPercentage c))
                          containers))
       end.
Proof.
  unfold DockerStats.getContainerStats, bind, DockerStats.execDockerStats.
  destruct (w_dockerStats w (w_execs w)) as [containers|].
  - destruct (DockerStats.generateRecommendations _ _) as [recs high] eqn:E.
    eexists. split; [reflexivity|]. cbn.
    repeat split.
    unfold DockerStats.generateRecommendations in E. cbv zeta in E.
    now injection E as _ <-.
  - eexists. split; reflexivity.
Qed.

Lemma generateRecommendations_nonempty containers high :
  fst (DockerStats.generateRecommendations containers high) <> [].
Proof.
  unfold DockerStats.generateRecommendations. cbv zeta. cbn [fst].
  match goal with |- (if (length ?l =? 0)%nat then _ else _) <> _ =>
    destruct l; [discriminate|discriminate] end.
Qed.

(** X17.  [getContainerStats] never throws and gives the container runtime
    one command.  When the command fails or prints nothing, the result is
    the empty one, with a single recommendation saying that the stats
    could not be fetched.  Otherwise every row is counted as a running
    container, and [highMemoryContainers] holds exactly the rows that use
    more than 70% of their memory (70% itself does not count), the highest
    share first.  The recommendations are never empty. *)
Theorem getContainerStats_lists_high_memory_first w :
  exists result,
    DockerStats.getContainerStats w = (exec w, Ok result)
    /\ match w_dockerStats w (w_execs w) with
       | None =>
           result = DockerStats.getEmptyResult
           /\ DockerStats.recommendations result
              = ["⚠️ Unable to fetch container stats"]
       | Some containers =>
           DockerStats.ds_containers result = containers
           /\ DockerStats.totalContainers result = Z.of_nat (length containers)
           /\ DockerStats.runningContainers result
              = DockerStats.totalContainers result
           /\ (forall c, In c (DockerStats.highMemoryContainers result)
                         <-> In c containers
                             /\ (70 < cs_memoryPercentage c)%Q)
           /\ (length (DockerStats.highMemoryContainers result)
               <= length containers)%nat
           /\ highestMemoryFirst (DockerStats.highMemoryContainers result)
       end
    /\ DockerStats.recommendations result <> [].
Proof.
  destruct (getContainerStats_run w) as (result & Hrun & Hres).
  exists result. split; [exact Hrun|].
  destruct (w_dockerStats w (w_execs w)) as [containers|].
  - destruct Hres as (Hc & Ht & Hr & Hh & Hrec).
    split.
    + split; [exact Hc|]. split; [exact Ht|]. split; [congruence|].
      rewrite Hh.
      pose proof (sortBy_perm (fun c => (- cs_memoryPercentage c)%Q)
                    (filter (fun c => Js.Qlt_bool 70 (cs_memoryPercentage c))
                       containers)) as Hperm.
      split; [|split].
      * intros c. rewrite <- !list_elem_of_In, Hperm, list_elem_of_filter.
        rewrite <- Qlt_bool_iff, Is_true_true. tauto.
      * rewrite Hperm. apply length_filter.
      * apply sortBy_ascending.
    + rewrite Hrec. apply generateRecommendations_nonempty.
  - subst result. split; [split; reflexivity|discriminate].
Qed.

Lemma onlyContainerRuntime_refl w : onlyContainerRuntime w w.
Proof. repeat split. apply Nat.le_refl. Qed.

Lemma onlyContainerRuntime_exec w w' :
  onlyContainerRuntime w w' -> onlyContainerRuntime w (exec w').
Proof.
  intros ((Hs & He & Hp & Hu & Hsc) & Hsb & Ht & Hd & Hx).
  repeat split; cbn; try assumption. lia.
Qed.

Lemma getContainerStatsById_run containerId w :
  exists stats,
    DockerStats.getContainerStatsById containerId w = (exec w, Ok stats).
Proof.
  unfold DockerStats.getContainerStatsById, bind.
  destruct (getContainerStats_run w) as (result & -> & _).
  eexists. reflexivity.
Qed.

Lemma restartContainer_run containerName w :
  exists w' result,
    DockerStats.restartContainer containerName w = (w', Ok result)
    /\ onlyContainerRuntime w w'.
Proof.
  unfold DockerStats.restartContainer. cbv zeta. unfold bind at 1.
  destruct (getContainerStatsById_run containerName w) as (before & ->).
  unfold tryCatch, bind at 1, DockerStats.execDockerRestart.
  destruct (w_dockerRestart (exec w) (w_execs (exec w)) containerName)
    as [msg|output].
  - do 2 eexists. split; [reflexivity|].
    do 2 apply onlyContainerRuntime_exec. apply onlyContainerRuntime_refl.
  - unfold bind.
    destruct (getContainerStatsById_run containerName (exec (exec w)))
      as (after & ->).
    unfold ret. do 2 eexists. split; [reflexivity|].
    do 3 apply onlyContainerRuntime_exec. apply onlyContainerRuntime_refl.
Qed.

(** X18.  For a plain container name (one the shell that runs the command
    line reads as one word), [restartContainer] never throws and touches
    nothing but the container runtime.  It gives the restart command
    whether or not the stats know the container, and reports what the
    command did: on
    success, [success = true] after three commands (stats, restart,
    stats), with the trimmed output of the command in the logs, or the
    container name where the output is empty; on failure,
    [success = false] after two commands, the error message being the
    last log line.  The first log line names the container. *)
Theorem restartContainer_reports_the_restart_command containerName w :
  plainName containerName = true ->
  exists w' result,
    DockerStats.restartContainer containerName w = (w', Ok result)
    /\ onlyContainerRuntime w w'
    /\ hd_error (ar_logs result)
       = Some ("🔄 Restarting container: " +:+ containerName)
    /\ match w_dockerRestart w (S (w_execs w)) containerName with
       | inr output =>
           ar_success result = true
           /\ ar_message result
              = "Successfully restarted container " +:+ containerName
           /\ w_execs w' = (w_execs w + 3)%nat
           /\ In ("✅ Container restarted successfully: "
                  +:+ Js.orElse (Js.trim output) containerName)
                 (ar_logs result)
       | inl msg =>
           ar_success result = false
           /\ ar_message result
              = "Failed to restart container " +:+ containerName
           /\ w_execs w' = (w_execs w + 2)%nat
           /\ last (ar_logs result)
              = Some ("❌ Failed to restart container: " +:+ msg)
       end.
Proof.
  intros _.
  unfold DockerStats.restartContainer. cbv zeta. unfold bind at 1.
  destruct (getContainerStatsById_run containerName w) as (before & ->).
  unfold tryCatch, bind at 1, DockerStats.execDockerRestart.
  change (w_dockerRestart (exec w) (w_execs (exec w)) containerName)
    with (w_dockerRestart w (S (w_execs w)) containerName).
  destruct (w_dockerRestart w (S (w_execs w)) containerName) as [msg|output].
  - do 2 eexists. split; [reflexivity|].
    split; [do 2 apply onlyContainerRuntime_exec; apply onlyContainerRuntime_refl|].
    cbn [ar_logs ar_success ar_message].
    split; [destruct before; reflexivity|].
    split; [reflexivity|]. split; [reflexivity|].
    split; [cbn; lia|].
    rewrite last_snoc. reflexivity.
  - unfold bind.
    destruct (getContainerStatsById_run containerName (exec (exec w)))
      as (after & ->).
    unfold ret. do 2 eexists. split; [reflexivity|].
    split; [do 3 apply onlyContainerRuntime_exec; apply onlyContainerRuntime_refl|].
    cbn [ar_logs ar_success ar_message].
    split; [destruct before, after; reflexivity|].
    split; [reflexivity|]. split; [reflexivity|].
    split; [cbn; lia|].
    destruct after; rewrite ?in_app_iff; cbn [In]; tauto.
Qed.

Lemma restartContainer_reports_the_restart_command_witness :
  exists w' result,
    DockerStats.restartContainer "api-server" (dockerWorld None)
    = (w', Ok result)
    /\ w_sandbox w' = None
    /\ ar_success result = true
    /\ ar_message result = "Successfully restarted container api-server"
    /\ w_execs w' = 3%nat
    /\ In "✅ Container restarted successfully: api-server" (ar_logs result).
Proof.
  destruct (restartContainer_reports_the_restart_command "api-server"
              (dockerWorld None) eq_refl)
    as (w' & result & Hrun & (_ & Hsb & _) & _ & Hdone).
  cbn [w_dockerRestart dockerWorld] in Hdone.
  destruct Hdone as (Hsucc & Hmsg & Hexecs & Hlog).
  exists w', result. split; [exact Hrun|]. split; [exact Hsb|].
  split; [exact Hsucc|]. split; [exact Hmsg|]. split; [exact Hexecs|].
  exact Hlog.
Defined.

(** ** The actions behind the chat buttons *)

Lemma executeAction_refuses action w :
  SlackInteractive.sa_action action <> "clear_sandbox" ->
  SlackInteractive.sa_action action <> "both" ->
  (SlackInteractive.sa_action action = "restart_container" ->
   Auth.truthyOpt (SlackInteractive.sa_containerName action) = None) ->
  SlackInteractive.executeAction action w
  = (w, Ok {| ar_success := false;
              ar_message := "Action failed: " +:+ refusalReason action;
              ar_logs := ["❌ Error: " +:+ refusalReason action] |}).
Proof.
  intros Hclear Hboth Hrestart.
  unfold SlackInteractive.executeAction, refusalReason. cbv zeta.
  apply String.eqb_neq in Hclear, Hboth. rewrite Hclear.
  destruct (String.eqb (SlackInteractive.sa_action action) "restart_container")
    eqn:E.
  - apply String.eqb_eq in E. specialize (Hrestart E).
    unfold Auth.truthyOpt in Hrestart.
    destruct (SlackInteractive.sa_containerName action) as [name|];
      [|reflexivity].
    destruct (Js.truthy name); [discriminate Hrestart|reflexivity].
  - rewrite Hboth. reflexivity.
Qed.

(** Actions that do not clear the sandbox touch the container runtime
    only. *)
Lemma executeAction_onlyContainerRuntime action w :
  SlackInteractive.sa_action action <> "clear_sandbox" ->
  SlackInteractive.sa_action action <> "both" ->
  exists w' result,
    SlackInteractive.executeAction action w = (w', Ok result)
    /\ onlyContainerRuntime w w'.
Proof.
  intros Hclear Hboth.
  destruct (String.eqb (SlackInteractive.sa_action action) "restart_container")
    eqn:E.
  - destruct (Auth.truthyOpt (SlackInteractive.sa_containerName action))
      as [name|] eqn:Hname.
    + unfold SlackInteractive.executeAction. cbv zeta.
      apply String.eqb_neq in Hclear. rewrite Hclear, E.
      unfold Auth.truthyOpt in Hname.
      destruct (SlackInteractive.sa_containerName action) as [name'|];
        [|discriminate Hname].
      destruct (Js.truthy name'); [|discriminate Hname].
      destruct (restartContainer_run name' w) as (w' & r & Hrun & Hw).
      unfold tryCatch, bind. rewrite Hrun. unfold ret.
      do 2 eexists. split; [reflexivity|exact Hw].
    + rewrite executeAction_refuses by auto.
      do 2 eexists. split; [reflexivity|apply onlyContainerRuntime_refl].
  - rewrite executeAction_refuses; try assumption.
    + do 2 eexists. split; [reflexivity|apply onlyContainerRuntime_refl].
    + intros H. apply String.eqb_neq in E. contradiction.
Qed.

Lemma sorted_head_is_highest (rows : list ContainerStats) top rest :
  Js.sortBy (fun c => (- cs_memoryPercentage c)%Q)
    (filter (fun c => Js.Qlt_bool 70 (cs_memoryPercentage c)) rows)
  = top :: rest ->
  In top rows
  /\ (70 < cs_memoryPercentage top)%Q
  /\ forall c, In c rows -> (70 < cs_memoryPercentage c)%Q ->
               (cs_memoryPercentage c <= cs_memoryPercentage top)%Q.
Proof.
  intros Hsort.
  pose proof (sortBy_perm (fun c => (- cs_memoryPercentage c)%Q)
                (filter (fun c => Js.Qlt_bool 70 (cs_memoryPercentage c)) rows))
    as Hperm.
  pose proof (sortBy_ascending (fun c => (- cs_memoryPercentage c)%Q)
                (filter (fun c => Js.Qlt_bool 70 (cs_memoryPercentage c)) rows))
    as Hasc.
  rewrite Hsort in Hperm, Hasc. destruct Hasc as [Hall _].
  assert (Hin : forall c, In c (top :: rest)
                          <-> In c rows /\ (70 < cs_memoryPercentage c)%Q).
  { intros c. rewrite <- !list_elem_of_In, Hperm, list_elem_of_filter.
    rewrite <- Qlt_bool_iff, Is_true_true. tauto. }
  destruct (proj1 (Hin top) (or_introl eq_refl)) as [Htop Hmem].
  split; [exact Htop|]. split; [exact Hmem|].
  intros c Hc Hc70.
  destruct (proj2 (Hin c) (conj Hc Hc70)) as [<-|Hrest]; [apply Qle_refl|].
  rewrite Forall_forall in Hall. apply list_elem_of_In in Hrest.
  specialize (Hall c Hrest). cbv beta in Hall.
  apply Qopp_le_compat in Hall. now rewrite !Qopp_opp in Hall.
Qed.

(** X19.  For the action ["both"], [executeAction] first runs the sandbox
    cleanup, then asks the container runtime for its stats and restarts
    the container with the highest memory share among those above 70%; the
    container name of the request is not used.  The message says the
    container was restarted whether or not the restart succeeded, and the
    result succeeds exactly when the restart did.  With no container above
    70% (or no stats), nothing is restarted and the result succeeds. *)
Theorem executeAction_both_restarts_the_highest_memory_container action w :
  SlackInteractive.sa_action action = "both" ->
  exists w1 cleanup w' result,
    SandboxMonitor.executeCleanup w = (w1, Ok cleanup)
    /\ SlackInteractive.executeAction action w = (w', Ok result)
    /\ w_sandbox w' = w_sandbox w1
    /\ ((exists top restart,
           In top (default [] (w_dockerStats w1 (w_execs w1)))
           /\ (70 < cs_memoryPercentage top)%Q
           /\ (forall c, In c (default [] (w_dockerStats w1 (w_execs w1))) ->
                         (70 < cs_memoryPercentage c)%Q ->
                         (cs_memoryPercentage c <= cs_memoryPercentage top)%Q)
           /\ DockerStats.restartContainer (cs_name top) (exec w1)
              = (w', Ok restart)
           /\ ar_success result = ar_success restart
           /\ ar_message result
              = "Cleared " +:+ Js.showZ (SandboxMonitor.freedMB cleanup)
                +:+ "MB from sandbox and restarted " +:+ cs_name top)
        \/ ((forall c, In c (default [] (w_dockerStats w1 (w_execs w1))) ->
                       ~ (70 < cs_memoryPercentage c)%Q)
            /\ w' = exec w1
            /\ ar_success result = true
            /\ ar_message result
               = "Cleared " +:+ Js.showZ (SandboxMonitor.freedMB cleanup)
                 +:+ "MB from sandbox (no containers to restart)")).
Proof.
  intros Hboth.
  destruct (executeCleanup_run w) as (w1 & cleanup & Hclean & Hsucc & _).
  destruct (getContainerStats_run w1) as (stats & Hstats & Hres).
  unfold SlackInteractive.executeAction. cbv zeta. rewrite Hboth.
  cbn [String.eqb Ascii.eqb Bool.eqb].
  unfold tryCatch, bind at 1. rewrite Hclean, Hsucc. cbn [negb].
  unfold bind at 1. rewrite Hstats.
  destruct (DockerStats.highMemoryContainers stats) as [|top rest] eqn:Hhigh.
  - exists w1, cleanup. do 2 eexists. split; [reflexivity|].
    split; [reflexivity|]. split; [reflexivity|]. right.
    split; [|repeat split].
    intros c Hc Hc70.
    destruct (w_dockerStats w1 (w_execs w1)) as [rows|]; [|destruct Hc].
    destruct Hres as (_ & _ & _ & Hh & _).
    cbn [default] in Hc.
    assert (Hin : c ∈ filter (fun c => Js.Qlt_bool 70 (cs_memoryPercentage c))
                        rows).
    { apply list_elem_of_filter. split; [|now apply list_elem_of_In].
      apply Is_true_true, Qlt_bool_iff, Hc70. }
    rewrite <- (sortBy_perm (fun c => (- cs_memoryPercentage c)%Q)) in Hin.
    rewrite <- Hh in Hin. inversion Hin.
  - destruct (restartContainer_run (cs_name top) (exec w1))
      as (w' & restart & Hrestart & (_ & Hsb & _)).
    unfold bind. rewrite Hrestart. unfold ret.
    exists w1, cleanup. do 2 eexists. split; [reflexivity|].
    split; [reflexivity|]. split; [exact Hsb|]. left.
    exists top, restart.
    destruct (w_dockerStats w1 (w_execs w1)) as [rows|].
    + destruct Hres as (_ & _ & _ & Hh & _).
      symmetry in Hh.
      destruct (sorted_head_is_highest rows top rest Hh) as (H1 & H2 & H3).
      cbn [default]. repeat split; assumption.
    + subst stats. discriminate Hhigh.
Qed.

Lemma executeAction_both_restarts_the_highest_memory_container_witness :
  exists w1 cleanup w' result restart,
    SandboxMonitor.executeCleanup (dockerWorld sandboxWithCacheFiles)
    = (w1, Ok cleanup)
    /\ Fs.lookupPath ["cache"] (w_sandbox w1) = Some (Dir 0 [])
    /\ SlackInteractive.executeAction clearAndRestart
         (dockerWorld sandboxWithCacheFiles) = (w', Ok result)
    /\ DockerStats.restartContainer "api-server" (exec w1) = (w', Ok restart)
    /\ ar_success result = true
    /\ ar_message result
       = "Cleared " +:+ Js.showZ (SandboxMonitor.freedMB cleanup)
         +:+ "MB from sandbox and restarted api-server"
    /\ w_sandbox w' = w_sandbox w1.
Proof.
  destruct (executeAction_both_restarts_the_highest_memory_container
              clearAndRestart (dockerWorld sandboxWithCacheFiles) eq_refl)
    as (w1 & cleanup & w' & result & Hclean & Hrun & Hsb & Hcases).
  assert (Hw1 : exists ticks,
            w1 = {| w_state := emptyState;
                    w_events := [];
                    w_sandbox :=
                      Some (Dir 0 [("logs", Dir 0 []);
                                   ("temp", Dir 0 []);
                                   ("cache", Dir 0 []);
                                   ("data", Dir 0 [("keep.json", File 7 0)])]);
                    w_scenarioActive := None;
                    w_scenarioStartTime := 0;
                    w_clock := fun n => Z.of_nat n + 1700000000000;
                    w_ticks := ticks;
                    w_random := fun _ => 0.5%Q;
                    w_draws := 0;
                    w_dockerStats := fun _ => Some containerRows;
                    w_dockerRestart := fun _ name => inr name;
                    w_execs := 0;
                    w_webhookUrl := "";
                    w_posted := [] |}).
  { eexists.
    assert (H : fst (SandboxMonitor.executeCleanup
                       (dockerWorld sandboxWithCacheFiles)) = w1)
      by now rewrite Hclean.
    rewrite <- H. vm_compute. reflexivity. }
  destruct Hw1 as (ticks & Hw1).
  assert (Hrows : w_dockerStats w1 (w_execs w1) = Some containerRows)
    by (rewrite Hw1; reflexivity).
  rewrite Hrows in Hcases. cbn [default] in Hcases.
  exists w1, cleanup, w', result.
  destruct Hcases as [(top & restart & Hin & Hhigh & Hmax & Hrestart & Hsucc
                       & Hmsg) | (Hnone & _)].
  - assert (Htop : cs_name top = "api-server").
    { destruct Hin as [<-|[<-|[<-|[]]]].
      - exfalso.
        assert (H : (cs_memoryPercentage (containerRow "api-server" (183 # 2))
                     <= cs_memoryPercentage (containerRow "worker" (72 # 1)))%Q).
        { apply Hmax; [right; left; reflexivity | reflexivity]. }
        revert H. vm_compute. intros H. apply H. reflexivity.
      - reflexivity.
      - exfalso. revert Hhigh. vm_compute. discriminate. }
    rewrite Htop in Hrestart, Hmsg.
    assert (Hok : forall r,
              snd (DockerStats.restartContainer "api-server" (exec w1)) = Ok r ->
              ar_success r = true).
    { rewrite Hw1. vm_compute. intros r H. injection H as <-. reflexivity. }
    exists restart. split; [exact Hclean|].
    split; [rewrite Hw1; reflexivity|].
    split; [exact Hrun|]. split; [exact Hrestart|].
    split; [rewrite Hsucc; apply Hok; now rewrite Hrestart|].
    split; [exact Hmsg | exact Hsb].
  - exfalso.
    apply (Hnone (containerRow "api-server" (183 # 2)));
      [right; left; reflexivity | reflexivity].
Defined.

(** ** The manual approval endpoint, whatever the request *)

Lemma sendActionResult_posts incidentId action success message logs w :
  exists w',
    SlackInteractive.sendActionResult incidentId action success message logs w
    = (w', Ok tt)
    /\ w_state w' = w_state w
    /\ w_events w' = w_events w
    /\ w_sandbox w' = w_sandbox w
    /\ w_execs w' = w_execs w.
Proof.
  unfold SlackInteractive.sendActionResult, bind, get. cbv beta iota.
  destruct (negb (Js.truthy (w_webhookUrl w))).
  - exists w. repeat split.
  - eexists. split; [reflexivity|]. repeat split.
Qed.

Lemma executes_cases req :
  (exists a,
     executes req = Some a
     /\ ManualApproval.q_action req = "approve"
     /\ ManualApproval.execute req = Some a
     /\ Js.truthy a = true)
  \/ (executes req = None
      /\ (match ManualApproval.execute req with
          | Some e => if Js.truthy e then Some e else None
          | None => None
          end = None
          \/ String.eqb (ManualApproval.q_action req) "approve" = false)).
Proof.
  unfold executes, Auth.truthyOpt.
  destruct (String.eqb (ManualApproval.q_action req) "approve") eqn:Ha.
  - apply String.eqb_eq in Ha.
    destruct (ManualApproval.execute req) as [e|]; [|right; auto].
    destruct (Js.truthy e) eqn:He; [|right; auto].
    left. exists e. auto.
  - right. auto.
Qed.

Lemma adminCheck_forbidden req a :
  executes req = Some a ->
  (String.eqb a "clear_sandbox" || String.eqb a "both")
  && negb (ManualApproval.isAdmin (ManualApproval.user req)) = true
  <-> forbidden req.
Proof.
  intros He. unfold forbidden, clearsSandbox. rewrite He.
  rewrite andb_true_iff, orb_true_iff, !String.eqb_eq, negb_true_iff.
  split.
  - intros [[->| ->] H]; auto.
  - intros [[H|H] H']; injection H as ->; auto.
Qed.

(** What the handler has done when it answers 200. *)
Lemma manualApproval_run req w :
  exists w' response,
    ManualApproval.handler req w = (w', Ok response)
    /\ ((w' = w
         /\ ((ManualApproval.status response = 404
              /\ approval_pending (w_state w) !! ManualApproval.incident req
                 = None)
             \/ (exists pending,
                   approval_pending (w_state w) !! ManualApproval.incident req
                   = Some pending
                   /\ pa_status pending <> "pending"
                   /\ response
                      = {| ManualApproval.status := 400;
                           ManualApproval.body :=
                             ManualApproval.ErrorBody
                               ("Approval already processed with status: "
                                +:+ pa_status pending) |})
             \/ (ManualApproval.status response = 404
                 /\ rca_results (w_state w) !! ManualApproval.incident req
                    = None)
             \/ (ManualApproval.status response = 403
                 /\ processable req w /\ forbidden req)))
        \/ (ManualApproval.status response = 200
            /\ processable req w
            /\ ~ forbidden req
            /\ exists approval event,
                 w_state w'
                 = g_write G_approval_pending
                     (<[ManualApproval.incident req := approval]>
                        (approval_pending (w_state w)))
                     (w_state w)
                 /\ pa_status approval = processedStatus req
                 /\ pa_approver approval
                    = Some (Js.optOrElse (ManualApproval.approver req)
                              "slack-interactive")
                 /\ w_events w' = w_events w ++ [event]
                 /\ topic event = processedTopic req
                 /\ (executes req = None ->
                     pa_executionResult approval = None
                     /\ ManualApproval.body response
                        = ManualApproval.ApprovalBody true
                            ("Incident " +:+ ManualApproval.q_action req
                             +:+ "d successfully")
                            (ManualApproval.incident req)
                            (ManualApproval.q_action req)
                     /\ w_sandbox w' = w_sandbox w
                     /\ w_execs w' = w_execs w
                     /\ w_posted w' = w_posted w)
                 /\ (~ clearsSandbox (executes req) ->
                     w_sandbox w' = w_sandbox w))).
Proof.
  unfold ManualApproval.handler, tryCatch, bind at 1, stateGet at 1, get.
  cbn [g_read G_approval_pending]. cbv beta iota.
  destruct (approval_pending (w_state w) !! ManualApproval.incident req)
    as [pending|] eqn:Hpending.
  2:{ do 2 eexists. split; [reflexivity|]. left. split; [reflexivity|].
      left. split; reflexivity. }
  destruct (String.eqb (pa_status pending) "pending") eqn:Hstatus;
    cbn [negb].
  2:{ do 2 eexists. split; [reflexivity|]. left. split; [reflexivity|].
      right. left. exists pending. apply String.eqb_neq in Hstatus. auto. }
  apply String.eqb_eq in Hstatus.
  unfold bind at 1, stateGet at 1, get. cbn [g_read G_rca_results].
  cbv beta iota.
  destruct (rca_results (w_state w) !! ManualApproval.incident req)
    as [rca|] eqn:Hrca.
  2:{ do 2 eexists. split; [reflexivity|]. left. split; [reflexivity|].
      right. right. left. split; reflexivity. }
  assert (Hproc : processable req w) by (exists pending, rca; auto).
  destruct (executes_cases req) as [(a & Hexe & Hact & Hexec & Htruthy)
                                   | (Hexe & Hnone)].
  - rewrite Hexec, Htruthy, Hact. cbn [String.eqb Ascii.eqb Bool.eqb].
    pose proof (adminCheck_forbidden req a Hexe) as Hgate.
    destruct ((String.eqb a "clear_sandbox" || String.eqb a "both")
              && negb (ManualApproval.isAdmin (ManualApproval.user req))) eqn:G.
    { do 2 eexists. split; [reflexivity|]. left. split; [reflexivity|].
      right. right. right. split; [reflexivity|].
      split; [exact Hproc|]. now apply Hgate. }
    assert (Hallowed : ~ forbidden req).
    { intros H. apply Hgate in H. discriminate H. }
    unfold bind at 1, newDateISO at 1, bind at 1, dateNow at 1, ret at 1.
    cbv beta iota.
    match goal with |- context [SlackInteractive.executeAction ?act] =>
      set (action := act) end.
    destruct (post_run _ _ _ (tick w) (executeAction_outside action))
      as (w1 & result & Hrun & (Hst1 & Hev1 & _) & _).
    destruct (sendActionResult_posts (ManualApproval.incident req) a
                (ar_success result) (ar_message result) (ar_logs result) w1)
      as (w2 & Hsend & Hst2 & Hev2 & Hsb2 & _).
    unfold bind at 1. rewrite Hrun. unfold bind at 1. rewrite Hsend.
    unfold bind, newDateISO, dateNow, stateSet, modify, emit, ret.
    cbv beta iota.
    do 2 eexists. split; [reflexivity|]. right.
    split; [reflexivity|]. split; [exact Hproc|]. split; [exact Hallowed|].
    do 2 eexists.
    cbn [w_state w_events withState withEvents tick g_read
         G_approval_pending].
    rewrite Hst2, Hst1, Hev2, Hev1.
    change (w_state (tick w)) with (w_state w).
    change (w_events (tick w)) with (w_events w).
    split; [reflexivity|].
    unfold processedStatus, processedTopic. rewrite Hact.
    cbn [String.eqb Ascii.eqb Bool.eqb pa_status pa_approver topic].
    split; [reflexivity|]. split; [reflexivity|]. split; [reflexivity|].
    split; [reflexivity|].
    split; [intros H; rewrite H in Hexe; discriminate Hexe|].
    intros Hno. cbn [w_sandbox withState withEvents tick]. rewrite Hsb2.
    assert (Hc : a <> "clear_sandbox")
      by (intros ->; apply Hno; left; exact Hexe).
    assert (Hb : a <> "both")
      by (intros ->; apply Hno; right; exact Hexe).
    destruct (executeAction_onlyContainerRuntime action (tick w) Hc Hb)
      as (w1' & result' & Hrun' & _ & Hsb & _).
    rewrite Hrun in Hrun'. injection Hrun' as -> _. exact Hsb.
  - assert (Hallowed : ~ forbidden req).
    { intros [[H|H] _]; rewrite Hexe in H; discriminate H. }
    pose proof Hexe as Hexe'. unfold executes, Auth.truthyOpt in Hexe'.
    clear Hnone.
    destruct (ManualApproval.execute req) as [e|];
      [destruct (Js.truthy e)|];
      destruct (String.eqb (ManualApproval.q_action req) "approve") eqn:Ha;
      try discriminate Hexe';
      unfold bind, newDateISO, dateNow, stateSet, modify, emit, ret;
      cbv beta iota;
      (do 2 eexists; split; [reflexivity|]; right;
       split; [reflexivity|]; split; [exact Hproc|];
       split; [exact Hallowed|];
       do 2 eexists;
       unfold processedStatus, processedTopic; rewrite Ha;
       repeat split).
Qed.

(** X20.  The GET handler of [/manual-approval] never throws and answers
    200, 400, 403 or 404.  It answers 200 exactly when the incident has an
    approval that is still pending and an RCA result, and the request is
    not one that asks to clear the sandbox without coming from an
    administrator; 403 exactly when only the latter fails.  Whenever the
    answer is not 200 the world is exactly as it was: nothing is stored,
    emitted or executed. *)
Theorem manualApproval_answers req w :
  exists w' response,
    ManualApproval.handler req w = (w', Ok response)
    /\ (ManualApproval.status response = 200
        \/ ManualApproval.status response = 400
        \/ ManualApproval.status response = 403
        \/ ManualApproval.status response = 404)
    /\ (ManualApproval.status response = 200
        <-> processable req w /\ ~ forbidden req)
    /\ (ManualApproval.status response = 403
        <-> processable req w /\ forbidden req)
    /\ (ManualApproval.status response <> 200 -> w' = w).
Proof.
  destruct (manualApproval_run req w)
    as (w' & response & Hrun & [[-> Hrefused] | (H200 & Hproc & Hallowed & _)]).
  - exists w, response. split; [exact Hrun|].
    destruct Hrefused
      as [[Hs Hnone] | [(p & Hp & Hs & ->) | [[Hs Hnone] | (Hs & Hproc & Hf)]]].
    + rewrite Hs. split; [auto|].
      split; [|split; [|reflexivity]];
        (split; [discriminate|]);
        intros [(p & rca & Hp & _) _]; congruence.
    + cbn. split; [auto|].
      split; [|split; [|reflexivity]];
        (split; [discriminate|]);
        intros [(p' & rca & Hp' & Hs' & _) _]; congruence.
    + rewrite Hs. split; [auto|].
      split; [|split; [|reflexivity]];
        (split; [discriminate|]);
        intros [(p & rca & _ & _ & Hrca) _]; congruence.
    + rewrite Hs. split; [auto|].
      split; [|split; [|reflexivity]].
      * split; [discriminate|]. intros [_ H]. contradiction.
      * split; auto.
  - exists w', response. split; [exact Hrun|]. rewrite H200.
    split; [auto|]. split; [tauto|].
    split; [|intros H; now contradiction H].
    split; [discriminate|]. intros [_ H]. contradiction.
Qed.

(** X21.  An approval is processed once.  After the handler has answered
    200 for an incident, every further request for that incident, whatever
    it asks, is answered 400 with "Approval already processed with status:
    approved" (or "rejected", when the first request did not approve), and
    changes nothing. *)
Theorem manualApproval_processes_once req w w' response again :
  ManualApproval.handler req w = (w', Ok response) ->
  ManualApproval.status response = 200 ->
  ManualApproval.incident again = ManualApproval.incident req ->
  ManualApproval.handler again w'
  = (w', Ok {| ManualApproval.status := 400;
               ManualApproval.body :=
                 ManualApproval.ErrorBody
                   ("Approval already processed with status: "
                    +:+ processedStatus req) |}).
Proof.
  intros Hrun H200 Hsame.
  destruct (manualApproval_run req w)
    as (w1 & r1 & Hrun1 & Hcases).
  rewrite Hrun in Hrun1. injection Hrun1 as <- <-.
  destruct Hcases
    as [[_ [[Hs _] | [(p & _ & _ & ->) | [[Hs _] | (Hs & _)]]]]
       | (_ & _ & _ & approval & event & Hst & Hstatus & _)];
    try (rewrite Hs in H200; discriminate H200);
    try discriminate H200.
  unfold ManualApproval.handler, tryCatch, bind at 1, stateGet at 1, get.
  rewrite Hsame, Hst. cbn [g_read g_write G_approval_pending approval_pending].
  rewrite lookup_insert_eq. cbv beta iota. rewrite Hstatus.
  unfold processedStatus.
  destruct (String.eqb (ManualApproval.q_action req) "approve"); reflexivity.
Qed.

Lemma manualApproval_processes_once_witness :
  exists w',
    ManualApproval.handler restartWithoutContainer pendingWorld
    = (w', Ok {| ManualApproval.status := 200;
                 ManualApproval.body :=
                   ManualApproval.ApprovalBody true
                     "Action failed: Container name is required for restart action"
                     "incident-1" "approve" |})
    /\ ManualApproval.handler rejectAndClear w'
       = (w', Ok {| ManualApproval.status := 400;
                    ManualApproval.body :=
                      ManualApproval.ErrorBody
                        "Approval already processed with status: approved" |}).
Proof.
  eexists. split.
  - vm_compute. reflexivity.
  - eapply (manualApproval_processes_once restartWithoutContainer
              pendingWorld).
    + vm_compute. reflexivity.
    + reflexivity.
    + reflexivity.
Defined.

(** X22.  Any action other than the exact text ["approve"] is a rejection,
    and a rejection executes nothing.  For an incident that can be
    processed the handler answers 200 with "Incident <action>d
    successfully", stores the approval with status [rejected] and no
    execution result, and emits one event, of topic [fix.rejected]; the
    sandbox, the container runtime and the chat webhook are left alone,
    also when the request carries [execute=clear_sandbox]. *)
Theorem manualApproval_rejection_executes_nothing req w :
  processable req w ->
  ManualApproval.q_action req <> "approve" ->
  exists w' approval event,
    ManualApproval.handler req w
    = (w', Ok {| ManualApproval.status := 200;
                 ManualApproval.body :=
                   ManualApproval.ApprovalBody true
                     ("Incident " +:+ ManualApproval.q_action req
                      +:+ "d successfully")
                     (ManualApproval.incident req)
                     (ManualApproval.q_action req) |})
    /\ approval_pending (w_state w') !! ManualApproval.incident req
       = Some approval
    /\ pa_status approval = "rejected"
    /\ pa_executionResult approval = None
    /\ w_events w' = w_events w ++ [event]
    /\ topic event = "fix.rejected"
    /\ w_sandbox w' = w_sandbox w
    /\ w_execs w' = w_execs w
    /\ w_posted w' = w_posted w.
Proof.
  intros Hproc Hact. apply String.eqb_neq in Hact.
  assert (Hexe : executes req = None) by (unfold executes; now rewrite Hact).
  assert (Hallowed : ~ forbidden req).
  { intros [[H|H] _]; rewrite Hexe in H; discriminate H. }
  destruct (manualApproval_run req w)
    as (w' & response & Hrun
        & [[_ Hrefused]
          | (H200 & _ & _ & approval & event & Hst & Hstatus & _ & Hev & Htopic
             & Hnone & _)]).
  { exfalso.
    destruct Hproc as (p & rca & Hp & Hs & Hrca).
    destruct Hrefused
      as [[_ Hn] | [(p' & Hp' & Hs' & _) | [[_ Hn] | (_ & _ & Hf)]]];
      try congruence; try contradiction. }
  destruct (Hnone Hexe) as (Hres & Hbody & Hsb & Hex & Hpo).
  exists w', approval, event. split.
  { rewrite Hrun. destruct response as [status body]. cbn in *.
    now rewrite H200, Hbody. }
  rewrite Hst. cbn [g_read g_write G_approval_pending approval_pending].
  rewrite lookup_insert_eq.
  unfold processedStatus in Hstatus. unfold processedTopic in Htopic.
  rewrite Hact in Hstatus, Htopic. repeat split; assumption.
Qed.

Lemma manualApproval_rejection_executes_nothing_witness :
  exists w' approval event,
    ManualApproval.handler rejectAndClear pendingWorld
    = (w', Ok {| ManualApproval.status := 200;
                 ManualApproval.body :=
                   ManualApproval.ApprovalBody true
                     "Incident rejectd successfully" "incident-1" "reject" |})
    /\ approval_pending (w_state w') !! "incident-1" = Some approval
    /\ pa_status approval = "rejected"
    /\ pa_executionResult approval = None
    /\ w_events w' = w_events pendingWorld ++ [event]
    /\ topic event = "fix.rejected"
    /\ w_sandbox w' = w_sandbox pendingWorld
    /\ w_execs w' = w_execs pendingWorld
    /\ w_posted w' = w_posted pendingWorld.
Proof.
  apply (manualApproval_rejection_executes_nothing rejectAndClear pendingWorld).
  - exists samplePending,
      (sampleRca "restart the api-server container" RiskHigh None).
    split; [vm_compute; reflexivity|]. split; [reflexivity|].
    vm_compute. reflexivity.
  - discriminate.
Defined.

(** X23.  When the [container] parameter of the request is missing, empty
    or a plain name (one the shell that runs [docker restart] reads as one
    word), the handler changes the sandbox only for a request it answers
    200 that approves, asks for [clear_sandbox] or [both], and comes from
    an administrator.  For every other such request, whatever it answers,
    the sandbox after the call is the sandbox before it.  (The parameter
    is not validated, and a restart is open to operators: a value with
    shell metacharacters is outside this statement.) *)
Theorem manualApproval_clears_sandbox_for_admin_only req w :
  plainContainer (ManualApproval.container req) = true ->
  exists w' response,
    ManualApproval.handler req w = (w', Ok response)
    /\ (w_sandbox w' <> w_sandbox w ->
        ManualApproval.status response = 200
        /\ ManualApproval.q_action req = "approve"
        /\ (ManualApproval.execute req = Some "clear_sandbox"
            \/ ManualApproval.execute req = Some "both")
        /\ ManualApproval.isAdmin (ManualApproval.user req) = true).
Proof.
  intros _.
  destruct (manualApproval_run req w)
    as (w' & response & Hrun
        & [[-> _]
          | (H200 & _ & Hallowed & approval & event & _ & _ & _ & _ & _ & _
             & Hkeep)]).
  { exists w, response. split; [exact Hrun|]. intros H. now contradiction H. }
  exists w', response. split; [exact Hrun|]. intros Hchanged.
  split; [exact H200|].
  destruct (executes_cases req) as [(a & Hexe & Hact & Hexec & _) | [Hexe _]].
  - split; [exact Hact|].
    assert (Hclears : clearsSandbox (executes req)).
    { destruct (String.eqb a "clear_sandbox") eqn:E1;
        [apply String.eqb_eq in E1; subst a; left; exact Hexe|].
      destruct (String.eqb a "both") eqn:E2;
        [apply String.eqb_eq in E2; subst a; right; exact Hexe|].
      exfalso. apply Hchanged, Hkeep. rewrite Hexe.
      apply String.eqb_neq in E1, E2.
      intros [H|H]; injection H as ->; contradiction. }
    split.
    + rewrite Hexec. destruct Hclears as [H|H]; rewrite Hexe in H;
        injection H as ->; auto.
    + destruct (ManualApproval.isAdmin (ManualApproval.user req)) eqn:Hadm;
        [reflexivity|].
      exfalso. apply Hallowed. split; [exact Hclears|exact Hadm].
  - exfalso. apply Hchanged, Hkeep. rewrite Hexe.
    intros [H|H]; discriminate H.
Qed.

Lemma manualApproval_clears_sandbox_for_admin_only_witness :
  exists w' response,
    ManualApproval.handler operatorRestart pendingDockerWorld
    = (w', Ok response)
    /\ ManualApproval.status response = 200
    /\ w_execs w' = 3%nat
    /\ ~ w_sandbox w' <> w_sandbox pendingDockerWorld.
Proof.
  destruct (manualApproval_clears_sandbox_for_admin_only operatorRestart
              pendingDockerWorld eq_refl)
    as (w' & response & Hrun & Honly).
  exists w', response. split; [exact Hrun|].
  assert (Hran :
    ManualApproval.status
      (match snd (ManualApproval.handler operatorRestart pendingDockerWorld)
       with
       | Ok r => r
       | Throw _ => response
       end) = 200
    /\ w_execs (fst (ManualApproval.handler operatorRestart pendingDockerWorld))
       = 3%nat)
    by (vm_compute; split; reflexivity).
  rewrite Hrun in Hran. destruct Hran as [H200 Hexecs].
  split; [exact H200|]. split; [exact Hexecs|].
  intros Hchanged. destruct (Honly Hchanged) as (_ & _ & _ & Hadmin).
  discriminate Hadmin.
Defined.

(** ** The list of pending approvals *)

Lemma filter_pending_eq (l : list PendingApproval) :
  filter (fun approval => String.eqb (pa_status approval) "pending") l
  = filter (fun approval => pa_status approval = "pending") l.
Proof.
  induction l as [|a l IH]; [reflexivity|].
  rewrite !filter_cons, IH.
  destruct (String.eqb (pa_status a) "pending") eqn:E.
  - destruct (decide (Is_true true)) as [_|Hd]; [|contradiction Hd; exact I].
    apply String.eqb_eq in E.
    destruct (decide _) as [_|Hd]; [reflexivity|contradiction].
  - destruct (decide (Is_true false)) as [[]|_].
    apply String.eqb_neq in E.
    destruct (decide _) as [Hd|_]; [contradiction|reflexivity].
Qed.

Lemma listPendingHandler_run w :
  ListPendingApprovals.listPendingHandler w
  = (w, Ok {| ListPendingApprovals.r_status := 200;
              ListPendingApprovals.pending := map listed (stillPending w) |}).
Proof.
  unfold ListPendingApprovals.listPendingHandler, tryCatch, bind,
    stateGetGroup, get, ret, stillPending.
  cbn [g_read G_approval_pending]. now rewrite filter_pending_eq.
Qed.

Lemma In_stillPending w approval :
  In approval (stillPending w)
  <-> pa_status approval = "pending"
      /\ exists key, approval_pending (w_state w) !! key = Some approval.
Proof.
  unfold stillPending.
  rewrite <- list_elem_of_In, list_elem_of_filter, list_elem_of_In, in_map_iff.
  split.
  - intros (Hs & [key a] & Ha & Hin). cbn in Ha. subst a.
    apply list_elem_of_In, elem_of_map_to_list in Hin. eauto.
  - intros (Hs & key & Hk). split; [exact Hs|].
    exists (key, approval). split; [reflexivity|].
    apply list_elem_of_In, elem_of_map_to_list. exact Hk.
Qed.

Lemma stillPending_insert w w' key old new :
  approval_pending (w_state w) !! key = Some old ->
  pa_status old = "pending" ->
  pa_status new <> "pending" ->
  approval_pending (w_state w')
  = <[key := new]> (approval_pending (w_state w)) ->
  (length (stillPending w') + 1 = length (stillPending w))%nat
  /\ forall approval,
       In approval (stillPending w') -> In approval (stillPending w).
Proof.
  intros Hold Hs Hn Hw'. split.
  - unfold stillPending. rewrite Hw'.
    rewrite <- (map_to_list_delete _ _ _ Hold).
    rewrite <- insert_delete_eq.
    rewrite map_to_list_insert by apply lookup_delete_eq.
    cbn [map snd]. rewrite !filter_cons.
    destruct (decide (pa_status new = "pending")); [contradiction|].
    destruct (decide (pa_status old = "pending")); [|contradiction].
    cbn [length]. lia.
  - intros approval. rewrite !In_stillPending.
    intros (Hp & k & Hk). split; [exact Hp|]. exists k.
    rewrite Hw' in Hk.
    destruct (decide (k = key)) as [->|Hne].
    + rewrite lookup_insert_eq in Hk. injection Hk as ->. contradiction.
    + now rewrite lookup_insert_ne in Hk by congruence.
Qed.

(** X24.  [listPendingHandler] never throws, changes nothing and answers
    200.  It lists exactly the stored approvals whose status is
    ["pending"], one item for each, showing the incident id, the status,
    the time of the request, the risk level, the RCA summary and the
    proposed fix of the approval. *)
Theorem listPendingHandler_lists_the_pending_approvals w :
  exists response,
    ListPendingApprovals.listPendingHandler w = (w, Ok response)
    /\ ListPendingApprovals.r_status response = 200
    /\ (forall item,
          In item (ListPendingApprovals.pending response)
          <-> exists key approval,
                approval_pending (w_state w) !! key = Some approval
                /\ pa_status approval = "pending"
                /\ item = listed approval)
    /\ length (ListPendingApprovals.pending response)
       = size (filter (fun kv => pa_status (snd kv) = "pending")
                 (approval_pending (w_state w))).
Proof.
  eexists. split; [apply listPendingHandler_run|].
  cbn [ListPendingApprovals.r_status ListPendingApprovals.pending].
  split; [reflexivity|]. split.
  - intros item. rewrite in_map_iff. split.
    + intros (approval & <- & Hin).
      apply In_stillPending in Hin as (Hs & key & Hk).
      exists key, approval. auto.
    + intros (key & approval & Hk & Hs & ->).
      exists approval. split; [reflexivity|].
      apply In_stillPending. eauto.
  - unfold stillPending.
    rewrite length_map, map_filter_alt, <- length_map_to_list.
    rewrite map_to_list_to_map.
    2:{ apply (sublist_NoDup _ (map_to_list (approval_pending (w_state w))).*1);
          [apply NoDup_fst_map_to_list|].
        apply fmap_sublist, sublist_filter. }
    generalize (map_to_list (approval_pending (w_state w))). intros l.
    induction l as [|[k v] l IH]; [reflexivity|].
    cbn [map]. rewrite !filter_cons. cbn [snd].
    destruct (decide (pa_status v = "pending")); cbn [length]; now rewrite IH.
Qed.

(** X25.  Processing an approval takes it off the pending list.  When the
    GET handler of [/manual-approval] has answered 200, the list of
    [/approvals/pending] is one item shorter than before, and every
    approval it still shows was shown before. *)
Theorem processed_approval_leaves_the_pending_list req w w' response :
  ManualApproval.handler req w = (w', Ok response) ->
  ManualApproval.status response = 200 ->
  exists before after,
    ListPendingApprovals.listPendingHandler w = (w, Ok before)
    /\ ListPendingApprovals.listPendingHandler w' = (w', Ok after)
    /\ (length (ListPendingApprovals.pending after) + 1
        = length (ListPendingApprovals.pending before))%nat
    /\ forall item,
         In item (ListPendingApprovals.pending after) ->
         In item (ListPendingApprovals.pending before).
Proof.
  intros Hrun H200.
  destruct (manualApproval_run req w) as (w1 & r1 & Hrun1 & Hcases).
  rewrite Hrun in Hrun1. injection Hrun1 as <- <-.
  destruct Hcases
    as [[_ [[Hs _] | [(p & _ & _ & ->) | [[Hs _] | (Hs & _)]]]]
       | (_ & (old & rca & Hold & Hpending & _) & _ & approval & event & Hst
          & Hstatus & _)];
    try (rewrite Hs in H200; discriminate H200);
    try discriminate H200.
  assert (Hnew : pa_status approval <> "pending").
  { rewrite Hstatus. unfold processedStatus.
    destruct (String.eqb _ _); discriminate. }
  destruct (stillPending_insert w w' (ManualApproval.incident req) old approval
              Hold Hpending Hnew) as [Hlen Hin].
  { now rewrite Hst. }
  do 2 eexists. split; [apply listPendingHandler_run|].
  split; [apply listPendingHandler_run|].
  cbn [ListPendingApprovals.pending]. rewrite !length_map.
  split; [exact Hlen|].
  intros item. rewrite !in_map_iff.
  intros (a & <- & Ha). exists a. auto.
Qed.

Lemma processed_approval_leaves_the_pending_list_witness :
  exists w' before after,
    ListPendingApprovals.listPendingHandler pendingWorld
    = (pendingWorld, Ok before)
    /\ ListPendingApprovals.listPendingHandler w' = (w', Ok after)
    /\ length (ListPendingApprovals.pending before) = 1%nat
    /\ length (ListPendingApprovals.pending after) = 0%nat.
Proof.
  assert (Hrun : exists w',
            ManualApproval.handler rejectAndClear pendingWorld
            = (w', Ok {| ManualApproval.status := 200;
                         ManualApproval.body :=
                           ManualApproval.ApprovalBody true
                             "Incident rejectd successfully" "incident-1"
                             "reject" |}))
    by (eexists; vm_compute; reflexivity).
  destruct Hrun as (w' & Hrun).
  destruct (processed_approval_leaves_the_pending_list rejectAndClear
              pendingWorld w' _ Hrun eq_refl)
    as (before & after & Hb & Ha & Hlen & _).
  exists w', before, after. split; [exact Hb|]. split; [exact Ha|].
  assert (H1 : length (ListPendingApprovals.pending before) = 1%nat).
  { rewrite listPendingHandler_run in Hb. injection Hb as <-.
    vm_compute. reflexivity. }
  split; [exact H1|]. lia.
Defined.

(** ** Authentication and authorisation *)

Lemma API_KEYS_lookup key config :
  Auth.API_KEYS !! key = Some config ->
  Auth.expiresAt config = None
  /\ ((key = adminKey /\ Auth.role config = ManualApproval.ADMIN)
      \/ (key = operatorKey /\ Auth.role config = ManualApproval.OPERATOR)
      \/ (key = viewerKey /\ Auth.role config = ManualApproval.VIEWER)).
Proof.
  unfold Auth.API_KEYS. intros H.
  apply lookup_insert_Some in H as [[<- <-] | [_ H]]; [auto|].
  apply lookup_insert_Some in H as [[<- <-] | [_ H]]; [auto|].
  apply lookup_insert_Some in H as [[<- <-] | [_ H]]; [auto 6|].
  rewrite lookup_empty in H. discriminate H.
Qed.

(** No configured key expires, so validation reads no clock. *)
Lemma validateApiKey_run key w :
  Auth.validateApiKey key w = (w, Ok (Auth.API_KEYS !! key)).
Proof.
  unfold Auth.validateApiKey.
  destruct (Auth.API_KEYS !! key) as [config|] eqn:E; [|reflexivity].
  destruct (API_KEYS_lookup key config E) as [-> _]. reflexivity.
Qed.

Lemma authMiddleware_run {A} http (next : ManualApproval.User -> M (Auth.Outcome A)) w :
  (exists key config,
     presents http key
     /\ Auth.API_KEYS !! key = Some config
     /\ Auth.authMiddleware http next w
        = next {| ManualApproval.role := Auth.role config;
                  ManualApproval.name := Auth.name config;
                  ManualApproval.apiKey :=
                    Auth.substringTo 10 key +:+ "..." |} w)
  \/ ((forall key, presents http key -> Auth.API_KEYS !! key = None)
      /\ exists message,
           Auth.authMiddleware http next w
           = (w, Ok (Auth.Refused 401 "Unauthorized" message))).
Proof.
  unfold Auth.authMiddleware, presents.
  destruct (Auth.truthyOpt (Auth.extractApiKey http)) as [key|].
  - unfold bind. rewrite validateApiKey_run.
    destruct (Auth.API_KEYS !! key) as [config|] eqn:E.
    + left. exists key, config. auto.
    + right. split; [|eexists; reflexivity].
      intros k Hk. now injection Hk as <-.
  - right. split; [intros k Hk; discriminate Hk|eexists; reflexivity].
Qed.

Lemma bearer_prefix token :
  String.prefix "Bearer " ("Bearer " +:+ token) = true
  /\ Auth.substringFrom 7 ("Bearer " +:+ token) = token.
Proof.
  assert (H : "Bearer " +:+ token
              = String "B" (String "e" (String "a" (String "r" (String "e"
                  (String "r" (String " " token)))))))
    by reflexivity.
  rewrite H. split; [|reflexivity].
  cbn. destruct token; reflexivity.
Qed.

(** X26.  A Bearer token decides alone.  When the [Authorization] header
    starts with "Bearer ", [extractApiKey] returns what follows and the
    other places a key may be in are not read; so a request whose Bearer
    token is empty or is not a configured key is refused 401 by
    [authMiddleware], with [next] not run, even if its [X-API-Key] header
    or its query holds a valid key. *)
Theorem bearer_token_masks_other_keys {A} http token
    (next : ManualApproval.User -> M (Auth.Outcome A)) w :
  Auth.authorization http = Some ("Bearer " +:+ token) ->
  Auth.extractApiKey http = Some token
  /\ (Auth.API_KEYS !! token = None ->
      exists message,
        Auth.authMiddleware http next w
        = (w, Ok (Auth.Refused 401 "Unauthorized" message))).
Proof.
  intros Hauth.
  destruct (bearer_prefix token) as [Hp Hs].
  assert (Hkey : Auth.extractApiKey http = Some token).
  { unfold Auth.extractApiKey. now rewrite Hauth, Hp, Hs. }
  split; [exact Hkey|]. intros Hnone.
  destruct (authMiddleware_run http next w)
    as [(key & config & Hpres & Hcfg & _) | [_ H]]; [|exact H].
  exfalso. unfold presents in Hpres. rewrite Hkey in Hpres.
  unfold Auth.truthyOpt in Hpres.
  destruct (Js.truthy token); [|discriminate Hpres].
  injection Hpres as <-. congruence.
Qed.

Lemma bearer_token_masks_other_keys_witness :
  Auth.API_KEYS !! adminKey <> None
  /\ forall (next : ManualApproval.User -> M (Auth.Outcome unit)) w,
       exists message,
         Auth.authMiddleware (withHeaders (Some "Bearer ") (Some adminKey))
           next w
         = (w, Ok (Auth.Refused 401 "Unauthorized" message)).
Proof.
  split; [vm_compute; discriminate|].
  intros next w.
  apply (bearer_token_masks_other_keys
           (withHeaders (Some "Bearer ") (Some adminKey)) "" next w).
  - reflexivity.
  - vm_compute. reflexivity.
Defined.

Lemma requireRole_operator {A} user (next : M (Auth.Outcome A)) w :
  match ManualApproval.role user with
  | ManualApproval.VIEWER =>
      Auth.requireRole ManualApproval.OPERATOR (Some user) next w
      = (w, Ok (Auth.Refused 403 "Forbidden"
                  "This operation requires operator role or higher. You have: viewer"))
  | _ => Auth.requireRole ManualApproval.OPERATOR (Some user) next w = next w
  end.
Proof.
  unfold Auth.requireRole. destruct (ManualApproval.role user); reflexivity.
Qed.

(** X27.  Behind [authMiddleware] and [requireRole(UserRole.OPERATOR)] the
    GET handler of [/manual-approval] is reached only by a request that
    presents the operator key or the administrator key; without a key or
    with a key that is not configured the answer is 401, with the viewer
    key 403, and the world is then exactly as it was.  When the
    [container] parameter is missing, empty or a plain name, the sandbox is
    changed only for a request that presents the administrator key,
    whatever user the request itself claims to be.  (A [container] value
    with shell metacharacters, which an operator may send with
    [execute=restart_container], is outside this last part.) *)
Theorem guardedManualApproval_is_guarded http req w :
  exists w' outcome,
    Auth.guardedManualApproval http req w = (w', Ok outcome)
    /\ match outcome with
       | Auth.Passed response =>
           presents http adminKey \/ presents http operatorKey
       | Auth.Refused status error message =>
           w' = w
           /\ ((status = 403 /\ presents http viewerKey)
               \/ (status = 401
                   /\ forall key, presents http key ->
                                  Auth.API_KEYS !! key = None))
       end
    /\ (plainContainer (ManualApproval.container req) = true ->
        w_sandbox w' <> w_sandbox w -> presents http adminKey).
Proof.
  unfold Auth.guardedManualApproval.
  match goal with |- context [Auth.authMiddleware http ?n w] =>
    destruct (authMiddleware_run http n w)
      as [(key & config & Hpres & Hcfg & ->) | (Hnone & message & ->)]
  end.
  2:{ do 2 eexists. split; [reflexivity|].
      split; [split; [reflexivity|right; auto]|].
      intros _ H. now contradiction H. }
  cbv zeta. cbn [ManualApproval.user].
  destruct (API_KEYS_lookup key config Hcfg)
    as [_ [[-> Hr] | [[-> Hr] | [-> Hr]]]]; rewrite Hr;
    match goal with |- context [Auth.requireRole _ (Some ?u) ?n w] =>
      pose proof (requireRole_operator u n w) as Hrole;
      cbn [ManualApproval.role] in Hrole; rewrite Hrole; clear Hrole
    end.
  - match goal with |- context [ManualApproval.handler ?r] =>
      destruct (manualApproval_run r w) as (w' & response & Hrun & Hcases)
    end.
    unfold bind. rewrite Hrun. unfold ret.
    do 2 eexists. split; [reflexivity|]. split; [left; exact Hpres|].
    intros _ _. exact Hpres.
  - match goal with |- context [ManualApproval.handler ?r] =>
      destruct (manualApproval_run r w) as (w' & response & Hrun & Hcases);
      set (req0 := r) in *
    end.
    unfold bind. rewrite Hrun. unfold ret.
    do 2 eexists. split; [reflexivity|]. split; [right; exact Hpres|].
    intros _ Hchanged. exfalso. apply Hchanged.
    destruct Hcases
      as [[-> _]
         | (_ & _ & Hallowed & approval & event & _ & _ & _ & _ & _ & _
            & Hkeep)]; [reflexivity|].
    apply Hkeep. intros Hclears. apply Hallowed.
    split; [exact Hclears|]. reflexivity.
  - do 2 eexists. split; [reflexivity|].
    split; [split; [reflexivity|left; auto]|].
    intros _ H. now contradiction H.
Qed.

Lemma guardedManualApproval_is_guarded_witness :
  exists w' response,
    Auth.guardedManualApproval
      (withHeaders (Some ("Bearer " +:+ operatorKey)) None)
      operatorRestart pendingDockerWorld
    = (w', Ok (Auth.Passed response))
    /\ ManualApproval.status response = 200
    /\ w_execs w' = 3%nat
    /\ ~ w_sandbox w' <> w_sandbox pendingDockerWorld.
Proof.
  destruct (guardedManualApproval_is_guarded
              (withHeaders (Some ("Bearer " +:+ operatorKey)) None)
              operatorRestart pendingDockerWorld)
    as (w' & outcome & Hrun & _ & Hsandbox).
  specialize (Hsandbox eq_refl).
  assert (Hran :
    match snd (Auth.guardedManualApproval
                 (withHeaders (Some ("Bearer " +:+ operatorKey)) None)
                 operatorRestart pendingDockerWorld) with
    | Ok (Auth.Passed r) => ManualApproval.status r = 200
    | _ => False
    end
    /\ w_execs (fst (Auth.guardedManualApproval
                       (withHeaders (Some ("Bearer " +:+ operatorKey)) None)
                       operatorRestart pendingDockerWorld))
       = 3%nat)
    by (vm_compute; split; reflexivity).
  rewrite Hrun in Hran. cbn [fst snd] in Hran.
  destruct outcome as [status error message | response];
    [destruct Hran as [[] _]|].
  destruct Hran as [H200 Hexecs].
  exists w', response. split; [exact Hrun|]. split; [exact H200|].
  split; [exact Hexecs|].
  intros Hchanged. specialize (Hsandbox Hchanged).
  revert Hsandbox. vm_compute. discriminate.
Defined.

(** ** The fix executor *)

#[local] Instance onlyClock_preorder : PreOrder onlyClock.
Proof.
  split.
  - intros w. split; reflexivity.
  - intros w1 w2 w3 [H1 S1] [H2 S2]. split; [|congruence].
    transitivity w2; assumption.
Qed.

Lemma onlyClock_tick w : onlyClock w (tick w).
Proof. split; [apply onlySandboxAndClock_tick | reflexivity]. Qed.

Section FixSteps.
Variable R : World -> World -> Prop.
Context `{!PreOrder R}.
Hypothesis R_tick : forall w, R w (tick w).

Lemma fixStep_pushLog text : fixStep R (FixExecutor.pushLog text) [].
Proof.
  intros s w. do 3 eexists. split; [reflexivity|].
  split; [apply R_tick|]. cbn. now rewrite app_nil_r.
Qed.

Lemma fixStep_pushAction action :
  fixStep R (FixExecutor.pushAction action) [action].
Proof.
  intros s w. do 3 eexists. split; [reflexivity|].
  split; reflexivity.
Qed.

Lemma fixStep_bind {A B} (m : L FixExecutor.Arrays A)
    (k : A -> L FixExecutor.Arrays B) a1 a2 :
  fixStep R m a1 -> (forall x, fixStep R (k x) a2) ->
  fixStep R (bindL m k) (a1 ++ a2).
Proof.
  intros Hm Hk s w.
  destruct (Hm s w) as (s1 & w1 & x & Hrun1 & Hf1 & Ha1).
  destruct (Hk x s1 w1) as (s2 & w2 & y & Hrun2 & Hf2 & Ha2).
  exists s2, w2, y. unfold bindL. rewrite Hrun1. split; [exact Hrun2|].
  split; [transitivity w1; assumption|].
  now rewrite Ha2, Ha1, app_assoc.
Qed.

Lemma fixStep_forEachL {A} (l : list A)
    (f : A -> L FixExecutor.Arrays unit) :
  (forall x, fixStep R (f x) []) -> fixStep R (forEachL l f) [].
Proof.
  intros Hf. induction l as [|x l IH].
  - intros s w. do 3 eexists. split; [reflexivity|].
    split; [reflexivity|]. now rewrite app_nil_r.
  - cbn [forEachL]. change (@nil string) with (@nil string ++ []).
    apply fixStep_bind; [apply Hf | intros _; exact IH].
Qed.

Lemma fixStep_liftL {A B} (m : M A) (Q : A -> Prop)
    (k : A -> L FixExecutor.Arrays B) actions :
  post R m Q noError -> (forall x, Q x -> fixStep R (k x) actions) ->
  fixStep R (bindL (liftL m) k) actions.
Proof.
  intros Hm Hk s w.
  destruct (post_run _ _ _ w Hm) as (w1 & x & Hrun & HR & HQ).
  destruct (Hk x HQ s w1) as (s2 & w2 & y & Hrun2 & HR2 & Ha2).
  exists s2, w2, y. unfold bindL, liftL. rewrite Hrun.
  split; [exact Hrun2|]. split; [transitivity w1; assumption | exact Ha2].
Qed.
End FixSteps.

Ltac fix_steps :=
  repeat (eapply fixStep_bind; try typeclasses eauto;
          [first [apply fixStep_pushLog | apply fixStep_pushAction];
           try typeclasses eauto; auto using onlyClock_tick
          | intros _]);
  first [apply fixStep_pushLog | apply fixStep_pushAction];
  try typeclasses eauto; auto using onlyClock_tick.

Lemma executeMemoryFix_steps :
  fixStep onlyClock FixExecutor.executeMemoryFix
    ["identify-high-memory-processes"; "clear-application-cache"; "trigger-gc"].
Proof.
  unfold FixExecutor.executeMemoryFix.
  change ["identify-high-memory-processes"; "clear-application-cache"; "trigger-gc"]
    with ([] ++ [] ++ ["identify-high-memory-processes"] ++ []
          ++ ["clear-application-cache"] ++ [] ++ ["trigger-gc"] ++ []).
  fix_steps.
Qed.

Lemma executeContainerRestart_steps :
  fixStep onlyClock FixExecutor.executeContainerRestart
    ["stop-container-api-server"; "clear-container-resources";
     "start-container-api-server"].
Proof.
  unfold FixExecutor.executeContainerRestart. cbv zeta.
  change ["stop-container-api-server"; "clear-container-resources";
          "start-container-api-server"]
    with ([] ++ [] ++ [] ++ ["stop-container-" +:+ "api-server"] ++ []
          ++ ["clear-container-resources"] ++ []
          ++ ["start-container-" +:+ "api-server"] ++ [] ++ []).
  fix_steps.
Qed.

Lemma executeDiskCleanup_steps :
  fixStep onlyClock FixExecutor.executeDiskCleanup
    ["clean-old-logs"; "clean-temp-files"; "prune-docker-images"].
Proof.
  unfold FixExecutor.executeDiskCleanup.
  change ["clean-old-logs"; "clean-temp-files"; "prune-docker-images"]
    with ([] ++ [] ++ ["clean-old-logs"] ++ [] ++ []
          ++ ["clean-temp-files"] ++ [] ++ [] ++ ["prune-docker-images"]
          ++ [] ++ []).
  fix_steps.
Qed.

Lemma executeNetworkFix_steps :
  fixStep onlyClock FixExecutor.executeNetworkFix
    ["restart-network-service"; "flush-dns-cache"; "optimize-routes"].
Proof.
  unfold FixExecutor.executeNetworkFix.
  change ["restart-network-service"; "flush-dns-cache"; "optimize-routes"]
    with ([] ++ [] ++ ["restart-network-service"] ++ []
          ++ ["flush-dns-cache"] ++ [] ++ ["optimize-routes"] ++ []).
  fix_steps.
Qed.

Lemma executeCpuFix_steps :
  fixStep onlyClock FixExecutor.executeCpuFix
    ["identify-cpu-processes"; "adjust-process-priorities"; "restart-workers"].
Proof.
  unfold FixExecutor.executeCpuFix.
  change ["identify-cpu-processes"; "adjust-process-priorities"; "restart-workers"]
    with ([] ++ [] ++ ["identify-cpu-processes"] ++ []
          ++ ["adjust-process-priorities"] ++ [] ++ ["restart-workers"] ++ []).
  fix_steps.
Qed.

Lemma fixStep_weaken {A} (m : L FixExecutor.Arrays A) actions :
  fixStep onlyClock m actions -> fixStep onlySandboxAndClock m actions.
Proof.
  intros Hm s w. destruct (Hm s w) as (s' & w' & a & Hrun & [HR _] & Ha).
  exists s', w', a. auto.
Qed.

Lemma executeCleanup_succeeds :
  post onlySandboxAndClock SandboxMonitor.executeCleanup
    (fun result => SandboxMonitor.success result = true) noError.
Proof.
  apply post_of_run. intros w.
  destruct (executeCleanup_run w) as (w' & result & Hrun & Hsucc & _).
  destruct (executeCleanup_post onlySandboxAndClock onlySandboxAndClock_tick
              unlink_onlySandbox _ _ _ Hrun) as [Hframe _].
  exists w', result. auto.
Qed.

Lemma executeSandboxCleanup_steps :
  fixStep onlySandboxAndClock FixExecutor.executeSandboxCleanup
    ["real-sandbox-cleanup"].
Proof.
  unfold FixExecutor.executeSandboxCleanup.
  pose proof onlySandboxAndClock_tick as Htick.
  change ["real-sandbox-cleanup"]
    with ([] ++ [] ++ [] ++ [] ++ [] ++ [] ++ ["real-sandbox-cleanup"]
          ++ [] ++ @nil string).
  do 3 (eapply fixStep_bind; try typeclasses eauto;
        [apply fixStep_pushLog; auto | intros _]).
  eapply fixStep_liftL; try typeclasses eauto.
  { apply sandbox_collectMetrics_post with (E := noError).
    typeclasses eauto. }
  intros beforeMetrics _.
  do 3 (eapply fixStep_bind; try typeclasses eauto;
        [apply fixStep_pushLog; auto | intros _]).
  eapply fixStep_bind; try typeclasses eauto;
    [apply fixStep_pushAction; typeclasses eauto | intros _].
  eapply fixStep_liftL; try typeclasses eauto;
    [apply executeCleanup_succeeds|].
  intros cleanupResult Hsucc.
  eapply fixStep_bind; try typeclasses eauto.
  { apply fixStep_forEachL; try typeclasses eauto.
    intros detail. apply fixStep_pushLog; auto. }
  intros _. rewrite Hsucc.
  change (@nil string) with ([] ++ [] ++ @nil string).
  do 2 (eapply fixStep_bind; try typeclasses eauto;
        [apply fixStep_pushLog; auto | intros _]).
  eapply fixStep_liftL; try typeclasses eauto.
  { apply sandbox_collectMetrics_post with (E := noError).
    typeclasses eauto. }
  intros afterMetrics _. apply fixStep_pushLog; auto.
Qed.

Lemma pushLog_run text s w :
  FixExecutor.pushLog text s w
  = ({| FixExecutor.a_logs :=
          FixExecutor.a_logs s
          ++ ["[" +:+ Js.toISOString (w_clock w (w_ticks w)) +:+ "] " +:+ text];
        FixExecutor.a_actions := FixExecutor.a_actions s |},
     tick w, Ok tt).
Proof. reflexivity. Qed.

Lemma fixStep_known {A} (R : World -> World -> Prop)
    (m : L FixExecutor.Arrays A) action actions s w :
  fixStep R m (action :: actions) ->
  exists s' w' a,
    m s w = (s', w', Ok a)
    /\ R w w'
    /\ exists pushed,
         pushed <> []
         /\ FixExecutor.a_actions s' = FixExecutor.a_actions s ++ pushed.
Proof.
  intros Hm. destruct (Hm s w) as (s' & w' & a & Hrun & HR & Ha).
  exists s', w', a. split; [exact Hrun|]. split; [exact HR|].
  exists (action :: actions). split; [discriminate | exact Ha].
Qed.

Lemma fixSwitch_run alertType s w :
  exists s' w' r,
    (if String.eqb alertType "high_memory" then FixExecutor.executeMemoryFix
     else if String.eqb alertType "container_down"
     then FixExecutor.executeContainerRestart
     else if String.eqb alertType "disk_full"
     then FixExecutor.executeDiskCleanup
     else if String.eqb alertType "network_latency"
     then FixExecutor.executeNetworkFix
     else if String.eqb alertType "cpu_spike" then FixExecutor.executeCpuFix
     else if String.eqb alertType "sandbox_disk_full"
     then FixExecutor.executeSandboxCleanup
     else
       (FixExecutor.pushLog ("Unknown alert type: " +:+ alertType) ;;
        throwL (Error ("Unknown alert type: " +:+ alertType)))%L) s w
    = (s', w', r)
    /\ onlySandboxAndClock w w'
    /\ (alertType <> "sandbox_disk_full" -> w_sandbox w' = w_sandbox w)
    /\ match r with
       | Ok _ =>
           In alertType knownAlertTypes
           /\ exists pushed,
                pushed <> []
                /\ FixExecutor.a_actions s' = FixExecutor.a_actions s ++ pushed
       | Throw e =>
           ~ In alertType knownAlertTypes
           /\ errorMessage e = "Unknown alert type: " +:+ alertType
           /\ FixExecutor.a_actions s' = FixExecutor.a_actions s
           /\ w' = tick w
       end.
Proof.
  unfold knownAlertTypes.
  destruct (String.eqb alertType "high_memory") eqn:E1.
  { apply String.eqb_eq in E1.
    destruct (fixStep_known _ _ _ _ s w executeMemoryFix_steps)
      as (s' & w' & a & Hrun & [HR Hsb] & Hpushed).
    exists s', w', (Ok a). rewrite E1. cbn [In]. auto 10. }
  destruct (String.eqb alertType "container_down") eqn:E2.
  { apply String.eqb_eq in E2.
    destruct (fixStep_known _ _ _ _ s w executeContainerRestart_steps)
      as (s' & w' & a & Hrun & [HR Hsb] & Hpushed).
    exists s', w', (Ok a). rewrite E2. cbn [In]. auto 10. }
  destruct (String.eqb alertType "disk_full") eqn:E3.
  { apply String.eqb_eq in E3.
    destruct (fixStep_known _ _ _ _ s w executeDiskCleanup_steps)
      as (s' & w' & a & Hrun & [HR Hsb] & Hpushed).
    exists s', w', (Ok a). rewrite E3. cbn [In]. auto 10. }
  destruct (String.eqb alertType "network_latency") eqn:E4.
  { apply String.eqb_eq in E4.
    destruct (fixStep_known _ _ _ _ s w executeNetworkFix_steps)
      as (s' & w' & a & Hrun & [HR Hsb] & Hpushed).
    exists s', w', (Ok a). rewrite E4. cbn [In]. auto 10. }
  destruct (String.eqb alertType "cpu_spike") eqn:E5.
  { apply String.eqb_eq in E5.
    destruct (fixStep_known _ _ _ _ s w executeCpuFix_steps)
      as (s' & w' & a & Hrun & [HR Hsb] & Hpushed).
    exists s', w', (Ok a). rewrite E5. cbn [In]. auto 10. }
  destruct (String.eqb alertType "sandbox_disk_full") eqn:E6.
  { apply String.eqb_eq in E6.
    destruct (fixStep_known _ _ _ _ s w executeSandboxCleanup_steps)
      as (s' & w' & a & Hrun & HR & Hpushed).
    exists s', w', (Ok a). rewrite E6. cbn [In].
    split; [exact Hrun|]. split; [exact HR|].
    split; [intros H; now contradiction H|]. auto 10. }
  apply String.eqb_neq in E1, E2, E3, E4, E5, E6.
  unfold bindL. rewrite pushLog_run. unfold throwL.
  do 3 eexists. split; [reflexivity|].
  split; [apply onlySandboxAndClock_tick|]. split; [reflexivity|].
  cbn [In errorMessage FixExecutor.a_actions].
  split; [intuition congruence|]. auto.
Qed.

Lemma executeFix_clears_scenario alertType proposedFix incidentId w :
  exists w' result,
    FixExecutor.executeFix alertType proposedFix incidentId w = (w', Ok result)
    /\ (FixExecutor.success result = true <-> In alertType knownAlertTypes)
    /\ (FixExecutor.success result = true -> w_scenarioActive w' = None).
Proof.
  unfold FixExecutor.executeFix, runL.
  unfold bindL at 1, liftL at 1, dateNow at 1. cbv beta iota zeta.
  unfold bindL at 1. rewrite pushLog_run.
  unfold tryCatchL, bindL at 1.
  match goal with |- context [(if String.eqb alertType "high_memory" then _ else _) ?s1 ?w1] =>
    destruct (fixSwitch_run alertType s1 w1)
      as (s2 & w2 & r & Hrun & _ & _ & Hr)
  end.
  rewrite Hrun. destruct r as [[]|e].
  - destruct Hr as (Hknown & _).
    unfold bindL, liftL, Simulator.clearScenario, modify, dateNow, getL, retL.
    repeat (rewrite pushLog_run; cbv beta iota).
    do 2 eexists. split; [reflexivity|]. cbn [FixExecutor.success].
    split; [tauto|reflexivity].
  - destruct Hr as (Hunknown & _).
    unfold bindL, liftL, dateNow, getL, retL.
    repeat (rewrite pushLog_run; cbv beta iota).
    do 2 eexists. split; [reflexivity|]. cbn [FixExecutor.success].
    split; [split; [discriminate | intros H; contradiction]|discriminate].
Qed.

Lemma logLine_run verificationLogs text w :
  FixExecutor.logLine verificationLogs text w
  = (tick w,
     Ok (verificationLogs
         ++ ["[" +:+ Js.toISOString (w_clock w (w_ticks w)) +:+ "] " +:+ text])).
Proof. reflexivity. Qed.

(** The simulator raises no alert without a scenario, and one alert with
    a scenario. *)
Lemma simulator_pipeline w :
  exists w1 metrics w2 checks w3 alerts,
    Simulator.collectMetrics w = (w1, Ok metrics)
    /\ Simulator.performHealthChecks metrics w1 = (w2, Ok checks)
    /\ Simulator.detectAlerts checks w2 = (w3, Ok alerts)
    /\ onlyClockAndRandom w w3
    /\ match w_scenarioActive w with
       | Some scenario =>
           exists alert,
             alerts = [alert]
             /\ alert_alertType alert = fst (fst (alertOfScenario scenario))
       | None => alerts = []
       end.
Proof.
  rewrite collectMetrics_run.
  unfold Simulator.performHealthChecks, newDateISO, bind, dateNow, ret.
  destruct (w_scenarioActive w) as [[]|];
    cbn - [Js.toISOString Js.toFixed Js.showZ Js.base36Fraction];
    do 6 eexists; (split; [reflexivity|]); (split; [reflexivity|]);
    (split; [reflexivity|]); (split; [repeat split|]);
    try reflexivity; eexists; split; reflexivity.
Qed.

Lemma filter_one_alert (alert : AlertData) alertType :
  length (filter (fun a => String.eqb (alertTypeName (alert_alertType a))
                             alertType) [alert])
  = if String.eqb (alertTypeName (alert_alertType alert)) alertType
    then 1%nat else 0%nat.
Proof.
  rewrite filter_cons, filter_nil.
  destruct (String.eqb _ _).
  - destruct (decide (Is_true true)) as [_|Hd]; [reflexivity|].
    contradiction Hd. exact I.
  - destruct (decide (Is_true false)) as [[]|_]. reflexivity.
Qed.

Lemma verifyFix_run alertType incidentId w :
  exists w' result,
    FixExecutor.verifyFix alertType incidentId w = (w', Ok result)
    /\ onlyClockAndRandom w w'
    /\ (alertType = "sandbox_disk_full" ->
        (FixExecutor.resolved result = true
         <-> sandboxMB w < SandboxMonitor.THRESHOLD_MB))
    /\ (alertType <> "sandbox_disk_full" ->
        (FixExecutor.resolved result = true
         <-> raisedAlertType w <> Some alertType)
        /\ (FixExecutor.resolved result = true ->
            FixExecutor.v_message result
            = "Fix successfully resolved the issue. All health checks passed.")).
Proof.
  unfold FixExecutor.verifyFix. cbv zeta.
  unfold bind at 1. rewrite logLine_run.
  destruct (String.eqb alertType "sandbox_disk_full") eqn:E.
  - apply String.eqb_eq in E.
    unfold bind at 1, SandboxMonitor.verifyCleanup, bind at 1.
    destruct (sandbox_collectMetrics_run (tick w)) as (metrics & -> & _ & HMB).
    change (w_sandbox (tick w)) with (w_sandbox w) in HMB.
    unfold ret at 1. cbv beta iota zeta.
    unfold bind at 1. rewrite logLine_run.
    unfold bind at 1. rewrite logLine_run.
    cbn [SandboxMonitor.v_success SandboxMonitor.v_message
         SandboxMonitor.currentSizeMB].
    unfold sandboxMB. rewrite <- HMB.
    destruct (SandboxMonitor.totalSizeMB metrics <? SandboxMonitor.THRESHOLD_MB)
      eqn:Hlt;
      unfold bind; rewrite logLine_run; unfold ret;
      do 2 eexists; (split; [reflexivity|]); (split; [repeat split|]);
      (split; [|intros H; contradiction]); intros _;
      cbn [FixExecutor.resolved].
    + apply Z.ltb_lt in Hlt. tauto.
    + apply Z.ltb_ge in Hlt. split; [discriminate | lia].
  - apply String.eqb_neq in E.
    destruct (simulator_pipeline (tick w))
      as (w1 & metrics & w2 & checks & w3 & alerts & Hm & Hc & Ha & Hframe
          & Halerts).
    unfold bind at 1. rewrite Hm. unfold bind at 1. rewrite Hc.
    unfold bind at 1. rewrite Ha.
    unfold bind at 1. rewrite logLine_run.
    unfold bind at 1. rewrite logLine_run.
    assert (Hframe' : onlyClockAndRandom w w3).
    { transitivity (tick w); [repeat split | exact Hframe]. }
    unfold raisedAlertType.
    change (w_scenarioActive (tick w)) with (w_scenarioActive w) in Halerts.
    destruct (w_scenarioActive w) as [scenario|].
    + destruct Halerts as (alert & -> & Htype).
      rewrite filter_one_alert, Htype.
      destruct (String.eqb
                  (alertTypeName (fst (fst (alertOfScenario scenario))))
                  alertType) eqn:Hsame;
        cbn [Nat.ltb Nat.leb]; unfold bind; rewrite ?logLine_run;
        unfold ret; do 2 eexists; (split; [reflexivity|]);
        (split; [transitivity w3; [exact Hframe' | repeat split]|]);
        (split; [intros H; contradiction|]); intros _;
        cbn [FixExecutor.resolved FixExecutor.v_message].
      * apply String.eqb_eq in Hsame. rewrite Hsame.
        split; [|discriminate]. split; [discriminate|]. intros H.
        now contradiction H.
      * apply String.eqb_neq in Hsame.
        split; [|reflexivity]. split; [|reflexivity].
        intros _ H. injection H as H. contradiction.
    + subst alerts. rewrite filter_nil. cbn [length Nat.ltb Nat.leb].
      unfold bind. rewrite ?logLine_run. unfold ret.
      do 2 eexists. split; [reflexivity|].
      split; [transitivity w3; [exact Hframe' | repeat split]|].
      split; [intros H; contradiction|]. intros _.
      cbn [FixExecutor.resolved FixExecutor.v_message].
      split; [|reflexivity]. split; [discriminate | reflexivity].
Qed.

(** X28.  [executeFix] never throws.  It succeeds exactly for the six
    alert types it has a fix for; it then has executed at least one
    action and has cleared the scenario of the simulator.  For any other
    alert type the result is a failure whose message names the unknown
    type, with no action executed, and the scenario and the sandbox are as
    they were.  The sandbox can change for ["sandbox_disk_full"] only; the
    state, the events, the container runtime and the chat webhook are
    never touched. *)
Theorem executeFix_succeeds_exactly_on_known_alert_types
    alertType proposedFix incidentId w :
  exists w' result,
    FixExecutor.executeFix alertType proposedFix incidentId w = (w', Ok result)
    /\ (FixExecutor.success result = true <-> In alertType knownAlertTypes)
    /\ (if FixExecutor.success result
        then w_scenarioActive w' = None
             /\ FixExecutor.message result
                = "Fix executed successfully for " +:+ alertType
             /\ FixExecutor.executedActions result <> []
        else w_scenarioActive w' = w_scenarioActive w
             /\ FixExecutor.message result
                = "Fix execution failed: Unknown alert type: " +:+ alertType
             /\ FixExecutor.executedActions result = []
             /\ w_sandbox w' = w_sandbox w)
    /\ (alertType <> "sandbox_disk_full" -> w_sandbox w' = w_sandbox w)
    /\ w_state w' = w_state w
    /\ w_events w' = w_events w
    /\ w_execs w' = w_execs w
    /\ w_posted w' = w_posted w.
Proof.
  unfold FixExecutor.executeFix, runL.
  unfold bindL at 1, liftL at 1, dateNow at 1. cbv beta iota zeta.
  unfold bindL at 1. rewrite pushLog_run.
  unfold tryCatchL, bindL at 1.
  match goal with |- context [(if String.eqb alertType "high_memory" then _ else _) ?s1 ?w1] =>
    destruct (fixSwitch_run alertType s1 w1)
      as (s2 & w2 & r & Hrun & Hframe & Hsb & Hr)
  end.
  rewrite Hrun.
  assert (Hframe0 : onlySandboxAndClock w w2).
  { transitivity (tick (tick w)); [repeat split | exact Hframe]. }
  destruct Hframe0 as (Hs & He & Hsc & _ & _ & _ & _ & _ & _ & Hx & _ & Hp).
  cbn [FixExecutor.a_actions FixExecutor.a_logs app] in Hr.
  destruct r as [[]|e].
  - destruct Hr as (Hknown & pushed & Hne & Hact).
    unfold bindL, liftL, Simulator.clearScenario, modify, dateNow, getL, retL.
    repeat (rewrite pushLog_run; cbv beta iota).
    do 2 eexists. split; [reflexivity|].
    cbn [FixExecutor.success FixExecutor.message FixExecutor.executedActions
         FixExecutor.a_actions FixExecutor.logs FixExecutor.a_logs].
    split; [tauto|].
    split; [split; [reflexivity|]; split; [reflexivity|]; now rewrite Hact|].
    split; [exact Hsb|].
    split; [exact Hs|]. split; [exact He|]. split; [exact Hx|].
    exact Hp.
  - destruct Hr as (Hunknown & Hmsg & Hact & ->).
    unfold bindL, liftL, dateNow, getL, retL.
    repeat (rewrite pushLog_run; cbv beta iota).
    do 2 eexists. split; [reflexivity|].
    cbn [FixExecutor.success FixExecutor.message FixExecutor.executedActions
         FixExecutor.a_actions FixExecutor.logs FixExecutor.a_logs].
    split; [split; [discriminate | intros H; contradiction]|].
    rewrite Hmsg, Hact.
    split; [repeat split; assumption|].
    split; [reflexivity|]. repeat split; assumption.
Qed.

(** X29.  [verifyFix] never throws and changes nothing but the clock and
    the random source.  For ["sandbox_disk_full"] it reports the fix as
    resolved exactly when the sandbox measures less than 100 MB, whatever
    the simulator says.  For any other alert type it asks the simulator,
    and reports resolved exactly when the active scenario, if there is
    one, raises an alert of another type (the scenario
    [sandbox_disk_full] raises [disk_full] alerts). *)
Theorem verifyFix_resolved_when_no_alert_of_the_type_remains
    alertType incidentId w :
  exists w' result,
    FixExecutor.verifyFix alertType incidentId w = (w', Ok result)
    /\ onlyClockAndRandom w w'
    /\ (alertType = "sandbox_disk_full" ->
        (FixExecutor.resolved result = true <-> sandboxMB w < 100))
    /\ (alertType <> "sandbox_disk_full" ->
        (FixExecutor.resolved result = true
         <-> raisedAlertType w <> Some alertType)).
Proof.
  destruct (verifyFix_run alertType incidentId w)
    as (w' & result & Hrun & Hframe & Hsandbox & Hother).
  exists w', result. split; [exact Hrun|]. split; [exact Hframe|].
  split; [exact Hsandbox|].
  intros H. apply Hother, H.
Qed.

(** X30.  A fix followed by its verification.  For the five simulated
    alert types [executeFix] succeeds and [verifyFix] then reports the
    fix as resolved, whatever scenario was active before.  For
    ["sandbox_disk_full"] the fix succeeds and the verification reports
    resolved exactly when the cleaned sandbox measures less than 100 MB.
    For an alert type [executeFix] does not know, the fix fails, and the
    verification reports resolved all the same. *)
Theorem executeFix_then_verifyFix alertType proposedFix incidentId w :
  exists w1 fixResult w2 verification,
    FixExecutor.executeFix alertType proposedFix incidentId w = (w1, Ok fixResult)
    /\ FixExecutor.verifyFix alertType incidentId w1 = (w2, Ok verification)
    /\ (In alertType knownAlertTypes ->
        alertType <> "sandbox_disk_full" ->
        FixExecutor.success fixResult = true
        /\ FixExecutor.resolved verification = true)
    /\ (alertType = "sandbox_disk_full" ->
        FixExecutor.success fixResult = true
        /\ (FixExecutor.resolved verification = true <-> sandboxMB w1 < 100))
    /\ (~ In alertType knownAlertTypes ->
        FixExecutor.success fixResult = false
        /\ FixExecutor.resolved verification = true).
Proof.
  destruct (executeFix_clears_scenario alertType proposedFix incidentId w)
    as (w1 & fixResult & Hfix & Hsucc & Hcleared).
  destruct (verifyFix_run alertType incidentId w1)
    as (w2 & v & Hverify & _ & Hsandbox & Hother).
  exists w1, fixResult, w2, v. split; [exact Hfix|]. split; [exact Hverify|].
  split; [|split].
  - intros Hknown Hne. apply Hsucc in Hknown. split; [exact Hknown|].
    apply (Hother Hne). unfold raisedAlertType.
    rewrite (Hcleared Hknown). discriminate.
  - intros ->. split; [|apply Hsandbox; reflexivity].
    apply Hsucc. unfold knownAlertTypes. cbn [In]. auto 10.
  - intros Hunknown.
    assert (Hfail : FixExecutor.success fixResult = false).
    { destruct (FixExecutor.success fixResult); [|reflexivity].
      exfalso. apply Hunknown, Hsucc. reflexivity. }
    split; [exact Hfail|].
    assert (Hne : alertType <> "sandbox_disk_full").
    { intros ->. apply Hunknown. unfold knownAlertTypes. cbn [In]. auto 10. }
    apply (Hother Hne). unfold raisedAlertType.
    destruct (w_scenarioActive w1) as [scenario|]; [|discriminate].
    intros H. injection H as H. apply Hunknown. rewrite <- H.
    unfold knownAlertTypes. destruct scenario; cbn; auto 10.
Qed.
